(** * The scene state engine of selfdrive/ui/ui.cc

    A shallow embedding of the functions of [selfdrive/ui/ui.cc] that
    aggregate the per-tick scene state (projection of model geometry,
    indicator fades, the rolling percent-grade estimator, the
    onroad/offroad transition) and of the [Device] brightness and
    wakefulness logic, with the properties of the natural-language
    specification stated and settled against them.

    Numbers.  The C++ code computes in [float] and [double].  Here a
    floating-point value is an exact rational or one of the IEEE 754
    non-finite values (the two infinities and NaN): arithmetic on finite
    values is exact (no rounding, no overflow, no signed zero), and the
    non-finite values arise and propagate as IEEE 754 prescribes (a division
    by zero gives an infinity or NaN, every ordered comparison with NaN is
    false).  Integers that are array indices or loop counters are [nat],
    other [int]s are [Z]. *)

From Stdlib Require Import String QArith Qround Qabs Lqa ZArith List Bool Lia.
Import ListNotations.
Open Scope Q_scope.

(** ** Floating-point values *)

Module Fl.

Inductive fl : Type :=
| Fin (q : Q)
| Inf (neg : bool)
| NaN.

Definition zero : fl := Fin 0.
Definition of_Z (z : Z) : fl := Fin (inject_Z z).
Definition of_nat (n : nat) : fl := Fin (inject_Z (Z.of_nat n)).

Definition Qlt_bool (a b : Q) : bool := negb (Qle_bool b a).

Definition is_finite (x : fl) : bool :=
  match x with Fin _ => true | _ => false end.

Definition is_nan (x : fl) : bool :=
  match x with NaN => true | _ => false end.

Definition opp (x : fl) : fl :=
  match x with
  | Fin q => Fin (- q)
  | Inf s => Inf (negb s)
  | NaN => NaN
  end.

Definition add (x y : fl) : fl :=
  match x, y with
  | Fin a, Fin b => Fin (a + b)
  | Fin _, Inf s => Inf s
  | Inf s, Fin _ => Inf s
  | Inf s, Inf s' => if Bool.eqb s s' then Inf s else NaN
  | _, _ => NaN
  end.

Definition sub (x y : fl) : fl := add x (opp y).

Definition mul (x y : fl) : fl :=
  match x, y with
  | Fin a, Fin b => Fin (a * b)
  | Fin a, Inf s => if Qeq_bool a 0 then NaN else Inf (xorb (Qlt_bool a 0) s)
  | Inf s, Fin b => if Qeq_bool b 0 then NaN else Inf (xorb s (Qlt_bool b 0))
  | Inf s, Inf s' => Inf (xorb s s')
  | _, _ => NaN
  end.

Definition div (x y : fl) : fl :=
  match x, y with
  | Fin a, Fin b =>
      if Qeq_bool b 0
      then (if Qeq_bool a 0 then NaN else Inf (Qlt_bool a 0))
      else Fin (a / b)
  | Fin _, Inf _ => Fin 0
  | Inf s, Fin b => Inf (xorb s (Qlt_bool b 0))
  | _, _ => NaN
  end.

(** The comparison operators of C++: each is false when an operand is NaN,
    except [!=], which is then true. *)
Definition lt (x y : fl) : bool :=
  match x, y with
  | Fin a, Fin b => Qlt_bool a b
  | Fin _, Inf s => negb s
  | Inf s, Fin _ => s
  | Inf s, Inf s' => s && negb s'
  | _, _ => false
  end.

Definition le (x y : fl) : bool :=
  match x, y with
  | Fin a, Fin b => Qle_bool a b
  | Fin _, Inf s => negb s
  | Inf s, Fin _ => s
  | Inf s, Inf s' => s || negb s'
  | _, _ => false
  end.

Definition gt (x y : fl) : bool := lt y x.
Definition ge (x y : fl) : bool := le y x.

Definition eqb (x y : fl) : bool :=
  match x, y with
  | Fin a, Fin b => Qeq_bool a b
  | Inf s, Inf s' => Bool.eqb s s'
  | _, _ => false
  end.

Definition neb (x y : fl) : bool := negb (eqb x y).

(** [std::abs] / [fabs]. *)
Definition abs (x : fl) : fl :=
  match x with
  | Fin q => Fin (Qabs q)
  | Inf _ => Inf false
  | NaN => NaN
  end.

(** [fmin] of <cmath>: a NaN operand is ignored when the other is a number. *)
Definition fmin (x y : fl) : fl :=
  match x, y with
  | NaN, _ => y
  | _, NaN => x
  | _, _ => if lt y x then y else x
  end.

(** [std::clamp(v, lo, hi)]: [(v < lo) ? lo : (hi < v) ? hi : v]. *)
Definition clamp (v lo hi : fl) : fl :=
  if lt v lo then lo else if lt hi v then hi else v.

(** [std::pow(x, 3.0)]. *)
Definition cube (x : fl) : fl := mul (mul x x) x.

(** Conversion of a floating-point value to [int]: truncation toward zero.
    The conversion of a non-finite value is undefined in C++; it is 0 here. *)
Definition truncQ (q : Q) : Z :=
  if Qle_bool 0 q then Qfloor q else Qceiling q.

Definition to_int (x : fl) : Z :=
  match x with
  | Fin q => truncQ q
  | _ => 0%Z
  end.

(** Two values denote the same number. *)
Definition eqv (x y : fl) : Prop :=
  match x, y with
  | Fin a, Fin b => a == b
  | Inf s, Inf s' => s = s'
  | NaN, NaN => True
  | _, _ => False
  end.

(** A finite value within the closed interval [lo, hi]. *)
Definition within (lo hi : Q) (x : fl) : Prop :=
  match x with
  | Fin q => lo <= q /\ q <= hi
  | _ => False
  end.

End Fl.

Import Fl.

Declare Scope fl_scope.
Delimit Scope fl_scope with fl.
Bind Scope fl_scope with fl.
Infix "+" := Fl.add : fl_scope.
Infix "-" := Fl.sub : fl_scope.
Infix "*" := Fl.mul : fl_scope.
Infix "/" := Fl.div : fl_scope.
Infix "<?" := Fl.lt : fl_scope.
Infix "<=?" := Fl.le : fl_scope.
Infix ">?" := Fl.gt : fl_scope.
Infix ">=?" := Fl.ge : fl_scope.
Infix "!=?" := Fl.neb (at level 70) : fl_scope.
Infix "==" := Fl.eqv : fl_scope.
Coercion Fin : Q >-> fl.

(** ** Data model *)

(** Arrays are lists; [a[i]] is [nth i a 0] and [a[i] = x] is [upd i x a].
    An index outside the array reads 0 and writes nothing (the C++ code
    never checks an index). *)
Definition at_ (i : nat) (a : list fl) : fl := nth i a zero.

Fixpoint upd {A : Type} (i : nat) (x : A) (a : list A) : list A :=
  match a, i with
  | [], _ => []
  | _ :: a', O => x :: a'
  | y :: a', S i' => y :: upd i' x a'
  end.

Record vec3 : Type := mkvec3 { vec3_v : list fl }.
Record mat3 : Type := mkmat3 { mat3_v : list fl }.

Record vertex_data : Type := mkvertex { vx : fl; vy : fl }.

Record line_vertices_data : Type := mklines {
  v : list vertex_data;
  cnt : nat
}.

Inductive UIStatus : Type :=
| STATUS_DISENGAGED
| STATUS_ENGAGED
| STATUS_WARNING
| STATUS_ALERT.

(** *** Messages (the fields of the cereal readers that ui.cc reads) *)

Inductive AlertStatus : Type := NORMAL | USER_PROMPT | CRITICAL.

Record ControlsState : Type := mkControlsState {
  getVCruise : fl;
  getAlertStatus : AlertStatus;
  getEnabled : bool
}.

Record CarState : Type := mkCarState {
  getVEgo : fl;
  getFrictionBrakePercent : Z;
  getOnePedalModeActive : bool;
  getCoastOnePedalModeActive : bool
}.

Record XYZTData : Type := mkXYZT {
  getX : list fl;
  getY : list fl;
  getZ : list fl
}.

Record LeadDataV3 : Type := mkLead {
  getProb : fl;
  leadX : list fl;
  leadY : list fl
}.

Record ModelDataV2 : Type := mkModel {
  getPosition : XYZTData;
  getLaneLines : list XYZTData;
  getLaneLineProbs : list fl;
  getRoadEdges : list XYZTData;
  getRoadEdgeStds : list fl;
  getLeadsV3 : list LeadDataV3
}.

Record PandaState : Type := mkPandaState {
  getIgnitionLine : bool;
  getIgnitionCan : bool
}.

Inductive SensorEventData : Type :=
| ACCELERATION (getV : list fl)
| GYRO_UNCALIBRATED (getV : list fl)
| OTHER_SENSOR.

Record RoadCameraState : Type := mkRoadCameraState {
  getGain : fl;
  getIntegLines : Z
}.

(** The state of the [SubMaster] after [update_sockets]: which topics
    received a message in this tick, and the last message of each topic. *)
Record SubMaster : Type := mkSubMaster {
  updated : string -> bool;
  frame : Z;
  getControlsState : ControlsState;
  getCarState : CarState;
  getModelV2 : ModelDataV2;
  getRpyCalib : list fl;
  getPandaState : PandaState;
  getSensorEvents : list SensorEventData;
  getRoadCameraState : RoadCameraState;
  getDeviceStarted : bool;
  getAltitude : fl
}.

(** The persistent parameters read through [Params()]. *)
Record Params : Type := mkParams {
  OnePedalMode : bool;
  DisableDisengageOnGas : bool;
  FrictionBrakePercent : Z;
  EnableWideCamera : bool
}.


(** *** The scene (the fields of [UIScene] that the functions below use) *)

Record UIScene : Type := mkUIScene {
  started : bool;
  ignition : bool;
  world_objects_visible : bool;
  view_from_calib : mat3;
  light_sensor : fl;
  accel_sensor : fl;
  gyro_sensor : fl;
  lane_line_probs : list fl;
  road_edge_stds : list fl;
  track_vertices : line_vertices_data;
  lane_line_vertices : list line_vertices_data;
  road_edge_vertices : list line_vertices_data;
  lead_vertices : list vertex_data;
  controls_state : ControlsState;
  car_state : CarState;
  onePedalModeActive : bool;
  disableDisengageOnGasEnabled : bool;
  paramsCheckLast : fl;
  paramsCheckFreq : fl;
  brake_percent : Z;
  brake_indicator_alpha : fl;
  brake_indicator_last_t : fl;
  one_pedal_fade : fl;
  one_pedal_fade_last_t : fl;
  sessionInitTime : fl;
  percentGradeCurDist : fl;
  percentGradeLenStep : fl;
  percentGradeLastTime : fl;
  percentGrade : fl;
  percentGradeAltitudes : list fl;
  percentGradePositions : list fl;
  percentGrades : list fl;
  percentGradeRollingIter : nat;
  percentGradeNumSamples : nat;
  percentGradeIterRolled : bool;
  altitudeUblox : fl;
  lastTime : fl
}.

(** Assignment to a field of the scene: [set_f x sc] is [sc] after [scene.f = x]. *)
Definition set_started (x : bool) (sc : UIScene) : UIScene :=
  mkUIScene x (ignition sc) (world_objects_visible sc) (view_from_calib sc)
  (light_sensor sc) (accel_sensor sc) (gyro_sensor sc) (lane_line_probs sc)
  (road_edge_stds sc) (track_vertices sc) (lane_line_vertices sc)
  (road_edge_vertices sc) (lead_vertices sc) (controls_state sc) (car_state
  sc) (onePedalModeActive sc) (disableDisengageOnGasEnabled sc)
  (paramsCheckLast sc) (paramsCheckFreq sc) (brake_percent sc)
  (brake_indicator_alpha sc) (brake_indicator_last_t sc) (one_pedal_fade sc)
  (one_pedal_fade_last_t sc) (sessionInitTime sc) (percentGradeCurDist sc)
  (percentGradeLenStep sc) (percentGradeLastTime sc) (percentGrade sc)
  (percentGradeAltitudes sc) (percentGradePositions sc) (percentGrades sc)
  (percentGradeRollingIter sc) (percentGradeNumSamples sc)
  (percentGradeIterRolled sc) (altitudeUblox sc) (lastTime sc).

Definition set_ignition (x : bool) (sc : UIScene) : UIScene :=
  mkUIScene (started sc) x (world_objects_visible sc) (view_from_calib sc)
  (light_sensor sc) (accel_sensor sc) (gyro_sensor sc) (lane_line_probs sc)
  (road_edge_stds sc) (track_vertices sc) (lane_line_vertices sc)
  (road_edge_vertices sc) (lead_vertices sc) (controls_state sc) (car_state
  sc) (onePedalModeActive sc) (disableDisengageOnGasEnabled sc)
  (paramsCheckLast sc) (paramsCheckFreq sc) (brake_percent sc)
  (brake_indicator_alpha sc) (brake_indicator_last_t sc) (one_pedal_fade sc)
  (one_pedal_fade_last_t sc) (sessionInitTime sc) (percentGradeCurDist sc)
  (percentGradeLenStep sc) (percentGradeLastTime sc) (percentGrade sc)
  (percentGradeAltitudes sc) (percentGradePositions sc) (percentGrades sc)
  (percentGradeRollingIter sc) (percentGradeNumSamples sc)
  (percentGradeIterRolled sc) (altitudeUblox sc) (lastTime sc).

Definition set_world_objects_visible (x : bool) (sc : UIScene) : UIScene :=
  mkUIScene (started sc) (ignition sc) x (view_from_calib sc) (light_sensor
  sc) (accel_sensor sc) (gyro_sensor sc) (lane_line_probs sc) (road_edge_stds
  sc) (track_vertices sc) (lane_line_vertices sc) (road_edge_vertices sc)
  (lead_vertices sc) (controls_state sc) (car_state sc) (onePedalModeActive
  sc) (disableDisengageOnGasEnabled sc) (paramsCheckLast sc) (paramsCheckFreq
  sc) (brake_percent sc) (brake_indicator_alpha sc) (brake_indicator_last_t
  sc) (one_pedal_fade sc) (one_pedal_fade_last_t sc) (sessionInitTime sc)
  (percentGradeCurDist sc) (percentGradeLenStep sc) (percentGradeLastTime sc)
  (percentGrade sc) (percentGradeAltitudes sc) (percentGradePositions sc)
  (percentGrades sc) (percentGradeRollingIter sc) (percentGradeNumSamples sc)
  (percentGradeIterRolled sc) (altitudeUblox sc) (lastTime sc).

Definition set_view_from_calib (x : mat3) (sc : UIScene) : UIScene :=
  mkUIScene (started sc) (ignition sc) (world_objects_visible sc) x
  (light_sensor sc) (accel_sensor sc) (gyro_sensor sc) (lane_line_probs sc)
  (road_edge_stds sc) (track_vertices sc) (lane_line_vertices sc)
  (road_edge_vertices sc) (lead_vertices sc) (controls_state sc) (car_state
  sc) (onePedalModeActive sc) (disableDisengageOnGasEnabled sc)
  (paramsCheckLast sc) (paramsCheckFreq sc) (brake_percent sc)
  (brake_indicator_alpha sc) (brake_indicator_last_t sc) (one_pedal_fade sc)
  (one_pedal_fade_last_t sc) (sessionInitTime sc) (percentGradeCurDist sc)
  (percentGradeLenStep sc) (percentGradeLastTime sc) (percentGrade sc)
  (percentGradeAltitudes sc) (percentGradePositions sc) (percentGrades sc)
  (percentGradeRollingIter sc) (percentGradeNumSamples sc)
  (percentGradeIterRolled sc) (altitudeUblox sc) (lastTime sc).

Definition set_light_sensor (x : fl) (sc : UIScene) : UIScene :=
  mkUIScene (started sc) (ignition sc) (world_objects_visible sc)
  (view_from_calib sc) x (accel_sensor sc) (gyro_sensor sc) (lane_line_probs
  sc) (road_edge_stds sc) (track_vertices sc) (lane_line_vertices sc)
  (road_edge_vertices sc) (lead_vertices sc) (controls_state sc) (car_state
  sc) (onePedalModeActive sc) (disableDisengageOnGasEnabled sc)
  (paramsCheckLast sc) (paramsCheckFreq sc) (brake_percent sc)
  (brake_indicator_alpha sc) (brake_indicator_last_t sc) (one_pedal_fade sc)
  (one_pedal_fade_last_t sc) (sessionInitTime sc) (percentGradeCurDist sc)
  (percentGradeLenStep sc) (percentGradeLastTime sc) (percentGrade sc)
  (percentGradeAltitudes sc) (percentGradePositions sc) (percentGrades sc)
  (percentGradeRollingIter sc) (percentGradeNumSamples sc)
  (percentGradeIterRolled sc) (altitudeUblox sc) (lastTime sc).

Definition set_accel_sensor (x : fl) (sc : UIScene) : UIScene :=
  mkUIScene (started sc) (ignition sc) (world_objects_visible sc)
  (view_from_calib sc) (light_sensor sc) x (gyro_sensor sc) (lane_line_probs
  sc) (road_edge_stds sc) (track_vertices sc) (lane_line_vertices sc)
  (road_edge_vertices sc) (lead_vertices sc) (controls_state sc) (car_state
  sc) (onePedalModeActive sc) (disableDisengageOnGasEnabled sc)
  (paramsCheckLast sc) (paramsCheckFreq sc) (brake_percent sc)
  (brake_indicator_alpha sc) (brake_indicator_last_t sc) (one_pedal_fade sc)
  (one_pedal_fade_last_t sc) (sessionInitTime sc) (percentGradeCurDist sc)
  (percentGradeLenStep sc) (percentGradeLastTime sc) (percentGrade sc)
  (percentGradeAltitudes sc) (percentGradePositions sc) (percentGrades sc)
  (percentGradeRollingIter sc) (percentGradeNumSamples sc)
  (percentGradeIterRolled sc) (altitudeUblox sc) (lastTime sc).

Definition set_gyro_sensor (x : fl) (sc : UIScene) : UIScene :=
  mkUIScene (started sc) (ignition sc) (world_objects_visible sc)
  (view_from_calib sc) (light_sensor sc) (accel_sensor sc) x (lane_line_probs
  sc) (road_edge_stds sc) (track_vertices sc) (lane_line_vertices sc)
  (road_edge_vertices sc) (lead_vertices sc) (controls_state sc) (car_state
  sc) (onePedalModeActive sc) (disableDisengageOnGasEnabled sc)
  (paramsCheckLast sc) (paramsCheckFreq sc) (brake_percent sc)
  (brake_indicator_alpha sc) (brake_indicator_last_t sc) (one_pedal_fade sc)
  (one_pedal_fade_last_t sc) (sessionInitTime sc) (percentGradeCurDist sc)
  (percentGradeLenStep sc) (percentGradeLastTime sc) (percentGrade sc)
  (percentGradeAltitudes sc) (percentGradePositions sc) (percentGrades sc)
  (percentGradeRollingIter sc) (percentGradeNumSamples sc)
  (percentGradeIterRolled sc) (altitudeUblox sc) (lastTime sc).

Definition set_lane_line_probs (x : list fl) (sc : UIScene) : UIScene :=
  mkUIScene (started sc) (ignition sc) (world_objects_visible sc)
  (view_from_calib sc) (light_sensor sc) (accel_sensor sc) (gyro_sensor sc) x
  (road_edge_stds sc) (track_vertices sc) (lane_line_vertices sc)
  (road_edge_vertices sc) (lead_vertices sc) (controls_state sc) (car_state
  sc) (onePedalModeActive sc) (disableDisengageOnGasEnabled sc)
  (paramsCheckLast sc) (paramsCheckFreq sc) (brake_percent sc)
  (brake_indicator_alpha sc) (brake_indicator_last_t sc) (one_pedal_fade sc)
  (one_pedal_fade_last_t sc) (sessionInitTime sc) (percentGradeCurDist sc)
  (percentGradeLenStep sc) (percentGradeLastTime sc) (percentGrade sc)
  (percentGradeAltitudes sc) (percentGradePositions sc) (percentGrades sc)
  (percentGradeRollingIter sc) (percentGradeNumSamples sc)
  (percentGradeIterRolled sc) (altitudeUblox sc) (lastTime sc).

Definition set_road_edge_stds (x : list fl) (sc : UIScene) : UIScene :=
  mkUIScene (started sc) (ignition sc) (world_objects_visible sc)
  (view_from_calib sc) (light_sensor sc) (accel_sensor sc) (gyro_sensor sc)
  (lane_line_probs sc) x (track_vertices sc) (lane_line_vertices sc)
  (road_edge_vertices sc) (lead_vertices sc) (controls_state sc) (car_state
  sc) (onePedalModeActive sc) (disableDisengageOnGasEnabled sc)
  (paramsCheckLast sc) (paramsCheckFreq sc) (brake_percent sc)
  (brake_indicator_alpha sc) (brake_indicator_last_t sc) (one_pedal_fade sc)
  (one_pedal_fade_last_t sc) (sessionInitTime sc) (percentGradeCurDist sc)
  (percentGradeLenStep sc) (percentGradeLastTime sc) (percentGrade sc)
  (percentGradeAltitudes sc) (percentGradePositions sc) (percentGrades sc)
  (percentGradeRollingIter sc) (percentGradeNumSamples sc)
  (percentGradeIterRolled sc) (altitudeUblox sc) (lastTime sc).

Definition set_track_vertices (x : line_vertices_data) (sc : UIScene) : UIScene :=
  mkUIScene (started sc) (ignition sc) (world_objects_visible sc)
  (view_from_calib sc) (light_sensor sc) (accel_sensor sc) (gyro_sensor sc)
  (lane_line_probs sc) (road_edge_stds sc) x (lane_line_vertices sc)
  (road_edge_vertices sc) (lead_vertices sc) (controls_state sc) (car_state
  sc) (onePedalModeActive sc) (disableDisengageOnGasEnabled sc)
  (paramsCheckLast sc) (paramsCheckFreq sc) (brake_percent sc)
  (brake_indicator_alpha sc) (brake_indicator_last_t sc) (one_pedal_fade sc)
  (one_pedal_fade_last_t sc) (sessionInitTime sc) (percentGradeCurDist sc)
  (percentGradeLenStep sc) (percentGradeLastTime sc) (percentGrade sc)
  (percentGradeAltitudes sc) (percentGradePositions sc) (percentGrades sc)
  (percentGradeRollingIter sc) (percentGradeNumSamples sc)
  (percentGradeIterRolled sc) (altitudeUblox sc) (lastTime sc).

Definition set_lane_line_vertices (x : list line_vertices_data) (sc : UIScene) : UIScene :=
  mkUIScene (started sc) (ignition sc) (world_objects_visible sc)
  (view_from_calib sc) (light_sensor sc) (accel_sensor sc) (gyro_sensor sc)
  (lane_line_probs sc) (road_edge_stds sc) (track_vertices sc) x
  (road_edge_vertices sc) (lead_vertices sc) (controls_state sc) (car_state
  sc) (onePedalModeActive sc) (disableDisengageOnGasEnabled sc)
  (paramsCheckLast sc) (paramsCheckFreq sc) (brake_percent sc)
  (brake_indicator_alpha sc) (brake_indicator_last_t sc) (one_pedal_fade sc)
  (one_pedal_fade_last_t sc) (sessionInitTime sc) (percentGradeCurDist sc)
  (percentGradeLenStep sc) (percentGradeLastTime sc) (percentGrade sc)
  (percentGradeAltitudes sc) (percentGradePositions sc) (percentGrades sc)
  (percentGradeRollingIter sc) (percentGradeNumSamples sc)
  (percentGradeIterRolled sc) (altitudeUblox sc) (lastTime sc).

Definition set_road_edge_vertices (x : list line_vertices_data) (sc : UIScene) : UIScene :=
  mkUIScene (started sc) (ignition sc) (world_objects_visible sc)
  (view_from_calib sc) (light_sensor sc) (accel_sensor sc) (gyro_sensor sc)
  (lane_line_probs sc) (road_edge_stds sc) (track_vertices sc)
  (lane_line_vertices sc) x (lead_vertices sc) (controls_state sc) (car_state
  sc) (onePedalModeActive sc) (disableDisengageOnGasEnabled sc)
  (paramsCheckLast sc) (paramsCheckFreq sc) (brake_percent sc)
  (brake_indicator_alpha sc) (brake_indicator_last_t sc) (one_pedal_fade sc)
  (one_pedal_fade_last_t sc) (sessionInitTime sc) (percentGradeCurDist sc)
  (percentGradeLenStep sc) (percentGradeLastTime sc) (percentGrade sc)
  (percentGradeAltitudes sc) (percentGradePositions sc) (percentGrades sc)
  (percentGradeRollingIter sc) (percentGradeNumSamples sc)
  (percentGradeIterRolled sc) (altitudeUblox sc) (lastTime sc).

Definition set_lead_vertices (x : list vertex_data) (sc : UIScene) : UIScene :=
  mkUIScene (started sc) (ignition sc) (world_objects_visible sc)
  (view_from_calib sc) (light_sensor sc) (accel_sensor sc) (gyro_sensor sc)
  (lane_line_probs sc) (road_edge_stds sc) (track_vertices sc)
  (lane_line_vertices sc) (road_edge_vertices sc) x (controls_state sc)
  (car_state sc) (onePedalModeActive sc) (disableDisengageOnGasEnabled sc)
  (paramsCheckLast sc) (paramsCheckFreq sc) (brake_percent sc)
  (brake_indicator_alpha sc) (brake_indicator_last_t sc) (one_pedal_fade sc)
  (one_pedal_fade_last_t sc) (sessionInitTime sc) (percentGradeCurDist sc)
  (percentGradeLenStep sc) (percentGradeLastTime sc) (percentGrade sc)
  (percentGradeAltitudes sc) (percentGradePositions sc) (percentGrades sc)
  (percentGradeRollingIter sc) (percentGradeNumSamples sc)
  (percentGradeIterRolled sc) (altitudeUblox sc) (lastTime sc).

Definition set_controls_state (x : ControlsState) (sc : UIScene) : UIScene :=
  mkUIScene (started sc) (ignition sc) (world_objects_visible sc)
  (view_from_calib sc) (light_sensor sc) (accel_sensor sc) (gyro_sensor sc)
  (lane_line_probs sc) (road_edge_stds sc) (track_vertices sc)
  (lane_line_vertices sc) (road_edge_vertices sc) (lead_vertices sc) x
  (car_state sc) (onePedalModeActive sc) (disableDisengageOnGasEnabled sc)
  (paramsCheckLast sc) (paramsCheckFreq sc) (brake_percent sc)
  (brake_indicator_alpha sc) (brake_indicator_last_t sc) (one_pedal_fade sc)
  (one_pedal_fade_last_t sc) (sessionInitTime sc) (percentGradeCurDist sc)
  (percentGradeLenStep sc) (percentGradeLastTime sc) (percentGrade sc)
  (percentGradeAltitudes sc) (percentGradePositions sc) (percentGrades sc)
  (percentGradeRollingIter sc) (percentGradeNumSamples sc)
  (percentGradeIterRolled sc) (altitudeUblox sc) (lastTime sc).

Definition set_car_state (x : CarState) (sc : UIScene) : UIScene :=
  mkUIScene (started sc) (ignition sc) (world_objects_visible sc)
  (view_from_calib sc) (light_sensor sc) (accel_sensor sc) (gyro_sensor sc)
  (lane_line_probs sc) (road_edge_stds sc) (track_vertices sc)
  (lane_line_vertices sc) (road_edge_vertices sc) (lead_vertices sc)
  (controls_state sc) x (onePedalModeActive sc) (disableDisengageOnGasEnabled
  sc) (paramsCheckLast sc) (paramsCheckFreq sc) (brake_percent sc)
  (brake_indicator_alpha sc) (brake_indicator_last_t sc) (one_pedal_fade sc)
  (one_pedal_fade_last_t sc) (sessionInitTime sc) (percentGradeCurDist sc)
  (percentGradeLenStep sc) (percentGradeLastTime sc) (percentGrade sc)
  (percentGradeAltitudes sc) (percentGradePositions sc) (percentGrades sc)
  (percentGradeRollingIter sc) (percentGradeNumSamples sc)
  (percentGradeIterRolled sc) (altitudeUblox sc) (lastTime sc).

Definition set_onePedalModeActive (x : bool) (sc : UIScene) : UIScene :=
  mkUIScene (started sc) (ignition sc) (world_objects_visible sc)
  (view_from_calib sc) (light_sensor sc) (accel_sensor sc) (gyro_sensor sc)
  (lane_line_probs sc) (road_edge_stds sc) (track_vertices sc)
  (lane_line_vertices sc) (road_edge_vertices sc) (lead_vertices sc)
  (controls_state sc) (car_state sc) x (disableDisengageOnGasEnabled sc)
  (paramsCheckLast sc) (paramsCheckFreq sc) (brake_percent sc)
  (brake_indicator_alpha sc) (brake_indicator_last_t sc) (one_pedal_fade sc)
  (one_pedal_fade_last_t sc) (sessionInitTime sc) (percentGradeCurDist sc)
  (percentGradeLenStep sc) (percentGradeLastTime sc) (percentGrade sc)
  (percentGradeAltitudes sc) (percentGradePositions sc) (percentGrades sc)
  (percentGradeRollingIter sc) (percentGradeNumSamples sc)
  (percentGradeIterRolled sc) (altitudeUblox sc) (lastTime sc).

Definition set_disableDisengageOnGasEnabled (x : bool) (sc : UIScene) : UIScene :=
  mkUIScene (started sc) (ignition sc) (world_objects_visible sc)
  (view_from_calib sc) (light_sensor sc) (accel_sensor sc) (gyro_sensor sc)
  (lane_line_probs sc) (road_edge_stds sc) (track_vertices sc)
  (lane_line_vertices sc) (road_edge_vertices sc) (lead_vertices sc)
  (controls_state sc) (car_state sc) (onePedalModeActive sc) x
  (paramsCheckLast sc) (paramsCheckFreq sc) (brake_percent sc)
  (brake_indicator_alpha sc) (brake_indicator_last_t sc) (one_pedal_fade sc)
  (one_pedal_fade_last_t sc) (sessionInitTime sc) (percentGradeCurDist sc)
  (percentGradeLenStep sc) (percentGradeLastTime sc) (percentGrade sc)
  (percentGradeAltitudes sc) (percentGradePositions sc) (percentGrades sc)
  (percentGradeRollingIter sc) (percentGradeNumSamples sc)
  (percentGradeIterRolled sc) (altitudeUblox sc) (lastTime sc).

Definition set_brake_percent (x : Z) (sc : UIScene) : UIScene :=
  mkUIScene (started sc) (ignition sc) (world_objects_visible sc)
  (view_from_calib sc) (light_sensor sc) (accel_sensor sc) (gyro_sensor sc)
  (lane_line_probs sc) (road_edge_stds sc) (track_vertices sc)
  (lane_line_vertices sc) (road_edge_vertices sc) (lead_vertices sc)
  (controls_state sc) (car_state sc) (onePedalModeActive sc)
  (disableDisengageOnGasEnabled sc) (paramsCheckLast sc) (paramsCheckFreq sc)
  x (brake_indicator_alpha sc) (brake_indicator_last_t sc) (one_pedal_fade sc)
  (one_pedal_fade_last_t sc) (sessionInitTime sc) (percentGradeCurDist sc)
  (percentGradeLenStep sc) (percentGradeLastTime sc) (percentGrade sc)
  (percentGradeAltitudes sc) (percentGradePositions sc) (percentGrades sc)
  (percentGradeRollingIter sc) (percentGradeNumSamples sc)
  (percentGradeIterRolled sc) (altitudeUblox sc) (lastTime sc).

Definition set_brake_indicator_alpha (x : fl) (sc : UIScene) : UIScene :=
  mkUIScene (started sc) (ignition sc) (world_objects_visible sc)
  (view_from_calib sc) (light_sensor sc) (accel_sensor sc) (gyro_sensor sc)
  (lane_line_probs sc) (road_edge_stds sc) (track_vertices sc)
  (lane_line_vertices sc) (road_edge_vertices sc) (lead_vertices sc)
  (controls_state sc) (car_state sc) (onePedalModeActive sc)
  (disableDisengageOnGasEnabled sc) (paramsCheckLast sc) (paramsCheckFreq sc)
  (brake_percent sc) x (brake_indicator_last_t sc) (one_pedal_fade sc)
  (one_pedal_fade_last_t sc) (sessionInitTime sc) (percentGradeCurDist sc)
  (percentGradeLenStep sc) (percentGradeLastTime sc) (percentGrade sc)
  (percentGradeAltitudes sc) (percentGradePositions sc) (percentGrades sc)
  (percentGradeRollingIter sc) (percentGradeNumSamples sc)
  (percentGradeIterRolled sc) (altitudeUblox sc) (lastTime sc).

Definition set_brake_indicator_last_t (x : fl) (sc : UIScene) : UIScene :=
  mkUIScene (started sc) (ignition sc) (world_objects_visible sc)
  (view_from_calib sc) (light_sensor sc) (accel_sensor sc) (gyro_sensor sc)
  (lane_line_probs sc) (road_edge_stds sc) (track_vertices sc)
  (lane_line_vertices sc) (road_edge_vertices sc) (lead_vertices sc)
  (controls_state sc) (car_state sc) (onePedalModeActive sc)
  (disableDisengageOnGasEnabled sc) (paramsCheckLast sc) (paramsCheckFreq sc)
  (brake_percent sc) (brake_indicator_alpha sc) x (one_pedal_fade sc)
  (one_pedal_fade_last_t sc) (sessionInitTime sc) (percentGradeCurDist sc)
  (percentGradeLenStep sc) (percentGradeLastTime sc) (percentGrade sc)
  (percentGradeAltitudes sc) (percentGradePositions sc) (percentGrades sc)
  (percentGradeRollingIter sc) (percentGradeNumSamples sc)
  (percentGradeIterRolled sc) (altitudeUblox sc) (lastTime sc).

Definition set_one_pedal_fade (x : fl) (sc : UIScene) : UIScene :=
  mkUIScene (started sc) (ignition sc) (world_objects_visible sc)
  (view_from_calib sc) (light_sensor sc) (accel_sensor sc) (gyro_sensor sc)
  (lane_line_probs sc) (road_edge_stds sc) (track_vertices sc)
  (lane_line_vertices sc) (road_edge_vertices sc) (lead_vertices sc)
  (controls_state sc) (car_state sc) (onePedalModeActive sc)
  (disableDisengageOnGasEnabled sc) (paramsCheckLast sc) (paramsCheckFreq sc)
  (brake_percent sc) (brake_indicator_alpha sc) (brake_indicator_last_t sc) x
  (one_pedal_fade_last_t sc) (sessionInitTime sc) (percentGradeCurDist sc)
  (percentGradeLenStep sc) (percentGradeLastTime sc) (percentGrade sc)
  (percentGradeAltitudes sc) (percentGradePositions sc) (percentGrades sc)
  (percentGradeRollingIter sc) (percentGradeNumSamples sc)
  (percentGradeIterRolled sc) (altitudeUblox sc) (lastTime sc).

Definition set_one_pedal_fade_last_t (x : fl) (sc : UIScene) : UIScene :=
  mkUIScene (started sc) (ignition sc) (world_objects_visible sc)
  (view_from_calib sc) (light_sensor sc) (accel_sensor sc) (gyro_sensor sc)
  (lane_line_probs sc) (road_edge_stds sc) (track_vertices sc)
  (lane_line_vertices sc) (road_edge_vertices sc) (lead_vertices sc)
  (controls_state sc) (car_state sc) (onePedalModeActive sc)
  (disableDisengageOnGasEnabled sc) (paramsCheckLast sc) (paramsCheckFreq sc)
  (brake_percent sc) (brake_indicator_alpha sc) (brake_indicator_last_t sc)
  (one_pedal_fade sc) x (sessionInitTime sc) (percentGradeCurDist sc)
  (percentGradeLenStep sc) (percentGradeLastTime sc) (percentGrade sc)
  (percentGradeAltitudes sc) (percentGradePositions sc) (percentGrades sc)
  (percentGradeRollingIter sc) (percentGradeNumSamples sc)
  (percentGradeIterRolled sc) (altitudeUblox sc) (lastTime sc).

Definition set_sessionInitTime (x : fl) (sc : UIScene) : UIScene :=
  mkUIScene (started sc) (ignition sc) (world_objects_visible sc)
  (view_from_calib sc) (light_sensor sc) (accel_sensor sc) (gyro_sensor sc)
  (lane_line_probs sc) (road_edge_stds sc) (track_vertices sc)
  (lane_line_vertices sc) (road_edge_vertices sc) (lead_vertices sc)
  (controls_state sc) (car_state sc) (onePedalModeActive sc)
  (disableDisengageOnGasEnabled sc) (paramsCheckLast sc) (paramsCheckFreq sc)
  (brake_percent sc) (brake_indicator_alpha sc) (brake_indicator_last_t sc)
  (one_pedal_fade sc) (one_pedal_fade_last_t sc) x (percentGradeCurDist sc)
  (percentGradeLenStep sc) (percentGradeLastTime sc) (percentGrade sc)
  (percentGradeAltitudes sc) (percentGradePositions sc) (percentGrades sc)
  (percentGradeRollingIter sc) (percentGradeNumSamples sc)
  (percentGradeIterRolled sc) (altitudeUblox sc) (lastTime sc).

Definition set_percentGradeCurDist (x : fl) (sc : UIScene) : UIScene :=
  mkUIScene (started sc) (ignition sc) (world_objects_visible sc)
  (view_from_calib sc) (light_sensor sc) (accel_sensor sc) (gyro_sensor sc)
  (lane_line_probs sc) (road_edge_stds sc) (track_vertices sc)
  (lane_line_vertices sc) (road_edge_vertices sc) (lead_vertices sc)
  (controls_state sc) (car_state sc) (onePedalModeActive sc)
  (disableDisengageOnGasEnabled sc) (paramsCheckLast sc) (paramsCheckFreq sc)
  (brake_percent sc) (brake_indicator_alpha sc) (brake_indicator_last_t sc)
  (one_pedal_fade sc) (one_pedal_fade_last_t sc) (sessionInitTime sc) x
  (percentGradeLenStep sc) (percentGradeLastTime sc) (percentGrade sc)
  (percentGradeAltitudes sc) (percentGradePositions sc) (percentGrades sc)
  (percentGradeRollingIter sc) (percentGradeNumSamples sc)
  (percentGradeIterRolled sc) (altitudeUblox sc) (lastTime sc).

Definition set_percentGradeLastTime (x : fl) (sc : UIScene) : UIScene :=
  mkUIScene (started sc) (ignition sc) (world_objects_visible sc)
  (view_from_calib sc) (light_sensor sc) (accel_sensor sc) (gyro_sensor sc)
  (lane_line_probs sc) (road_edge_stds sc) (track_vertices sc)
  (lane_line_vertices sc) (road_edge_vertices sc) (lead_vertices sc)
  (controls_state sc) (car_state sc) (onePedalModeActive sc)
  (disableDisengageOnGasEnabled sc) (paramsCheckLast sc) (paramsCheckFreq sc)
  (brake_percent sc) (brake_indicator_alpha sc) (brake_indicator_last_t sc)
  (one_pedal_fade sc) (one_pedal_fade_last_t sc) (sessionInitTime sc)
  (percentGradeCurDist sc) (percentGradeLenStep sc) x (percentGrade sc)
  (percentGradeAltitudes sc) (percentGradePositions sc) (percentGrades sc)
  (percentGradeRollingIter sc) (percentGradeNumSamples sc)
  (percentGradeIterRolled sc) (altitudeUblox sc) (lastTime sc).

Definition set_percentGrade (x : fl) (sc : UIScene) : UIScene :=
  mkUIScene (started sc) (ignition sc) (world_objects_visible sc)
  (view_from_calib sc) (light_sensor sc) (accel_sensor sc) (gyro_sensor sc)
  (lane_line_probs sc) (road_edge_stds sc) (track_vertices sc)
  (lane_line_vertices sc) (road_edge_vertices sc) (lead_vertices sc)
  (controls_state sc) (car_state sc) (onePedalModeActive sc)
  (disableDisengageOnGasEnabled sc) (paramsCheckLast sc) (paramsCheckFreq sc)
  (brake_percent sc) (brake_indicator_alpha sc) (brake_indicator_last_t sc)
  (one_pedal_fade sc) (one_pedal_fade_last_t sc) (sessionInitTime sc)
  (percentGradeCurDist sc) (percentGradeLenStep sc) (percentGradeLastTime sc)
  x (percentGradeAltitudes sc) (percentGradePositions sc) (percentGrades sc)
  (percentGradeRollingIter sc) (percentGradeNumSamples sc)
  (percentGradeIterRolled sc) (altitudeUblox sc) (lastTime sc).

Definition set_percentGradeAltitudes (x : list fl) (sc : UIScene) : UIScene :=
  mkUIScene (started sc) (ignition sc) (world_objects_visible sc)
  (view_from_calib sc) (light_sensor sc) (accel_sensor sc) (gyro_sensor sc)
  (lane_line_probs sc) (road_edge_stds sc) (track_vertices sc)
  (lane_line_vertices sc) (road_edge_vertices sc) (lead_vertices sc)
  (controls_state sc) (car_state sc) (onePedalModeActive sc)
  (disableDisengageOnGasEnabled sc) (paramsCheckLast sc) (paramsCheckFreq sc)
  (brake_percent sc) (brake_indicator_alpha sc) (brake_indicator_last_t sc)
  (one_pedal_fade sc) (one_pedal_fade_last_t sc) (sessionInitTime sc)
  (percentGradeCurDist sc) (percentGradeLenStep sc) (percentGradeLastTime sc)
  (percentGrade sc) x (percentGradePositions sc) (percentGrades sc)
  (percentGradeRollingIter sc) (percentGradeNumSamples sc)
  (percentGradeIterRolled sc) (altitudeUblox sc) (lastTime sc).

Definition set_percentGradePositions (x : list fl) (sc : UIScene) : UIScene :=
  mkUIScene (started sc) (ignition sc) (world_objects_visible sc)
  (view_from_calib sc) (light_sensor sc) (accel_sensor sc) (gyro_sensor sc)
  (lane_line_probs sc) (road_edge_stds sc) (track_vertices sc)
  (lane_line_vertices sc) (road_edge_vertices sc) (lead_vertices sc)
  (controls_state sc) (car_state sc) (onePedalModeActive sc)
  (disableDisengageOnGasEnabled sc) (paramsCheckLast sc) (paramsCheckFreq sc)
  (brake_percent sc) (brake_indicator_alpha sc) (brake_indicator_last_t sc)
  (one_pedal_fade sc) (one_pedal_fade_last_t sc) (sessionInitTime sc)
  (percentGradeCurDist sc) (percentGradeLenStep sc) (percentGradeLastTime sc)
  (percentGrade sc) (percentGradeAltitudes sc) x (percentGrades sc)
  (percentGradeRollingIter sc) (percentGradeNumSamples sc)
  (percentGradeIterRolled sc) (altitudeUblox sc) (lastTime sc).

Definition set_percentGrades (x : list fl) (sc : UIScene) : UIScene :=
  mkUIScene (started sc) (ignition sc) (world_objects_visible sc)
  (view_from_calib sc) (light_sensor sc) (accel_sensor sc) (gyro_sensor sc)
  (lane_line_probs sc) (road_edge_stds sc) (track_vertices sc)
  (lane_line_vertices sc) (road_edge_vertices sc) (lead_vertices sc)
  (controls_state sc) (car_state sc) (onePedalModeActive sc)
  (disableDisengageOnGasEnabled sc) (paramsCheckLast sc) (paramsCheckFreq sc)
  (brake_percent sc) (brake_indicator_alpha sc) (brake_indicator_last_t sc)
  (one_pedal_fade sc) (one_pedal_fade_last_t sc) (sessionInitTime sc)
  (percentGradeCurDist sc) (percentGradeLenStep sc) (percentGradeLastTime sc)
  (percentGrade sc) (percentGradeAltitudes sc) (percentGradePositions sc) x
  (percentGradeRollingIter sc) (percentGradeNumSamples sc)
  (percentGradeIterRolled sc) (altitudeUblox sc) (lastTime sc).

Definition set_percentGradeRollingIter (x : nat) (sc : UIScene) : UIScene :=
  mkUIScene (started sc) (ignition sc) (world_objects_visible sc)
  (view_from_calib sc) (light_sensor sc) (accel_sensor sc) (gyro_sensor sc)
  (lane_line_probs sc) (road_edge_stds sc) (track_vertices sc)
  (lane_line_vertices sc) (road_edge_vertices sc) (lead_vertices sc)
  (controls_state sc) (car_state sc) (onePedalModeActive sc)
  (disableDisengageOnGasEnabled sc) (paramsCheckLast sc) (paramsCheckFreq sc)
  (brake_percent sc) (brake_indicator_alpha sc) (brake_indicator_last_t sc)
  (one_pedal_fade sc) (one_pedal_fade_last_t sc) (sessionInitTime sc)
  (percentGradeCurDist sc) (percentGradeLenStep sc) (percentGradeLastTime sc)
  (percentGrade sc) (percentGradeAltitudes sc) (percentGradePositions sc)
  (percentGrades sc) x (percentGradeNumSamples sc) (percentGradeIterRolled sc)
  (altitudeUblox sc) (lastTime sc).

Definition set_percentGradeIterRolled (x : bool) (sc : UIScene) : UIScene :=
  mkUIScene (started sc) (ignition sc) (world_objects_visible sc)
  (view_from_calib sc) (light_sensor sc) (accel_sensor sc) (gyro_sensor sc)
  (lane_line_probs sc) (road_edge_stds sc) (track_vertices sc)
  (lane_line_vertices sc) (road_edge_vertices sc) (lead_vertices sc)
  (controls_state sc) (car_state sc) (onePedalModeActive sc)
  (disableDisengageOnGasEnabled sc) (paramsCheckLast sc) (paramsCheckFreq sc)
  (brake_percent sc) (brake_indicator_alpha sc) (brake_indicator_last_t sc)
  (one_pedal_fade sc) (one_pedal_fade_last_t sc) (sessionInitTime sc)
  (percentGradeCurDist sc) (percentGradeLenStep sc) (percentGradeLastTime sc)
  (percentGrade sc) (percentGradeAltitudes sc) (percentGradePositions sc)
  (percentGrades sc) (percentGradeRollingIter sc) (percentGradeNumSamples sc)
  x (altitudeUblox sc) (lastTime sc).

Definition set_altitudeUblox (x : fl) (sc : UIScene) : UIScene :=
  mkUIScene (started sc) (ignition sc) (world_objects_visible sc)
  (view_from_calib sc) (light_sensor sc) (accel_sensor sc) (gyro_sensor sc)
  (lane_line_probs sc) (road_edge_stds sc) (track_vertices sc)
  (lane_line_vertices sc) (road_edge_vertices sc) (lead_vertices sc)
  (controls_state sc) (car_state sc) (onePedalModeActive sc)
  (disableDisengageOnGasEnabled sc) (paramsCheckLast sc) (paramsCheckFreq sc)
  (brake_percent sc) (brake_indicator_alpha sc) (brake_indicator_last_t sc)
  (one_pedal_fade sc) (one_pedal_fade_last_t sc) (sessionInitTime sc)
  (percentGradeCurDist sc) (percentGradeLenStep sc) (percentGradeLastTime sc)
  (percentGrade sc) (percentGradeAltitudes sc) (percentGradePositions sc)
  (percentGrades sc) (percentGradeRollingIter sc) (percentGradeNumSamples sc)
  (percentGradeIterRolled sc) x (lastTime sc).

Definition set_lastTime (x : fl) (sc : UIScene) : UIScene :=
  mkUIScene (started sc) (ignition sc) (world_objects_visible sc)
  (view_from_calib sc) (light_sensor sc) (accel_sensor sc) (gyro_sensor sc)
  (lane_line_probs sc) (road_edge_stds sc) (track_vertices sc)
  (lane_line_vertices sc) (road_edge_vertices sc) (lead_vertices sc)
  (controls_state sc) (car_state sc) (onePedalModeActive sc)
  (disableDisengageOnGasEnabled sc) (paramsCheckLast sc) (paramsCheckFreq sc)
  (brake_percent sc) (brake_indicator_alpha sc) (brake_indicator_last_t sc)
  (one_pedal_fade sc) (one_pedal_fade_last_t sc) (sessionInitTime sc)
  (percentGradeCurDist sc) (percentGradeLenStep sc) (percentGradeLastTime sc)
  (percentGrade sc) (percentGradeAltitudes sc) (percentGradePositions sc)
  (percentGrades sc) (percentGradeRollingIter sc) (percentGradeNumSamples sc)
  (percentGradeIterRolled sc) (altitudeUblox sc) x.

Record UIState : Type := mkUIState {
  scene : UIScene;
  status : UIStatus;
  vg : bool;                       (* the NanoVG context is not null *)
  wide_camera : bool;
  fb_w : Z;
  fb_h : Z;
  car_space_transform : list fl    (* float[6] *)
}.

Definition set_scene (x : UIScene) (s : UIState) : UIState :=
  mkUIState x (status s) (vg s) (wide_camera s) (fb_w s) (fb_h s)
    (car_space_transform s).

Definition set_status (x : UIStatus) (s : UIState) : UIState :=
  mkUIState (scene s) x (vg s) (wide_camera s) (fb_w s) (fb_h s)
    (car_space_transform s).

Definition set_wide_camera (x : bool) (s : UIState) : UIState :=
  mkUIState (scene s) (status s) (vg s) x (fb_w s) (fb_h s)
    (car_space_transform s).

Definition set_car_space_transform (x : list fl) (s : UIState) : UIState :=
  mkUIState (scene s) (status s) (vg s) (wide_camera s) (fb_w s) (fb_h s) x.

(** Modelled from the spec: the constants and external functions that
    ui.cc takes from headers and libraries outside src/ (ui.h, the camera
    headers, the transformations library, paint.cc).  Nothing is assumed
    about their values. *)
Class Constants : Type := {
  TRAJECTORY_SIZE : nat;
  MIN_DRAW_DISTANCE : fl;
  MAX_DRAW_DISTANCE : fl;
  UI_FREQ : Z;
  fcam_intrinsic_matrix : mat3;
  ecam_intrinsic_matrix : mat3;
  Hardware_EON : bool;
  Hardware_TICI : bool;
  (* [euler2rot] of the transformations library, on roll, pitch and yaw *)
  euler2rot : fl -> fl -> fl -> mat3;
  (* the display transform that [ui_resize] installs for a camera and a frame size *)
  ui_resize_transform : bool -> Z -> Z -> list fl
}.

(** Modelled from the spec: [FirstOrderFilter] of selfdrive/common/util.h is
    not under src/.  The spec gives its update as y' = y + (x - y) * k, where
    the gain k is 1 - exp(-dt/tau) "or an equivalent discrete approximation";
    the gain is fixed when the filter is constructed. *)
Record FirstOrderFilter : Type := mkFilter {
  x_ : fl;
  k_ : fl
}.

Definition FirstOrderFilter_update (f : FirstOrderFilter) (x : fl)
  : FirstOrderFilter :=
  mkFilter (x_ f + (x - x_ f) * k_ f)%fl (k_ f).

Record Device : Type := mkDevice {
  awake : bool;
  awake_timeout : Z;
  accel_prev : fl;
  gyro_prev : fl;
  accel_samples : fl;
  brightness_filter : FirstOrderFilter;
  last_brightness : Z
}.

Definition BACKLIGHT_OFFROAD : fl := Fin 75.
Definition fade_duration : fl := Fin 0.3.
Definition fade_time_step : fl := (Fin 1 / fade_duration)%fl.

(** ** Projection *)

(** Modelled from the spec: [matvecmul3] of selfdrive/common/mat.h is not
    under src/; the spec's "rotate the point" and "apply the intrinsic
    matrix" are the product of a row-major 3x3 matrix with a vector. *)
Definition matvecmul3 (a : mat3) (b : vec3) : vec3 :=
  let row r :=
    (((zero + at_ (r * 3 + 0) (mat3_v a) * at_ 0 (vec3_v b))
            + at_ (r * 3 + 1) (mat3_v a) * at_ 1 (vec3_v b))
            + at_ (r * 3 + 2) (mat3_v a) * at_ 2 (vec3_v b))%fl in
  mkvec3 [row 0%nat; row 1%nat; row 2%nat].

(** Modelled from the spec: [nvgTransformPoint] of the NanoVG library is not
    under src/; the spec's "fixed display transform (scale/translate)" is
    the affine map given by the six coefficients [t]. *)
Definition nvgTransformPoint (t : list fl) (sx sy : fl) : vertex_data :=
  mkvertex (sx * at_ 0 t + sy * at_ 2 t + at_ 4 t)%fl
           (sx * at_ 1 t + sy * at_ 3 t + at_ 5 t)%fl.

Section Engine.
Context {K : Constants}.

(** [calib_frame_to_full_frame]: the value written to [*out] and the
    returned flag. *)
Definition calib_frame_to_full_frame (s : UIState) (in_x in_y in_z : fl)
  : vertex_data * bool :=
  let margin : fl := Fin 500 in
  let pt := mkvec3 [in_x; in_y; in_z] in
  let Ep := matvecmul3 (view_from_calib (scene s)) pt in
  let KEp := matvecmul3 (if wide_camera s then ecam_intrinsic_matrix
                         else fcam_intrinsic_matrix) Ep in
  (* Project. *)
  let x := (at_ 0 (vec3_v KEp) / at_ 2 (vec3_v KEp))%fl in
  let y := (at_ 1 (vec3_v KEp) / at_ 2 (vec3_v KEp))%fl in
  let out := nvgTransformPoint (car_space_transform s) x y in
  (out,
   (vx out >=? opp margin)%fl && (vx out <=? of_Z (fb_w s) + margin)%fl &&
   (vy out >=? opp margin)%fl && (vy out <=? of_Z (fb_h s) + margin)%fl).

(** The loop of [get_path_length_idx]; [n] is [TRAJECTORY_SIZE - i]. *)
Fixpoint path_length_scan (line_x : list fl) (path_height : fl)
                          (n i max_idx : nat) : nat :=
  match n with
  | O => max_idx
  | S n' =>
      if (at_ i line_x <? path_height)%fl
      then path_length_scan line_x path_height n' (S i) i
      else max_idx
  end.

Definition get_path_length_idx (line : XYZTData) (path_height : fl) : nat :=
  path_length_scan (getX line) path_height TRAJECTORY_SIZE 0 0.

Definition default_lead : LeadDataV3 := mkLead zero [] [].
Definition default_line : XYZTData := mkXYZT [] [] [].
Definition default_vertex : vertex_data := mkvertex zero zero.
Definition default_lines : line_vertices_data := mklines [] 0.

(** One step [v += calib_frame_to_full_frame(s, x, y, z, v)]: the point is
    written at the cursor [k], which advances when the point is visible. *)
Definition push_vertex (s : UIState) (x y z : fl)
                       (st : list vertex_data * nat) : list vertex_data * nat :=
  let (out, visible) := calib_frame_to_full_frame s x y z in
  (upd (snd st) out (fst st), if visible then S (snd st) else snd st).

Definition update_line_data (s : UIState) (line : XYZTData) (y_off z_off : fl)
                            (pvd : line_vertices_data) (max_idx : nat)
  : line_vertices_data :=
  let line_x := getX line in
  let line_y := getY line in
  let line_z := getZ line in
  let st0 := (v pvd, 0%nat) in
  let st1 :=
    fold_left (fun st i =>
                 push_vertex s (at_ i line_x) (at_ i line_y - y_off)%fl
                             (at_ i line_z + z_off)%fl st)
              (seq 0 (S max_idx)) st0 in
  let st2 :=
    fold_left (fun st i =>
                 push_vertex s (at_ i line_x) (at_ i line_y + y_off)%fl
                             (at_ i line_z + z_off)%fl st)
              (rev (seq 0 (S max_idx))) st1 in
  mklines (fst st2) (snd st2).

(** The assertion that ends [update_line_data]. *)
Definition update_line_data_assert (pvd : line_vertices_data) : bool :=
  Nat.leb (cnt pvd) (length (v pvd)).

Definition update_leads (s : UIState) (model : ModelDataV2) : UIState :=
  let leads := getLeadsV3 model in
  let model_position := getPosition model in
  fold_left
    (fun s i =>
       let lead := nth i leads default_lead in
       if (getProb lead >? Fin 0.5)%fl then
         let z := at_ (get_path_length_idx model_position (at_ 0 (leadX lead)))
                      (getZ model_position) in
         let (out, _) :=
           calib_frame_to_full_frame s (at_ 0 (leadX lead)) (at_ 0 (leadY lead))
                                     (z + Fin 1.22)%fl in
         set_scene (set_lead_vertices (upd i out (lead_vertices (scene s)))
                                      (scene s)) s
       else s)
    (seq 0 2) s.

Definition update_model (s : UIState) (model : ModelDataV2) : UIState :=
  let model_position := getPosition model in
  let max_distance :=
    clamp (at_ (TRAJECTORY_SIZE - 1) (getX model_position))
          MIN_DRAW_DISTANCE MAX_DRAW_DISTANCE in
  (* update lane lines *)
  let lane_lines := getLaneLines model in
  let lane_line_probs_ := getLaneLineProbs model in
  let max_idx := get_path_length_idx (nth 0 lane_lines default_line) max_distance in
  let s :=
    fold_left
      (fun s i =>
         let sc := set_lane_line_probs
                     (upd i (at_ i lane_line_probs_) (lane_line_probs (scene s)))
                     (scene s) in
         let s := set_scene sc s in
         let pvd :=
           update_line_data s (nth i lane_lines default_line)
             (Fin 0.025 * at_ i (lane_line_probs sc))%fl zero
             (nth i (lane_line_vertices sc) default_lines) max_idx in
         set_scene (set_lane_line_vertices (upd i pvd (lane_line_vertices sc)) sc) s)
      (seq 0 (length (lane_line_vertices (scene s)))) s in
  (* update road edges *)
  let road_edges := getRoadEdges model in
  let road_edge_stds_ := getRoadEdgeStds model in
  let s :=
    fold_left
      (fun s i =>
         let sc := set_road_edge_stds
                     (upd i (at_ i road_edge_stds_) (road_edge_stds (scene s)))
                     (scene s) in
         let s := set_scene sc s in
         let pvd :=
           update_line_data s (nth i road_edges default_line) (Fin 0.025) zero
             (nth i (road_edge_vertices sc) default_lines) max_idx in
         set_scene (set_road_edge_vertices (upd i pvd (road_edge_vertices sc)) sc) s)
      (seq 0 (length (road_edge_vertices (scene s)))) s in
  (* update path *)
  let lead_one := nth 0 (getLeadsV3 model) default_lead in
  let max_distance :=
    if (getProb lead_one >? Fin 0.5)%fl then
      let lead_d := (at_ 0 (leadX lead_one) * Fin 2)%fl in
      clamp (lead_d - fmin (lead_d * Fin 0.35) (Fin 10))%fl (Fin 0) max_distance
    else max_distance in
  let max_idx := get_path_length_idx model_position max_distance in
  set_scene
    (set_track_vertices
       (update_line_data s model_position (Fin 0.5) (Fin 1.22)
                         (track_vertices (scene s)) max_idx)
       (scene s)) s.

(** ** The per-tick update of the scene *)

(** Lines 142-147: the slow poll of the one-pedal parameters. *)
Definition update_state_params (params : Params) (t : fl) (s : UIState)
  : UIState :=
  let sc := scene s in
  if (t - paramsCheckLast sc >? paramsCheckFreq sc)%fl then
    let sc := set_onePedalModeActive (OnePedalMode params) sc in
    set_scene (set_disableDisengageOnGasEnabled (DisableDisengageOnGas params) sc) s
  else s.

(** Lines 154-158: the control state is kept while onroad. *)
Definition update_state_controlsState (sm : SubMaster) (s : UIState) : UIState :=
  if started (scene s) && updated sm "controlsState" then
    let sc := set_controls_state (getControlsState sm) (scene s) in
    set_scene (set_car_state (getCarState sm) sc) s
  else s.

(** Lines 162-173: the brake indicator fades in while the friction brakes
    are applied and out otherwise. *)
Definition update_brake_indicator (t : fl) (sc : UIScene) : UIScene :=
  let sc := set_brake_percent (getFrictionBrakePercent (car_state sc)) sc in
  let sc :=
    if (0 <? brake_percent sc)%Z then
      let sc := set_brake_indicator_alpha
                  (brake_indicator_alpha sc
                   + fade_time_step * (t - brake_indicator_last_t sc))%fl sc in
      if (brake_indicator_alpha sc >? Fin 1)%fl
      then set_brake_indicator_alpha (Fin 1) sc else sc
    else if (brake_indicator_alpha sc >? Fin 0)%fl then
      let sc := set_brake_indicator_alpha
                  (brake_indicator_alpha sc
                   - fade_time_step * (t - brake_indicator_last_t sc))%fl sc in
      if (brake_indicator_alpha sc <? Fin 0)%fl
      then set_brake_indicator_alpha (Fin 0) sc else sc
    else sc in
  set_brake_indicator_last_t t sc.

(** Lines 175-188: the one-pedal indicator fades toward 1 or -1 once the
    session is 10 s old. *)
Definition update_one_pedal_fade (s : UIState) (t : fl) (sc : UIScene)
  : UIScene :=
  let sc :=
    if (t - sessionInitTime sc >? Fin 10)%fl then
      if (getOnePedalModeActive (car_state sc)
          || getCoastOnePedalModeActive (car_state sc))
         || ((match status s with STATUS_DISENGAGED => true | _ => false end)
             && (getVCruise (controls_state sc) <? Fin 5)%fl
             && (onePedalModeActive sc || disableDisengageOnGasEnabled sc))
      then
        let sc := set_one_pedal_fade
                    (one_pedal_fade sc
                     + fade_time_step * (t - one_pedal_fade_last_t sc))%fl sc in
        if (one_pedal_fade sc >? Fin 1)%fl
        then set_one_pedal_fade (Fin 1) sc else sc
      else if (one_pedal_fade sc >? Fin (-1))%fl then
        let sc := set_one_pedal_fade
                    (one_pedal_fade sc
                     - fade_time_step * (t - one_pedal_fade_last_t sc))%fl sc in
        if (one_pedal_fade sc <? Fin (-1))%fl
        then set_one_pedal_fade (Fin (-1)) sc else sc
      else sc
    else sc in
  set_one_pedal_fade_last_t t sc.

(** Lines 213-224: the initial mean percent grade, when the buffer rolls
    over for the first time. *)
Definition initial_mean_percent_grade (sc : UIScene) : UIScene :=
  let n := percentGradeNumSamples sc in
  let body (st : list fl * fl) (i : nat) : list fl * fl :=
    let rise := (at_ i (percentGradeAltitudes sc)
                 - at_ ((i + 1) mod n) (percentGradeAltitudes sc))%fl in
    let run := (at_ i (percentGradePositions sc)
                - at_ ((i + 1) mod n) (percentGradePositions sc))%fl in
    if (run !=? Fin 0)%fl then
      let grades := upd i (rise / run * Fin 100)%fl (fst st) in
      (grades, (snd st + at_ i grades)%fl)
    else st in
  let (grades, u) := fold_left body (seq 0 n) (percentGrades sc, Fin 0) in
  let u := (u / of_nat n)%fl in
  set_percentGrade u (set_percentGrades grades sc).

(** Lines 209-227: the iterator advances; when it wraps around for the
    first time, the initial mean is calculated. *)
Definition advance_grade_iter (sc : UIScene) : UIScene :=
  let sc := set_percentGradeRollingIter (S (percentGradeRollingIter sc)) sc in
  if Nat.leb (percentGradeNumSamples sc) (percentGradeRollingIter sc) then
    let sc :=
      if negb (percentGradeIterRolled sc) then
        let sc := set_percentGradeIterRolled true sc in
        (* Calculate initial mean percent grade *)
        initial_mean_percent_grade sc
      else sc in
    set_percentGradeRollingIter 0 sc
  else sc.

(** Lines 228-229: the sample is stored in the slot of the iterator. *)
Definition store_grade_sample (prevDist : fl) (sc : UIScene) : UIScene :=
  let it := percentGradeRollingIter sc in
  let sc := set_percentGradeAltitudes
              (upd it (altitudeUblox sc) (percentGradeAltitudes sc)) sc in
  set_percentGradePositions
    (upd it (prevDist + percentGradeCurDist sc)%fl (percentGradePositions sc)) sc.

(** Lines 230-240: once the buffer has rolled over, the ratio of the new
    sample and its buffer successor replaces the stored ratio of the slot
    in the mean. *)
Definition update_rolling_average (sc : UIScene) : UIScene :=
  let it := percentGradeRollingIter sc in
  let n := percentGradeNumSamples sc in
  if percentGradeIterRolled sc then
    let rise := (at_ it (percentGradeAltitudes sc)
                 - at_ ((it + 1) mod n) (percentGradeAltitudes sc))%fl in
    let run := (at_ it (percentGradePositions sc)
                - at_ ((it + 1) mod n) (percentGradePositions sc))%fl in
    if (run !=? Fin 0)%fl then
      (* update rolling average *)
      let newGrade := (rise / run * Fin 100)%fl in
      let sc := set_percentGrade
                  (percentGrade sc - at_ it (percentGrades sc) / of_nat n)%fl sc in
      let sc := set_percentGrade
                  (percentGrade sc + newGrade / of_nat n)%fl sc in
      set_percentGrades (upd it newGrade (percentGrades sc)) sc
    else sc
  else sc.

(** Lines 208-241: a sample of position and altitude is recorded. *)
Definition record_grade_sample (sc : UIScene) : UIScene :=
  let prevDist := at_ (percentGradeRollingIter sc) (percentGradePositions sc) in
  let sc := advance_grade_iter sc in
  let sc := store_grade_sample prevDist sc in
  let sc := update_rolling_average sc in
  set_percentGradeCurDist (Fin 0) sc.

(** Lines 205-244: the distance driven is integrated from the speed, and a
    sample is recorded each time it exceeds the step length. *)
Definition update_percent_grade (t : fl) (sc : UIScene) : UIScene :=
  let sc :=
    if (getVEgo (car_state sc) >? Fin 0)%fl then
      let sc := set_percentGradeCurDist
                  (percentGradeCurDist sc
                   + getVEgo (car_state sc) * (t - percentGradeLastTime sc))%fl sc in
      if (percentGradeCurDist sc >? percentGradeLenStep sc)%fl
      then record_grade_sample sc
      else sc
    else sc in
  set_percentGradeLastTime t sc.

(** Lines 159-245: the block run when [carState] was updated. *)
Definition update_state_carState (sm : SubMaster) (t : fl) (s : UIState)
  : UIState :=
  if updated sm "carState" then
    let sc := set_car_state (getCarState sm) (scene s) in
    let sc := update_brake_indicator t sc in
    let sc := update_one_pedal_fade s t sc in
    set_scene (update_percent_grade t sc) s
  else s.

(** Lines 253-257: the model output is projected when there is a drawing
    context. *)
Definition update_state_modelV2 (sm : SubMaster) (s : UIState) : UIState :=
  if updated sm "modelV2" && vg s then
    let model := getModelV2 sm in
    let s := update_model s model in
    update_leads s model
  else s.

(** Modelled from the spec: the product of two 3x3 matrices, which the code
    takes from the Eigen library. *)
Definition matmul3 (a b : mat3) : mat3 :=
  let e (i j : nat) :=
    (at_ (i * 3 + 0) (mat3_v a) * at_ (0 * 3 + j) (mat3_v b)
     + at_ (i * 3 + 1) (mat3_v a) * at_ (1 * 3 + j) (mat3_v b)
     + at_ (i * 3 + 2) (mat3_v a) * at_ (2 * 3 + j) (mat3_v b))%fl in
  mkmat3 [e 0 0; e 0 1; e 0 2; e 1 0; e 1 1; e 1 2; e 2 0; e 2 1; e 2 2]%nat.

Definition view_from_device : mat3 :=
  mkmat3 [Fin 0; Fin 1; Fin 0;
          Fin 0; Fin 0; Fin 1;
          Fin 1; Fin 0; Fin 0].

(** Lines 258-274: a calibration message makes the world objects visible
    and replaces the rotation. *)
Definition update_state_liveCalibration (sm : SubMaster) (s : UIState)
  : UIState :=
  if updated sm "liveCalibration" then
    let sc := set_world_objects_visible true (scene s) in
    let rpy_list := getRpyCalib sm in
    let device_from_calib :=
      euler2rot (at_ 0 rpy_list) (at_ 1 rpy_list) (at_ 2 rpy_list) in
    let view_from_calib_ := matmul3 view_from_device device_from_calib in
    set_scene (set_view_from_calib view_from_calib_ sc) s
  else s.

(** Lines 275-278: the ignition state. *)
Definition update_state_pandaState (sm : SubMaster) (s : UIState) : UIState :=
  if updated sm "pandaState" then
    let pandaState := getPandaState sm in
    set_scene (set_ignition (getIgnitionLine pandaState
                             || getIgnitionCan pandaState) (scene s)) s
  else s.

(** Lines 285-299: the acceleration and gyroscope samples, taken offroad. *)
Definition update_state_sensorEvents (sm : SubMaster) (s : UIState) : UIState :=
  if updated sm "sensorEvents" then
   set_scene
   (fold_left
    (fun sc sensor =>
       match sensor with
       | ACCELERATION accel =>
           if negb (started sc) then
             match accel with
             | [] => sc
             | _ => set_accel_sensor (at_ 2 accel) sc
             end
           else sc
       | GYRO_UNCALIBRATED gyro =>
           if negb (started sc) then
             match gyro with
             | [] => sc
             | _ => set_gyro_sensor (at_ 1 gyro) sc
             end
           else sc
       | OTHER_SENSOR => sc
       end)
    (getSensorEvents sm) (scene s)) s
  else s.

(** Lines 300-314: the ambient-light estimate.  [Hardware::TICI] is written
    without a call there, so that the division by 6 is always made. *)
Definition update_state_roadCameraState (sm : SubMaster) (s : UIState)
  : UIState :=
  if updated sm "roadCameraState" then
  let camera_state := getRoadCameraState sm in
  let max_lines : fl := if Hardware_EON then Fin 5408 else Fin 1904 in
  let max_gain : fl := if Hardware_EON then Fin 1 else Fin 10 in
  let max_ev := (max_lines * max_gain)%fl in
  let max_ev := (max_ev / Fin 6)%fl in
  let ev := (getGain camera_state * of_Z (getIntegLines camera_state))%fl in
  set_scene (set_light_sensor (clamp (Fin 1 - ev / max_ev)%fl (Fin 0) (Fin 1))
                              (scene s)) s
  else s.

(** Line 315: onroad means that the device is started and the ignition is on. *)
Definition update_state_started (sm : SubMaster) (s : UIState) : UIState :=
  set_scene (set_started (getDeviceStarted sm && ignition (scene s)) (scene s)) s.

(** Lines 331-340: the altitude of the GNSS fix. *)
Definition update_state_ubloxGnss (sm : SubMaster) (s : UIState) : UIState :=
  if updated sm "ubloxGnss"
  then set_scene (set_altitudeUblox (getAltitude sm) (scene s)) s
  else s.

(** [update_state].  The blocks that only copy message fields into scene
    fields that no function of this file reads (engageability, steering,
    acceleration and jerk, radar, panda type, car parameters, device
    telemetry, satellite and planner data) are left out. *)
Definition update_state (s : UIState) (sm : SubMaster) (params : Params)
                        (t : fl) : UIState :=
  let s := update_state_params params t s in
  let s := update_state_controlsState sm s in
  let s := update_state_carState sm t s in
  let s := update_state_modelV2 sm s in
  let s := update_state_liveCalibration sm s in
  let s := update_state_pandaState sm s in
  let s := update_state_sensorEvents sm s in
  let s := update_state_roadCameraState sm s in
  let s := update_state_started sm s in
  let s := update_state_ubloxGnss sm s in
  set_scene (set_lastTime t (scene s)) s.

(** ** The onroad/offroad transition *)

(** Lines 418-425: the reset of the rolling percent-grade state. *)
Definition reset_percent_grade (sc : UIScene) : UIScene :=
  let sc := set_percentGrade (Fin 0) sc in
  fold_left
    (fun sc i =>
       let sc := set_percentGradeAltitudes
                   (upd i (Fin 0) (percentGradeAltitudes sc)) sc in
       let sc := set_percentGradePositions
                   (upd i (Fin 0) (percentGradePositions sc)) sc in
       let sc := set_percentGrades (upd i (Fin 0) (percentGrades sc)) sc in
       let sc := set_percentGradeIterRolled false sc in
       set_percentGradeRollingIter 0 sc)
    (seq 0 5) sc.

(** [update_status]; [started_prev] is its static variable, and [now] the
    value of [seconds_since_boot()] at the transition.  The reads of
    parameters into scene fields that no function of this file uses are
    left out. *)
Definition update_status (s : UIState) (started_prev : bool) (sm : SubMaster)
                         (params : Params) (now : fl) : UIState * bool :=
  let s :=
    if started (scene s) && updated sm "controlsState" then
      let controls_state := getControlsState sm in
      match getAlertStatus controls_state with
      | USER_PROMPT => set_status STATUS_WARNING s
      | CRITICAL => set_status STATUS_ALERT s
      | _ => set_status (if getEnabled controls_state
                         then STATUS_ENGAGED else STATUS_DISENGAGED) s
      end
    else s in
  (* Handle onroad/offroad transition *)
  let s :=
    if negb (Bool.eqb (started (scene s)) started_prev) then
      if started (scene s) then
        let s := set_status STATUS_DISENGAGED s in
        let sc := set_brake_percent (FrictionBrakePercent params) (scene s) in
        let sc := set_sessionInitTime now sc in
        let sc := reset_percent_grade sc in
        let s := set_scene sc s in
        let s := set_wide_camera
                   (if Hardware_TICI then EnableWideCamera params else false) s in
        (* Update intrinsics matrix after possible wide camera toggle change *)
        if vg s
        then set_car_space_transform
               (ui_resize_transform (wide_camera s) (fb_w s) (fb_h s)) s
        else s
      else s
    else s in
  (s, started (scene s)).

(** One pass of [QUIState::update] over the scene: [update_state], then
    [update_status]. *)
Definition ui_update (st : UIState * bool) (sm : SubMaster) (params : Params)
                     (t now : fl) : UIState * bool :=
  update_status (update_state (fst st) sm params t) (snd st) sm params now.

(** ** Device: brightness and wakefulness *)

Inductive hw_call : Type :=
| set_display_power (on : bool)
| set_brightness (b : Z).

Definition setAwake (d : Device) (on reset : bool) : Device * list hw_call :=
  let (d, calls) :=
    if negb (Bool.eqb on (awake d)) then
      (mkDevice on (awake_timeout d) (accel_prev d) (gyro_prev d)
                (accel_samples d) (brightness_filter d) (last_brightness d),
       [set_display_power on])
    else (d, []) in
  let d :=
    if reset then
      mkDevice (awake d) (30 * UI_FREQ)%Z (accel_prev d) (gyro_prev d)
               (accel_samples d) (brightness_filter d) (last_brightness d)
    else d in
  (d, calls).

Definition updateBrightness (d : Device) (s : UIState)
  : Device * list hw_call :=
  (* Scale to 0% to 100% *)
  let clipped_brightness := (Fin 100 * light_sensor (scene s))%fl in
  (* CIE 1931 *)
  let clipped_brightness :=
    if (clipped_brightness <=? Fin 8)%fl
    then (clipped_brightness / Fin 903.3)%fl
    else cube ((clipped_brightness + Fin 16) / Fin 116)%fl in
  (* Scale back to 10% to 100% *)
  let clipped_brightness :=
    clamp (Fin 100 * clipped_brightness)%fl (Fin 10) (Fin 100) in
  let clipped_brightness :=
    if negb (started (scene s)) then BACKLIGHT_OFFROAD else clipped_brightness in
  let filter := FirstOrderFilter_update (brightness_filter d) clipped_brightness in
  let brightness := to_int (x_ filter) in
  let brightness := if negb (awake d) then 0%Z else brightness in
  (mkDevice (awake d) (awake_timeout d) (accel_prev d) (gyro_prev d)
            (accel_samples d) filter brightness,
   if negb (Z.eqb brightness (last_brightness d))
   then [set_brightness brightness] else []).

Definition updateWakefulness (d : Device) (s : UIState)
  : Device * list hw_call :=
  let awake_timeout_ := Z.max (awake_timeout d - 1) 0 in
  let should_wake := started (scene s) || ignition (scene s) in
  let '(should_wake, gyro_prev_, accel_prev_) :=
    if negb should_wake then
      (* tap detection while display is off *)
      let accel_trigger :=
        (abs (accel_sensor (scene s) - accel_prev d) >? Fin 0.2)%fl in
      let gyro_trigger :=
        (abs (gyro_sensor (scene s) - gyro_prev d) >? Fin 0.15)%fl in
      (accel_trigger && gyro_trigger,
       gyro_sensor (scene s),
       ((accel_prev d * (accel_samples d - Fin 1) + accel_sensor (scene s))
        / accel_samples d)%fl)
    else (should_wake, gyro_prev d, accel_prev d) in
  let d := mkDevice (awake d) awake_timeout_ accel_prev_ gyro_prev_
                    (accel_samples d) (brightness_filter d) (last_brightness d) in
  setAwake d (negb (Z.eqb (awake_timeout d) 0)) should_wake.


End Engine.

(** ** Further fragments of [update_state]

    Two computations of the [carState] block (lines 193-201) whose results
    go to scene fields that nothing else in ui.cc reads; they are embedded
    as functions of the values they read. *)

(** Line 193: the engine speed rounded to hundreds,
    [static_cast<int>((rpm / 100.0) + 0.5) * 100]. *)
Definition engineRPM_of (rpm : fl) : Z :=
  (to_int (rpm / Fin 100 + Fin 0.5)%fl * 100)%Z.


(** ** Runs, views and invariants used in the statements *)

(** The inputs of one tick: the SubMaster after the poll, the parameter
    store, and the clock readings of [update_state] and [update_status]. *)
Record Tick : Type := mkTick {
  tick_sm : SubMaster;
  tick_params : Params;
  tick_t : fl;
  tick_now : fl
}.

Section Runs.
Context {K : Constants}.

Definition run_update_state (s : UIState) (ticks : list Tick) : UIState :=
  fold_left (fun s k => update_state s (tick_sm k) (tick_params k) (tick_t k))
            ticks s.

Definition run_ui_update (st : UIState * bool) (ticks : list Tick)
  : UIState * bool :=
  fold_left (fun st k => ui_update st (tick_sm k) (tick_params k) (tick_t k)
                                   (tick_now k))
            ticks st.

End Runs.

(** *** The rolling percent grade *)

(** The fields of the percent-grade estimator, and the altitude it samples. *)
Definition grade_view (sc : UIScene)
  : fl * fl * fl * list fl * list fl * list fl * nat * bool * fl * nat * fl :=
  (percentGradeCurDist sc, percentGradeLastTime sc, percentGrade sc,
   percentGradeAltitudes sc, percentGradePositions sc, percentGrades sc,
   percentGradeRollingIter sc, percentGradeIterRolled sc,
   percentGradeLenStep sc, percentGradeNumSamples sc, altitudeUblox sc).







Definition all_finite (l : list fl) : Prop := forallb is_finite l = true.

(** The state that [reset_percent_grade] leaves: N = 5 slots, all zero. *)
Definition grade_is_reset (sc : UIScene) : Prop :=
  percentGradeNumSamples sc = 5%nat /\
  percentGrade sc = Fin 0 /\
  percentGradeAltitudes sc = repeat (Fin 0) 5 /\
  percentGradePositions sc = repeat (Fin 0) 5 /\
  percentGrades sc = repeat (Fin 0) 5 /\
  percentGradeIterRolled sc = false /\
  percentGradeRollingIter sc = 0%nat.



(** *** Frames *)

(** [s'] is [s] up to the vertex buffers, lead markers and the copied lane
    probabilities and edge deviations. *)
Definition only_geometry (s s' : UIState) : Prop :=
  exists p e t l r d,
    s' = set_scene
           (set_lane_line_probs p
              (set_road_edge_stds e
                 (set_track_vertices t
                    (set_lane_line_vertices l
                       (set_road_edge_vertices r
                          (set_lead_vertices d (scene s))))))) s.

(** What [calib_frame_to_full_frame] reads of the state. *)
Definition camera_view (s : UIState) : mat3 * bool * list fl * Z * Z :=
  (view_from_calib (scene s), wide_camera s, car_space_transform s,
   fb_w s, fb_h s).

(** *** The indicator fades *)

Definition fade_view (sc : UIScene) : fl * fl * fl * fl :=
  (brake_indicator_alpha sc, brake_indicator_last_t sc,
   one_pedal_fade sc, one_pedal_fade_last_t sc).

(** The fades are within their bounds, and their time stamps are finite
    and not later than [t0]. *)
Definition fade_ok (t0 : Q) (sc : UIScene) : Prop :=
  within 0 1 (brake_indicator_alpha sc) /\
  within (-1) 1 (one_pedal_fade sc) /\
  (exists b, brake_indicator_last_t sc = Fin b /\ b <= t0) /\
  (exists o, one_pedal_fade_last_t sc = Fin o /\ o <= t0).

(** The clock readings of the ticks are finite and never decrease, starting
    from [t0]: every elapsed-time delta is non-negative. *)
Fixpoint nondecreasing_from (t0 : Q) (ticks : list Tick) : Prop :=
  match ticks with
  | [] => True
  | k :: ticks' =>
      exists t, tick_t k = Fin t /\ t0 <= t /\ nondecreasing_from t ticks'
  end.

(** *** Projection and path geometry *)

(** What the geometry builder writes. *)
Definition geometry_view (sc : UIScene)
  : list fl * list fl * line_vertices_data * list line_vertices_data
    * list line_vertices_data * list vertex_data :=
  (lane_line_probs sc, road_edge_stds sc, track_vertices sc,
   lane_line_vertices sc, road_edge_vertices sc, lead_vertices sc).

Section ProjectionSpecs.
Context {K : Constants}.





End ProjectionSpecs.



(** [sc'] is [sc] up to the fields that the percent-grade estimator writes. *)
Definition only_grade (sc sc' : UIScene) : Prop :=
  exists cd lt pg al po gr it ro,
    sc' = set_percentGradeCurDist cd
            (set_percentGradeLastTime lt
               (set_percentGrade pg
                  (set_percentGradeAltitudes al
                     (set_percentGradePositions po
                        (set_percentGrades gr
                           (set_percentGradeRollingIter it
                              (set_percentGradeIterRolled ro sc))))))).

(** Two states that the geometry builder cannot tell apart. *)
Definition same_projection (s1 s2 : UIState) : Prop :=
  camera_view s1 = camera_view s2 /\
  geometry_view (scene s1) = geometry_view (scene s2).

(** *** Device *)

(** The value that [updateBrightness] feeds to the filter: the response
    curve of the ambient light onroad, [BACKLIGHT_OFFROAD] offroad. *)
Definition brightness_target (s : UIState) : fl :=
  let clipped_brightness := (Fin 100 * light_sensor (scene s))%fl in
  let clipped_brightness :=
    if (clipped_brightness <=? Fin 8)%fl
    then (clipped_brightness / Fin 903.3)%fl
    else cube ((clipped_brightness + Fin 16) / Fin 116)%fl in
  let clipped_brightness :=
    clamp (Fin 100 * clipped_brightness)%fl (Fin 10) (Fin 100) in
  if negb (started (scene s)) then BACKLIGHT_OFFROAD else clipped_brightness.

(** The brightness of the tick (the value kept in [last_brightness]). *)
Definition brightness_of (d : Device) (s : UIState) : Z :=
  last_brightness (fst (updateBrightness d s)).

(** The two tap triggers of [updateWakefulness]. *)
Definition tap_detected (d : Device) (s : UIState) : bool :=
  (abs (accel_sensor (scene s) - accel_prev d) >? Fin 0.2)%fl
  && (abs (gyro_sensor (scene s) - gyro_prev d) >? Fin 0.15)%fl.


(** ** Further notions used in the statements *)

Section GeometrySpecs.
Context {K : Constants}.

(** The points that [update_line_data] projects, in the order of its two
    loops: out along the curve offset by [- y_off], back offset by [+ y_off]. *)
Definition ribbon_points (line : XYZTData) (y_off z_off : fl) (max_idx : nat)
  : list (fl * fl * fl) :=
  map (fun i => (at_ i (getX line), (at_ i (getY line) - y_off)%fl,
                 (at_ i (getZ line) + z_off)%fl))
      (seq 0 (S max_idx))
  ++ map (fun i => (at_ i (getX line), (at_ i (getY line) + y_off)%fl,
                    (at_ i (getZ line) + z_off)%fl))
         (rev (seq 0 (S max_idx))).

(** The projections of the points that pass the margin test, in order. *)
Definition visible_projections (s : UIState) (pts : list (fl * fl * fl))
  : list vertex_data :=
  flat_map (fun p : fl * fl * fl =>
              let '(x, y, z) := p in
              let (out, visible) := calib_frame_to_full_frame s x y z in
              if visible then [out] else [])
           pts.

(** A step of the vertex cursor, on a point given as a triple. *)
Definition push_point (s : UIState) (st : list vertex_data * nat)
                      (p : fl * fl * fl) : list vertex_data * nat :=
  let '(x, y, z) := p in push_vertex s x y z st.

End GeometrySpecs.

(** The part of the state outside the scene. *)
Definition shell_view (s : UIState) : UIStatus * bool * bool * Z * Z * list fl :=
  (status s, vg s, wide_camera s, fb_w s, fb_h s, car_space_transform s).

(** The inputs of the one-pedal fade that the earlier blocks of a tick
    leave alone. *)
Definition session_view (sc : UIScene) : fl * fl * fl :=
  (sessionInitTime sc, one_pedal_fade sc, one_pedal_fade_last_t sc).

(** During warm-up no mean is published: until the buffer has rolled over,
    the percent grade and the stored ratios are as the reset left them. *)
Definition grade_warming (sc : UIScene) : Prop :=
  percentGradeIterRolled sc = false ->
  percentGrade sc = Fin 0 /\ percentGrades sc = repeat (Fin 0) 5.

Section DeviceSpecs.
Context {K : Constants}.

(** The value of [should_wake] in [updateWakefulness]. *)
Definition should_wake (d : Device) (s : UIState) : bool :=
  started (scene s) || ignition (scene s) || tap_detected d s.

(** [updateWakefulness] over the scenes of successive ticks. *)
Fixpoint run_updateWakefulness (d : Device) (states : list UIState) : Device :=
  match states with
  | [] => d
  | s :: states' => run_updateWakefulness (fst (updateWakefulness d s)) states'
  end.

(** No tick of the run wakes the device. *)
Fixpoint quiet_ticks (d : Device) (states : list UIState) : Prop :=
  match states with
  | [] => True
  | s :: states' =>
      should_wake d s = false /\
      quiet_ticks (fst (updateWakefulness d s)) states'
  end.

End DeviceSpecs.

(** The brightness filter holds a value within [0, 100] and its gain is
    within [0, 1]. *)
Definition filter_ok (f : FirstOrderFilter) : Prop :=
  within 0 100 (x_ f) /\ within 0 1 (k_ f).

(** The fields of the parameter check: when the parameters were last read,
    how often they are read, and the two flags read. *)
Definition params_view (sc : UIScene) : fl * fl * bool * bool :=
  (paramsCheckLast sc, paramsCheckFreq sc,
   onePedalModeActive sc, disableDisengageOnGasEnabled sc).

(** ** Concrete inputs *)

Definition identity3 : mat3 :=
  mkmat3 [Fin 1; Fin 0; Fin 0;
          Fin 0; Fin 1; Fin 0;
          Fin 0; Fin 0; Fin 1].

(** A choice of the constants: a 33-point trajectory drawn between 10 and
    100 m, a 20 Hz interface, pinhole cameras, and a calibration and a
    display transform that do not depend on their arguments. *)
Definition example_constants : Constants := {|
  TRAJECTORY_SIZE := 33;
  MIN_DRAW_DISTANCE := Fin 10;
  MAX_DRAW_DISTANCE := Fin 100;
  UI_FREQ := 20;
  fcam_intrinsic_matrix :=
    mkmat3 [Fin 910; Fin 0; Fin 582;
            Fin 0; Fin 910; Fin 437;
            Fin 0; Fin 0; Fin 1];
  ecam_intrinsic_matrix :=
    mkmat3 [Fin 620; Fin 0; Fin 964;
            Fin 0; Fin 620; Fin 604;
            Fin 0; Fin 0; Fin 1];
  Hardware_EON := false;
  Hardware_TICI := true;
  euler2rot := fun _ _ _ => identity3;
  ui_resize_transform := fun _ _ _ => [Fin 1; Fin 0; Fin 0; Fin 1; Fin 0; Fin 0]
|}.

Definition example_lines (n : nat) : line_vertices_data :=
  mklines (repeat default_vertex n) 0.

Definition example_controls_state : ControlsState :=
  mkControlsState (Fin 0) NORMAL false.

Definition example_car_state (vEgo : Q) (brake : Z) : CarState :=
  mkCarState (Fin vEgo) brake false false.

(** An offroad scene before any message: no calibration, everything zero,
    five empty grade slots and a step length of 5 m. *)
Definition example_scene : UIScene := {|
  started := false;
  ignition := false;
  world_objects_visible := false;
  view_from_calib := mkmat3 (repeat (Fin 0) 9);
  light_sensor := Fin 0;
  accel_sensor := Fin 0;
  gyro_sensor := Fin 0;
  lane_line_probs := repeat (Fin 0) 4;
  road_edge_stds := repeat (Fin 0) 2;
  track_vertices := example_lines 66;
  lane_line_vertices := repeat (example_lines 66) 4;
  road_edge_vertices := repeat (example_lines 66) 2;
  lead_vertices := repeat default_vertex 2;
  controls_state := example_controls_state;
  car_state := example_car_state 0 0;
  onePedalModeActive := false;
  disableDisengageOnGasEnabled := false;
  paramsCheckLast := Fin 0;
  paramsCheckFreq := Fin 0.1;
  brake_percent := 0;
  brake_indicator_alpha := Fin 0;
  brake_indicator_last_t := Fin 0;
  one_pedal_fade := Fin 0;
  one_pedal_fade_last_t := Fin 0;
  sessionInitTime := Fin 0;
  percentGradeCurDist := Fin 0;
  percentGradeLenStep := Fin 5;
  percentGradeLastTime := Fin 0;
  percentGrade := Fin 0;
  percentGradeAltitudes := repeat (Fin 0) 5;
  percentGradePositions := repeat (Fin 0) 5;
  percentGrades := repeat (Fin 0) 5;
  percentGradeRollingIter := 0;
  percentGradeNumSamples := 5;
  percentGradeIterRolled := false;
  altitudeUblox := Fin 1;
  lastTime := Fin 0
|}.

Definition example_state : UIState := {|
  scene := example_scene;
  status := STATUS_DISENGAGED;
  vg := true;
  wide_camera := false;
  fb_w := 1164;
  fb_h := 874;
  car_space_transform := [Fin 1; Fin 0; Fin 0; Fin 1; Fin 0; Fin 0]
|}.

Definition example_params : Params := mkParams false false 0 false.

Definition example_line (xs : list Q) : XYZTData :=
  mkXYZT (map Fin xs) (map (fun _ => Fin 0) xs) (map (fun _ => Fin 0) xs).

Definition example_model : ModelDataV2 := {|
  getPosition := example_line [];
  getLaneLines := [];
  getLaneLineProbs := [];
  getRoadEdges := [];
  getRoadEdgeStds := [];
  getLeadsV3 := []
|}.

(** A poll in which exactly the topics [topics] received a message. *)
Definition example_sm (topics : list string) (car : CarState)
                      (altitude : Q) : SubMaster := {|
  updated := fun name => existsb (String.eqb name) topics;
  frame := 0;
  getControlsState := example_controls_state;
  getCarState := car;
  getModelV2 := example_model;
  getRpyCalib := [Fin 0; Fin 0; Fin 0];
  getPandaState := mkPandaState false false;
  getSensorEvents := [];
  getRoadCameraState := mkRoadCameraState (Fin 0) 0;
  getDeviceStarted := false;
  getAltitude := Fin altitude
|}.

(** A tick at time [t] that delivers a car state with speed 10 m/s and the
    altitude that the next sample will record. *)
Definition grade_tick (t next_altitude : Q) : Tick :=
  mkTick (example_sm ["carState"; "ubloxGnss"]%string (example_car_state 10 0)
                     next_altitude)
         example_params (Fin t) (Fin t).


(** A tick at time [t] that delivers a car state with the given friction
    brake percentage. *)
Definition brake_tick (t : Q) (brake : Z) : Tick :=
  mkTick (example_sm ["carState"]%string (example_car_state 0 brake) 0)
         example_params (Fin t) (Fin t).

(** Braking at 1 s and, after a very long pause, at 100000 s; then released. *)
Definition brake_ticks : list Tick :=
  [brake_tick 1 50; brake_tick 100000 50; brake_tick 100000.1 0;
   brake_tick 200000 0].

(** The state after a calibration with zero angles. *)
Definition calibrated_state : UIState :=
  set_scene (set_world_objects_visible true
               (set_view_from_calib view_from_device example_scene))
            example_state.

(** A straight path of five points, 10 m apart. *)
Definition straight_line : XYZTData :=
  example_line [10; 20; 30; 40; 50].

(** A model output: a straight path of 33 points 3 m apart, four lane
    lines and two road edges along it, and a lead with probability 0.6 at a
    forward position of 20 m. *)
Definition straight_path : XYZTData :=
  example_line (map (fun i => inject_Z (3 * Z.of_nat i)) (seq 0 33)).

Definition lead_model : ModelDataV2 := {|
  getPosition := straight_path;
  getLaneLines := repeat straight_path 4;
  getLaneLineProbs := repeat (Fin 0.9) 4;
  getRoadEdges := repeat straight_path 2;
  getRoadEdgeStds := repeat (Fin 0.5) 2;
  getLeadsV3 := [mkLead (Fin 0.6) [Fin 20] [Fin 0]; mkLead (Fin 0) [Fin 0] [Fin 0]]
|}.

(** A poll that delivers [lead_model] on [modelV2] and nothing else. *)
Definition model_sm : SubMaster := {|
  updated := fun name => String.eqb name "modelV2";
  frame := 0;
  getControlsState := example_controls_state;
  getCarState := example_car_state 0 0;
  getModelV2 := lead_model;
  getRpyCalib := [Fin 0; Fin 0; Fin 0];
  getPandaState := mkPandaState false false;
  getSensorEvents := [];
  getRoadCameraState := mkRoadCameraState (Fin 0) 0;
  getDeviceStarted := false;
  getAltitude := Fin 0
|}.

(** A calibrated state without a drawing context. *)
Definition calibrated_state_no_vg : UIState :=
  mkUIState (scene calibrated_state) STATUS_DISENGAGED false false 1164 874
            [Fin 1; Fin 0; Fin 0; Fin 1; Fin 0; Fin 0].



(** A device that is awake, with the filter at full brightness and the gain
    of a 0.05 s step against a 10 s time constant. *)
Definition bright_device : Device := {|
  awake := true;
  awake_timeout := 100;
  accel_prev := Fin 0;
  gyro_prev := Fin 0;
  accel_samples := Fin 100;
  brightness_filter := mkFilter (Fin 100) (Fin (1 # 201));
  last_brightness := 100
|}.

(** An offroad scene in which both sensors moved away from their baselines. *)
Definition tapped_state : UIState :=
  set_scene (set_accel_sensor (Fin 1) (set_gyro_sensor (Fin 1) example_scene))
            example_state.

(** An onroad scene with the given ambient light. *)
Definition lit_state (light : Q) : UIState :=
  set_scene (set_started true (set_light_sensor (Fin light) example_scene))
            example_state.

(** ** Further concrete inputs *)

(** A device that is awake with 3 ticks left on the countdown, and whose
    baselines are those of [example_state]. *)
Definition resting_device : Device := {|
  awake := true;
  awake_timeout := 3;
  accel_prev := Fin 0;
  gyro_prev := Fin 0;
  accel_samples := Fin 100;
  brightness_filter := mkFilter (Fin 75) (Fin (1 # 201));
  last_brightness := 75
|}.

(** A device that is awake on the last tick of its countdown. *)
Definition expiring_device : Device := {|
  awake := true;
  awake_timeout := 1;
  accel_prev := Fin 0;
  gyro_prev := Fin 0;
  accel_samples := Fin 100;
  brightness_filter := mkFilter (Fin 75) (Fin (1 # 201));
  last_brightness := 75
|}.

(** A poll of a started device that delivers a camera frame with gain 2
    and 100 integration lines, an acceleration and a gyro event, a
    calibration, and a panda state with the ignition line on. *)
Definition sensor_sm : SubMaster := {|
  updated := fun name =>
    existsb (String.eqb name)
            ["roadCameraState"; "sensorEvents"; "liveCalibration";
             "pandaState"]%string;
  frame := 0;
  getControlsState := example_controls_state;
  getCarState := example_car_state 0 0;
  getModelV2 := example_model;
  getRpyCalib := [Fin 0; Fin 0; Fin 0];
  getPandaState := mkPandaState true false;
  getSensorEvents := [ACCELERATION [Fin 0; Fin 0; Fin 9.8];
                      GYRO_UNCALIBRATED [Fin 0; Fin 0.3]];
  getRoadCameraState := mkRoadCameraState (Fin 2) 100;
  getDeviceStarted := true;
  getAltitude := Fin 0
|}.

(** A scene in which the driver brakes at 50 percent. *)
Definition braking_scene : UIScene :=
  set_car_state (example_car_state 0 50) example_scene.

(** * Properties *)

(** ** Floating-point values *)

Lemma Qlt_bool_iff (a b : Q) : Qlt_bool a b = true <-> a < b.
Proof.
  unfold Qlt_bool. rewrite negb_true_iff.
  split; intro H.
  - apply Qnot_le_lt. intro Hle. apply Qle_bool_iff in Hle. congruence.
  - destruct (Qle_bool b a) eqn:E; [|reflexivity].
    apply Qle_bool_iff in E. exfalso. apply (Qlt_not_le _ _ H E).
Qed.

Lemma Qlt_bool_false (a b : Q) : Qlt_bool a b = false <-> b <= a.
Proof.
  unfold Qlt_bool. rewrite negb_false_iff. apply Qle_bool_iff.
Qed.

Lemma Qle_bool_false (a b : Q) : Qle_bool a b = false <-> b < a.
Proof.
  rewrite <- Qlt_bool_iff. unfold Qlt_bool.
  destruct (Qle_bool a b); simpl; split; congruence.
Qed.


Lemma is_finite_Fin (x : fl) : is_finite x = true -> exists q, x = Fin q.
Proof. destruct x; simpl; intro H; try discriminate. eauto. Qed.

Lemma within_Fin (lo hi : Q) (x : fl) :
  within lo hi x -> exists q, x = Fin q /\ lo <= q /\ q <= hi.
Proof. destruct x; simpl; intro H; try contradiction. eauto. Qed.

Lemma eqv_refl (x : fl) : (x == x)%fl.
Proof. destruct x; simpl; auto. reflexivity. Qed.

Lemma eqv_sym (x y : fl) : (x == y)%fl -> (y == x)%fl.
Proof. destruct x, y; simpl; auto. intro H; symmetry; exact H. Qed.

Lemma eqv_trans (x y z : fl) : (x == y)%fl -> (y == z)%fl -> (x == z)%fl.
Proof.
  destruct x, y, z; simpl; try tauto; try congruence.
  intros H1 H2. rewrite H1. exact H2.
Qed.

#[local] Arguments Qplus : simpl never.
#[local] Arguments Qminus : simpl never.
#[local] Arguments Qmult : simpl never.
#[local] Arguments Qdiv : simpl never.
#[local] Arguments Qopp : simpl never.
#[local] Arguments Qinv : simpl never.
#[local] Arguments Qeq_bool : simpl never.
#[local] Arguments Qle_bool : simpl never.
#[local] Arguments Qlt_bool : simpl never.
#[local] Arguments Qabs : simpl never.
#[local] Arguments inject_Z : simpl never.

(** The wrappers of the floating-point operations are unfolded, down to the
    operations on rationals. *)
Ltac fl_unfold :=
  unfold Fl.neb, Fl.eqb, Fl.gt, Fl.ge, Fl.sub, Fl.zero, Fl.of_nat, Fl.of_Z, at_ in *.





Lemma fold_left_preserves {A B : Type} (P : A -> Prop) (f : A -> B -> A)
                          (l : list B) (a : A) :
  P a -> (forall a b, P a -> P (f a b)) -> P (fold_left f l a).
Proof.
  intros Ha Hf. revert a Ha.
  induction l as [|b l IH]; simpl; intros a Ha; [exact Ha|].
  apply IH, Hf, Ha.
Qed.

(** ** Frames: what the geometry builder leaves alone *)

Section Frames.
Context {K : Constants}.

Lemma only_geometry_refl (s : UIState) : only_geometry s s.
Proof.
  exists (lane_line_probs (scene s)), (road_edge_stds (scene s)),
         (track_vertices (scene s)), (lane_line_vertices (scene s)),
         (road_edge_vertices (scene s)), (lead_vertices (scene s)).
  destruct s as [sc st g w fw fh tr]. destruct sc. reflexivity.
Qed.

Lemma only_geometry_trans (s1 s2 s3 : UIState) :
  only_geometry s1 s2 -> only_geometry s2 s3 -> only_geometry s1 s3.
Proof.
  intros (p & e & t & l & r & d & ->) (p' & e' & t' & l' & r' & d' & ->).
  exists p', e', t', l', r', d'. reflexivity.
Qed.

Lemma only_geometry_lane_line_probs (s : UIState) (x : list fl) :
  only_geometry s (set_scene (set_lane_line_probs x (scene s)) s).
Proof.
  exists x, (road_edge_stds (scene s)),
         (track_vertices (scene s)), (lane_line_vertices (scene s)),
         (road_edge_vertices (scene s)), (lead_vertices (scene s)).
  destruct s as [sc st g w fw fh tr]. destruct sc. reflexivity.
Qed.

Lemma only_geometry_road_edge_stds (s : UIState) (x : list fl) :
  only_geometry s (set_scene (set_road_edge_stds x (scene s)) s).
Proof.
  exists (lane_line_probs (scene s)), x,
         (track_vertices (scene s)), (lane_line_vertices (scene s)),
         (road_edge_vertices (scene s)), (lead_vertices (scene s)).
  destruct s as [sc st g w fw fh tr]. destruct sc. reflexivity.
Qed.

Lemma only_geometry_track_vertices (s : UIState) (x : line_vertices_data) :
  only_geometry s (set_scene (set_track_vertices x (scene s)) s).
Proof.
  exists (lane_line_probs (scene s)), (road_edge_stds (scene s)), x,
         (lane_line_vertices (scene s)),
         (road_edge_vertices (scene s)), (lead_vertices (scene s)).
  destruct s as [sc st g w fw fh tr]. destruct sc. reflexivity.
Qed.

Lemma only_geometry_lane_line_vertices (s : UIState)
                                       (x : list line_vertices_data) :
  only_geometry s (set_scene (set_lane_line_vertices x (scene s)) s).
Proof.
  exists (lane_line_probs (scene s)), (road_edge_stds (scene s)),
         (track_vertices (scene s)), x,
         (road_edge_vertices (scene s)), (lead_vertices (scene s)).
  destruct s as [sc st g w fw fh tr]. destruct sc. reflexivity.
Qed.

Lemma only_geometry_road_edge_vertices (s : UIState)
                                       (x : list line_vertices_data) :
  only_geometry s (set_scene (set_road_edge_vertices x (scene s)) s).
Proof.
  exists (lane_line_probs (scene s)), (road_edge_stds (scene s)),
         (track_vertices (scene s)), (lane_line_vertices (scene s)),
         x, (lead_vertices (scene s)).
  destruct s as [sc st g w fw fh tr]. destruct sc. reflexivity.
Qed.

Lemma only_geometry_lead_vertices (s : UIState) (x : list vertex_data) :
  only_geometry s (set_scene (set_lead_vertices x (scene s)) s).
Proof.
  exists (lane_line_probs (scene s)), (road_edge_stds (scene s)),
         (track_vertices (scene s)), (lane_line_vertices (scene s)),
         (road_edge_vertices (scene s)), x.
  destruct s as [sc st g w fw fh tr]. destruct sc. reflexivity.
Qed.

Lemma update_leads_only_geometry (s : UIState) (model : ModelDataV2) :
  only_geometry s (update_leads s model).
Proof.
  unfold update_leads.
  apply (fold_left_preserves (only_geometry s)); [apply only_geometry_refl|].
  intros s' i H.
  destruct (getProb (nth i (getLeadsV3 model) default_lead) >? Fin 0.5)%fl;
    [|exact H].
  destruct (calib_frame_to_full_frame s' _ _ _) as [out vis].
  eapply only_geometry_trans; [exact H|apply only_geometry_lead_vertices].
Qed.

Lemma update_model_only_geometry (s : UIState) (model : ModelDataV2) :
  only_geometry s (update_model s model).
Proof.
  unfold update_model.
  eapply only_geometry_trans; [|apply only_geometry_track_vertices].
  apply (fold_left_preserves (only_geometry s)).
  - apply (fold_left_preserves (only_geometry s)); [apply only_geometry_refl|].
    intros s' i H.
    eapply only_geometry_trans; [exact H|].
    eapply only_geometry_trans; [apply only_geometry_lane_line_probs|].
    exact (only_geometry_lane_line_vertices
             (set_scene (set_lane_line_probs _ (scene s')) s') _).
  - intros s' i H.
    eapply only_geometry_trans; [exact H|].
    eapply only_geometry_trans; [apply only_geometry_road_edge_stds|].
    exact (only_geometry_road_edge_vertices
             (set_scene (set_road_edge_stds _ (scene s')) s') _).
Qed.

Lemma update_state_modelV2_only_geometry (sm : SubMaster) (s : UIState) :
  only_geometry s (update_state_modelV2 sm s).
Proof.
  unfold update_state_modelV2.
  destruct (updated sm "modelV2" && vg s); [|apply only_geometry_refl].
  eapply only_geometry_trans;
    [apply update_model_only_geometry|apply update_leads_only_geometry].
Qed.

End Frames.

(** ** The rolling percent grade *)

















Section GradeRuns.
Context {K : Constants}.

Lemma only_geometry_grade_view (s s' : UIState) :
  only_geometry s s' -> grade_view (scene s') = grade_view (scene s).
Proof. intros (p & e & t & l & r & d & ->). reflexivity. Qed.


Lemma update_state_sensorEvents_grade_view (sm : SubMaster) (s : UIState) :
  grade_view (scene (update_state_sensorEvents sm s)) = grade_view (scene s).
Proof.
  unfold update_state_sensorEvents.
  destruct (updated sm "sensorEvents"); [|reflexivity].
  cbn [scene set_scene].
  apply (fold_left_preserves (fun sc => grade_view sc = grade_view (scene s)));
    [reflexivity|].
  intros sc [accel|gyro|] H; [| |exact H].
  - destruct (negb (started sc)); [|exact H]. destruct accel; exact H.
  - destruct (negb (started sc)); [|exact H]. destruct gyro; exact H.
Qed.

Lemma update_state_params_grade_view (params : Params) (t : fl) (s : UIState) :
  grade_view (scene (update_state_params params t s)) = grade_view (scene s).
Proof.
  unfold update_state_params.
  match goal with |- context [if ?c then _ else _] => destruct c end;
    reflexivity.
Qed.

Lemma update_state_controlsState_grade_view (sm : SubMaster) (s : UIState) :
  grade_view (scene (update_state_controlsState sm s)) = grade_view (scene s).
Proof.
  unfold update_state_controlsState.
  destruct (started (scene s) && updated sm "controlsState"); reflexivity.
Qed.

Lemma update_state_liveCalibration_grade_view (sm : SubMaster) (s : UIState) :
  grade_view (scene (update_state_liveCalibration sm s)) = grade_view (scene s).
Proof.
  unfold update_state_liveCalibration.
  destruct (updated sm "liveCalibration"); reflexivity.
Qed.

Lemma update_state_pandaState_grade_view (sm : SubMaster) (s : UIState) :
  grade_view (scene (update_state_pandaState sm s)) = grade_view (scene s).
Proof.
  unfold update_state_pandaState.
  destruct (updated sm "pandaState"); reflexivity.
Qed.

Lemma update_state_roadCameraState_grade_view (sm : SubMaster) (s : UIState) :
  grade_view (scene (update_state_roadCameraState sm s)) = grade_view (scene s).
Proof.
  unfold update_state_roadCameraState.
  destruct (updated sm "roadCameraState"); reflexivity.
Qed.




End GradeRuns.


(** ** The indicator fades *)

Lemma fade_time_step_pos : exists k, fade_time_step = Fin k /\ 0 <= k.
Proof.
  exists (1 / 0.3). split; [reflexivity|]. vm_compute. discriminate.
Qed.

Ltac case_Qlt :=
  match goal with
  | |- context [Qlt_bool ?a ?b] =>
      let E := fresh "E" in
      destruct (Qlt_bool a b) eqn:E;
      [apply Qlt_bool_iff in E | apply Qlt_bool_false in E]
  end.

Ltac fade_close :=
  cbn; repeat match goal with |- _ /\ _ => split end;
  try lra; try (eexists; split; [reflexivity|lra]); try assumption.

Lemma fade_ok_view (t : Q) (sc sc' : UIScene) :
  fade_view sc' = fade_view sc -> fade_ok t sc -> fade_ok t sc'.
Proof.
  unfold fade_view, fade_ok. intros E H.
  destruct sc, sc'. cbn in *. injection E as -> -> -> ->. exact H.
Qed.

Lemma fade_ok_later (t0 t : Q) (sc : UIScene) :
  t0 <= t -> fade_ok t0 sc -> fade_ok t sc.
Proof.
  intros Ht (Ha & Hf & (b & Eb & Hb) & (o & Eo & Ho)).
  repeat split; try assumption.
  - exists b. split; [exact Eb|lra].
  - exists o. split; [exact Eo|lra].
Qed.

Lemma update_brake_indicator_fade (t0 t : Q) (sc : UIScene) :
  t0 <= t -> fade_ok t0 sc -> fade_ok t (update_brake_indicator (Fin t) sc).
Proof.
  intros Ht (Ha & Hf & (b & Eb & Hb) & (o & Eo & Ho)).
  apply within_Fin in Ha. destruct Ha as (a & Ea & Ha0 & Ha1).
  apply within_Fin in Hf. destruct Hf as (f & Ef & Hf0 & Hf1).
  destruct fade_time_step_pos as (k & Ek & Hk).
  assert (Hstep : 0 <= k * (t + - b)).
  { apply Qmult_le_0_compat; [exact Hk|lra]. }
  unfold fade_ok, update_brake_indicator.
  destruct sc; cbn in *; subst.
  rewrite Ek. clear Ek.
  match goal with |- context [(0 <? ?z)%Z] => destruct (0 <? z)%Z end;
    cbn; fl_unfold; cbn.
  - case_Qlt; fade_close.
  - case_Qlt; cbn; [case_Qlt|]; fade_close.
Qed.

Lemma update_one_pedal_fade_fade (s : UIState) (t : Q) (sc : UIScene) :
  fade_ok t sc -> fade_ok t (update_one_pedal_fade s (Fin t) sc).
Proof.
  intros (Ha & Hf & (b & Eb & Hb) & (o & Eo & Ho)).
  apply within_Fin in Ha. destruct Ha as (a & Ea & Ha0 & Ha1).
  apply within_Fin in Hf. destruct Hf as (f & Ef & Hf0 & Hf1).
  destruct fade_time_step_pos as (k & Ek & Hk).
  assert (Hstep : 0 <= k * (t + - o)).
  { apply Qmult_le_0_compat; [exact Hk|lra]. }
  unfold fade_ok, update_one_pedal_fade.
  destruct (Fin t - sessionInitTime sc >? Fin 10)%fl;
    [|cbn; rewrite ?Ea, ?Ef, ?Eb, ?Eo; fade_close].
  match goal with |- context [if ?c || ?d then _ else _] =>
    destruct (c || d) end.
  - cbn [one_pedal_fade set_one_pedal_fade one_pedal_fade_last_t].
    rewrite Ef, Eo, Ek. fl_unfold. cbn [Fl.add Fl.mul Fl.opp Fl.lt].
    case_Qlt; cbn; rewrite ?Ea, ?Eb; fade_close.
  - cbn [one_pedal_fade set_one_pedal_fade one_pedal_fade_last_t].
    rewrite Ef, Eo, Ek. fl_unfold. cbn [Fl.add Fl.mul Fl.opp Fl.lt].
    case_Qlt; cbn [one_pedal_fade set_one_pedal_fade Fl.lt];
      [case_Qlt|]; cbn; rewrite ?Ea, ?Eb, ?Ef; fade_close.
Qed.

Lemma initial_mean_percent_grade_fade_view (sc : UIScene) :
  fade_view (initial_mean_percent_grade sc) = fade_view sc.
Proof.
  unfold initial_mean_percent_grade.
  match goal with
  | |- context [fold_left ?f ?l ?a] => destruct (fold_left f l a)
  end.
  reflexivity.
Qed.

Lemma record_grade_sample_fade_view (sc : UIScene) :
  fade_view (record_grade_sample sc) = fade_view sc.
Proof.
  unfold record_grade_sample, update_rolling_average, store_grade_sample.
  cbv zeta.
  assert (H : forall sc, fade_view (advance_grade_iter sc) = fade_view sc).
  { clear sc. intros sc. unfold advance_grade_iter. cbv zeta.
    repeat match goal with
           | |- context [if ?c then _ else _] => destruct c
           end;
      try reflexivity.
    unfold fade_view. cbn.
    pose proof (initial_mean_percent_grade_fade_view
                  (set_percentGradeIterRolled true
                     (set_percentGradeRollingIter
                        (S (percentGradeRollingIter sc)) sc))) as E.
    unfold fade_view in E. cbn in E. exact E. }
  rewrite <- (H sc).
  generalize (advance_grade_iter sc). intros sc1.
  repeat match goal with
         | |- context [if ?c then _ else _] => destruct c
         end;
    reflexivity.
Qed.

Lemma set_percentGradeLastTime_fade_view (x : fl) (sc : UIScene) :
  fade_view (set_percentGradeLastTime x sc) = fade_view sc.
Proof. reflexivity. Qed.

Lemma set_percentGradeCurDist_fade_view (x : fl) (sc : UIScene) :
  fade_view (set_percentGradeCurDist x sc) = fade_view sc.
Proof. reflexivity. Qed.

Lemma update_percent_grade_fade_view (t : fl) (sc : UIScene) :
  fade_view (update_percent_grade t sc) = fade_view sc.
Proof.
  unfold update_percent_grade. cbv zeta.
  rewrite set_percentGradeLastTime_fade_view.
  destruct (getVEgo (car_state sc) >? Fin 0)%fl; [|reflexivity].
  match goal with
  | |- fade_view (if ?c then _ else _) = _ => destruct c
  end.
  - rewrite record_grade_sample_fade_view.
    apply set_percentGradeCurDist_fade_view.
  - apply set_percentGradeCurDist_fade_view.
Qed.

Section FadeRuns.
Context {K : Constants}.

Lemma only_geometry_fade_view (s s' : UIState) :
  only_geometry s s' -> fade_view (scene s') = fade_view (scene s).
Proof. intros (p & e & t & l & r & d & ->). reflexivity. Qed.

Lemma update_state_carState_fade (sm : SubMaster) (t0 t : Q) (s : UIState) :
  t0 <= t -> fade_ok t0 (scene s) ->
  fade_ok t (scene (update_state_carState sm (Fin t) s)).
Proof.
  intros Ht H. unfold update_state_carState.
  destruct (updated sm "carState"); [|exact (fade_ok_later _ _ _ Ht H)].
  cbv zeta. cbn [scene set_scene].
  refine (fade_ok_view _ _ _ (update_percent_grade_fade_view _ _) _).
  apply update_one_pedal_fade_fade.
  apply (update_brake_indicator_fade t0); [exact Ht|].
  exact H.
Qed.

Lemma update_state_sensorEvents_fade_view (sm : SubMaster) (s : UIState) :
  fade_view (scene (update_state_sensorEvents sm s)) = fade_view (scene s).
Proof.
  unfold update_state_sensorEvents.
  destruct (updated sm "sensorEvents"); [|reflexivity].
  cbn [scene set_scene].
  apply (fold_left_preserves (fun sc => fade_view sc = fade_view (scene s)));
    [reflexivity|].
  intros sc [accel|gyro|] H; [| |exact H].
  - destruct (negb (started sc)); [|exact H]. destruct accel; exact H.
  - destruct (negb (started sc)); [|exact H]. destruct gyro; exact H.
Qed.

Lemma update_state_params_fade_view (params : Params) (t : fl) (s : UIState) :
  fade_view (scene (update_state_params params t s)) = fade_view (scene s).
Proof.
  unfold update_state_params.
  match goal with |- context [if ?c then _ else _] => destruct c end;
    reflexivity.
Qed.

Lemma update_state_controlsState_fade_view (sm : SubMaster) (s : UIState) :
  fade_view (scene (update_state_controlsState sm s)) = fade_view (scene s).
Proof.
  unfold update_state_controlsState.
  destruct (started (scene s) && updated sm "controlsState"); reflexivity.
Qed.

Lemma update_state_liveCalibration_fade_view (sm : SubMaster) (s : UIState) :
  fade_view (scene (update_state_liveCalibration sm s)) = fade_view (scene s).
Proof.
  unfold update_state_liveCalibration.
  destruct (updated sm "liveCalibration"); reflexivity.
Qed.

Lemma update_state_pandaState_fade_view (sm : SubMaster) (s : UIState) :
  fade_view (scene (update_state_pandaState sm s)) = fade_view (scene s).
Proof.
  unfold update_state_pandaState.
  destruct (updated sm "pandaState"); reflexivity.
Qed.

Lemma update_state_roadCameraState_fade_view (sm : SubMaster) (s : UIState) :
  fade_view (scene (update_state_roadCameraState sm s)) = fade_view (scene s).
Proof.
  unfold update_state_roadCameraState.
  destruct (updated sm "roadCameraState"); reflexivity.
Qed.

Lemma update_state_ubloxGnss_fade_view (sm : SubMaster) (s : UIState) :
  fade_view (scene (update_state_ubloxGnss sm s)) = fade_view (scene s).
Proof.
  unfold update_state_ubloxGnss.
  destruct (updated sm "ubloxGnss"); reflexivity.
Qed.

Lemma update_state_fade (s : UIState) (sm : SubMaster) (params : Params)
                        (t0 t : Q) :
  t0 <= t -> fade_ok t0 (scene s) ->
  fade_ok t (scene (update_state s sm params (Fin t))).
Proof.
  intros Ht H. unfold update_state. cbv zeta.
  refine (fade_ok_view _ (scene (update_state_ubloxGnss _ _)) _ eq_refl _).
  refine (fade_ok_view _ _ _ (update_state_ubloxGnss_fade_view _ _) _).
  refine (fade_ok_view _ (scene (update_state_roadCameraState _ _)) _ eq_refl _).
  refine (fade_ok_view _ _ _ (update_state_roadCameraState_fade_view _ _) _).
  refine (fade_ok_view _ _ _ (update_state_sensorEvents_fade_view _ _) _).
  refine (fade_ok_view _ _ _ (update_state_pandaState_fade_view _ _) _).
  refine (fade_ok_view _ _ _ (update_state_liveCalibration_fade_view _ _) _).
  refine (fade_ok_view _ _ _
            (only_geometry_fade_view _ _
               (update_state_modelV2_only_geometry _ _)) _).
  apply (update_state_carState_fade _ t0); [exact Ht|].
  refine (fade_ok_view _ _ _ (update_state_controlsState_fade_view _ _) _).
  refine (fade_ok_view _ _ _ (update_state_params_fade_view _ _ _) _).
  exact H.
Qed.

Lemma update_status_fade_view (s : UIState) (started_prev : bool)
                              (sm : SubMaster) (params : Params) (now : fl) :
  fade_view (scene (fst (update_status s started_prev sm params now)))
  = fade_view (scene s).
Proof.
  unfold update_status. cbv zeta. cbn [fst].
  repeat match goal with
         | |- context [if ?c then _ else _] => destruct c
         | |- context [match ?c with NORMAL => _ | _ => _ end] => destruct c
         end;
    reflexivity.
Qed.

Lemma run_ui_update_fade (st : UIState * bool) (ticks : list Tick) (t0 : Q) :
  nondecreasing_from t0 ticks -> fade_ok t0 (scene (fst st)) ->
  exists t, fade_ok t (scene (fst (run_ui_update st ticks))).
Proof.
  unfold run_ui_update.
  revert st t0. induction ticks as [|k ticks IH]; intros st t0 Hk H.
  - exists t0. exact H.
  - destruct Hk as (t & Et & Ht & Hk). simpl.
    apply (IH _ t Hk).
    unfold ui_update.
    refine (fade_ok_view _ _ _ (update_status_fade_view _ _ _ _ _) _).
    rewrite Et. apply (update_state_fade _ _ _ t0); assumption.
Qed.

End FadeRuns.

(** ** Projection and path geometry *)






Lemma not_finite_add_r (x y : fl) :
  is_finite y = false -> is_finite (x + y)%fl = false.
Proof.
  destruct x, y; simpl; try discriminate; try reflexivity.
  intros _. destruct (Bool.eqb neg neg0); reflexivity.
Qed.


Lemma upd_length {A : Type} (i : nat) (x : A) (a : list A) :
  List.length (upd i x a) = List.length a.
Proof.
  revert i. induction a as [|y a IH]; intros [|i]; simpl; try reflexivity.
  rewrite IH. reflexivity.
Qed.




Section Geometry.
Context {K : Constants}.


(** The projection reads only the camera part of the state. *)
Lemma calib_frame_to_full_frame_ext (s s' : UIState) (x y z : fl) :
  camera_view s' = camera_view s ->
  calib_frame_to_full_frame s' x y z = calib_frame_to_full_frame s x y z.
Proof.
  unfold camera_view, calib_frame_to_full_frame. intros E.
  injection E as -> -> -> -> ->. reflexivity.
Qed.

Lemma push_vertex_ext (s s' : UIState) (x y z : fl)
                      (st : list vertex_data * nat) :
  camera_view s' = camera_view s ->
  push_vertex s' x y z st = push_vertex s x y z st.
Proof.
  intros E. unfold push_vertex.
  rewrite (calib_frame_to_full_frame_ext s s' x y z E). reflexivity.
Qed.

Lemma fold_left_ext {A B : Type} (f g : A -> B -> A) (l : list B) (a : A) :
  (forall a b, f a b = g a b) -> fold_left f l a = fold_left g l a.
Proof.
  intros H. revert a. induction l as [|b l IH]; simpl; intros a;
    [reflexivity|].
  rewrite H. apply IH.
Qed.

Lemma update_line_data_ext (s s' : UIState) (line : XYZTData) (y_off z_off : fl)
                           (pvd : line_vertices_data) (max_idx : nat) :
  camera_view s' = camera_view s ->
  update_line_data s' line y_off z_off pvd max_idx
  = update_line_data s line y_off z_off pvd max_idx.
Proof.
  intros E. unfold update_line_data. cbv zeta.
  rewrite (fold_left_ext
             (fun st i => push_vertex s' (at_ i (getX line))
                            (at_ i (getY line) - y_off)%fl
                            (at_ i (getZ line) + z_off)%fl st)
             (fun st i => push_vertex s (at_ i (getX line))
                            (at_ i (getY line) - y_off)%fl
                            (at_ i (getZ line) + z_off)%fl st))
    by (intros; apply push_vertex_ext, E).
  rewrite (fold_left_ext
             (fun st i => push_vertex s' (at_ i (getX line))
                            (at_ i (getY line) + y_off)%fl
                            (at_ i (getZ line) + z_off)%fl st)
             (fun st i => push_vertex s (at_ i (getX line))
                            (at_ i (getY line) + y_off)%fl
                            (at_ i (getZ line) + z_off)%fl st))
    by (intros; apply push_vertex_ext, E).
  reflexivity.
Qed.

(** Each step writes one slot and advances the cursor by at most one. *)
Lemma push_vertex_bound (s : UIState) (x y z : fl)
                        (st : list vertex_data * nat) :
  List.length (fst (push_vertex s x y z st)) = List.length (fst st) /\
  (snd st <= snd (push_vertex s x y z st) <= S (snd st))%nat.
Proof.
  unfold push_vertex.
  destruct (calib_frame_to_full_frame s x y z) as [out visible].
  cbn [fst snd]. rewrite upd_length.
  destruct visible; split; try reflexivity; lia.
Qed.

Lemma fold_push_vertex_bound (s : UIState) (fx fy fz : nat -> fl)
                             (l : list nat) (st : list vertex_data * nat) :
  let st' := fold_left (fun st i => push_vertex s (fx i) (fy i) (fz i) st) l st in
  List.length (fst st') = List.length (fst st) /\
  (snd st <= snd st' <= snd st + List.length l)%nat.
Proof.
  cbv zeta. revert st. induction l as [|i l IH]; intros st; simpl.
  - split; [reflexivity|lia].
  - destruct (IH (push_vertex s (fx i) (fy i) (fz i) st)) as (Hl & Hc).
    destruct (push_vertex_bound s (fx i) (fy i) (fz i) st) as (Hl' & Hc').
    split; [congruence|lia].
Qed.

Lemma update_line_data_bound (s : UIState) (line : XYZTData) (y_off z_off : fl)
                             (pvd : line_vertices_data) (max_idx : nat) :
  let pvd' := update_line_data s line y_off z_off pvd max_idx in
  List.length (v pvd') = List.length (v pvd) /\
  (cnt pvd' <= 2 * max_idx + 2)%nat.
Proof.
  cbv zeta. unfold update_line_data. cbv zeta. cbn [v cnt].
  match goal with
  | |- context [fold_left ?g (rev ?l) (fold_left ?f ?l ?st)] =>
      pose proof (fold_push_vertex_bound s
                    (fun i => at_ i (getX line))
                    (fun i => (at_ i (getY line) - y_off)%fl)
                    (fun i => (at_ i (getZ line) + z_off)%fl) l st) as H1;
      pose proof (fold_push_vertex_bound s
                    (fun i => at_ i (getX line))
                    (fun i => (at_ i (getY line) + y_off)%fl)
                    (fun i => (at_ i (getZ line) + z_off)%fl) (rev l)
                    (fold_left f l st)) as H2
  end.
  cbv zeta in H1, H2. cbn [fst snd] in H1, H2.
  rewrite length_rev, length_seq in H2. rewrite length_seq in H1.
  destruct H1 as (Hl1 & Hc1), H2 as (Hl2 & Hc2).
  split; [congruence|lia].
Qed.

End Geometry.

(** ** What the geometry builder reads and writes *)

Lemma fold_left_rel {A B : Type} (R : A -> A -> Prop) (f : A -> B -> A)
                    (l : list B) (a1 a2 : A) :
  R a1 a2 -> (forall a1 a2 b, R a1 a2 -> R (f a1 b) (f a2 b)) ->
  R (fold_left f l a1) (fold_left f l a2).
Proof.
  intros Ha Hf. revert a1 a2 Ha.
  induction l as [|b l IH]; simpl; intros a1 a2 Ha; [exact Ha|].
  apply IH, Hf, Ha.
Qed.

Section ModelFrames.
Context {K : Constants}.

Lemma same_projection_inv (s1 s2 : UIState) :
  same_projection s1 s2 ->
  camera_view s1 = camera_view s2 /\
  lane_line_probs (scene s1) = lane_line_probs (scene s2) /\
  road_edge_stds (scene s1) = road_edge_stds (scene s2) /\
  track_vertices (scene s1) = track_vertices (scene s2) /\
  lane_line_vertices (scene s1) = lane_line_vertices (scene s2) /\
  road_edge_vertices (scene s1) = road_edge_vertices (scene s2) /\
  lead_vertices (scene s1) = lead_vertices (scene s2).
Proof.
  intros (Hc & Hg). unfold geometry_view in Hg.
  injection Hg as H1 H2 H3 H4 H5 H6. repeat split; assumption.
Qed.

Lemma same_projection_intro (s1 s2 : UIState) :
  camera_view s1 = camera_view s2 ->
  lane_line_probs (scene s1) = lane_line_probs (scene s2) ->
  road_edge_stds (scene s1) = road_edge_stds (scene s2) ->
  track_vertices (scene s1) = track_vertices (scene s2) ->
  lane_line_vertices (scene s1) = lane_line_vertices (scene s2) ->
  road_edge_vertices (scene s1) = road_edge_vertices (scene s2) ->
  lead_vertices (scene s1) = lead_vertices (scene s2) ->
  same_projection s1 s2.
Proof.
  intros Hc H1 H2 H3 H4 H5 H6. split; [exact Hc|].
  unfold geometry_view. congruence.
Qed.

Lemma update_leads_same_projection (s1 s2 : UIState) (model : ModelDataV2) :
  same_projection s1 s2 ->
  same_projection (update_leads s1 model) (update_leads s2 model).
Proof.
  intros H. unfold update_leads.
  apply (fold_left_rel same_projection); [exact H|].
  clear s1 s2 H. intros s1 s2 i H. cbv beta zeta.
  destruct (getProb (nth i (getLeadsV3 model) default_lead) >? Fin 0.5)%fl;
    [|exact H].
  apply same_projection_inv in H.
  destruct H as (Hc & H1 & H2 & H3 & H4 & H5 & H6).
  rewrite (calib_frame_to_full_frame_ext s2 s1) by exact Hc.
  destruct (calib_frame_to_full_frame s2 _ _ _) as [out vis].
  apply same_projection_intro; cbn [scene set_scene]; try assumption.
  cbn. rewrite H6. reflexivity.
Qed.

Lemma lane_step_same_projection
        (lane_lines : list XYZTData) (probs : list fl) (max_idx : nat)
        (s1 s2 : UIState) (i : nat) :
  same_projection s1 s2 ->
  same_projection
    (let sc := set_lane_line_probs
                 (upd i (at_ i probs) (lane_line_probs (scene s1))) (scene s1) in
     let s := set_scene sc s1 in
     let pvd := update_line_data s (nth i lane_lines default_line)
                  (Fin 0.025 * at_ i (lane_line_probs sc))%fl zero
                  (nth i (lane_line_vertices sc) default_lines) max_idx in
     set_scene (set_lane_line_vertices (upd i pvd (lane_line_vertices sc)) sc) s)
    (let sc := set_lane_line_probs
                 (upd i (at_ i probs) (lane_line_probs (scene s2))) (scene s2) in
     let s := set_scene sc s2 in
     let pvd := update_line_data s (nth i lane_lines default_line)
                  (Fin 0.025 * at_ i (lane_line_probs sc))%fl zero
                  (nth i (lane_line_vertices sc) default_lines) max_idx in
     set_scene (set_lane_line_vertices (upd i pvd (lane_line_vertices sc)) sc) s).
Proof.
  intros H. apply same_projection_inv in H.
  destruct H as (Hc & H1 & H2 & H3 & H4 & H5 & H6).
  cbv zeta.
  rewrite (update_line_data_ext s1 (set_scene _ s1)) by reflexivity.
  rewrite (update_line_data_ext s2 (set_scene _ s2)) by reflexivity.
  rewrite (update_line_data_ext s2 s1) by exact Hc.
  apply same_projection_intro; cbn [scene set_scene]; try assumption.
  - cbn. rewrite H1. reflexivity.
  - cbn. rewrite H1, H4. reflexivity.
Qed.

Lemma edge_step_same_projection
        (road_edges : list XYZTData) (stds : list fl) (max_idx : nat)
        (s1 s2 : UIState) (i : nat) :
  same_projection s1 s2 ->
  same_projection
    (let sc := set_road_edge_stds
                 (upd i (at_ i stds) (road_edge_stds (scene s1))) (scene s1) in
     let s := set_scene sc s1 in
     let pvd := update_line_data s (nth i road_edges default_line)
                  (Fin 0.025) zero
                  (nth i (road_edge_vertices sc) default_lines) max_idx in
     set_scene (set_road_edge_vertices (upd i pvd (road_edge_vertices sc)) sc) s)
    (let sc := set_road_edge_stds
                 (upd i (at_ i stds) (road_edge_stds (scene s2))) (scene s2) in
     let s := set_scene sc s2 in
     let pvd := update_line_data s (nth i road_edges default_line)
                  (Fin 0.025) zero
                  (nth i (road_edge_vertices sc) default_lines) max_idx in
     set_scene (set_road_edge_vertices (upd i pvd (road_edge_vertices sc)) sc) s).
Proof.
  intros H. apply same_projection_inv in H.
  destruct H as (Hc & H1 & H2 & H3 & H4 & H5 & H6).
  cbv zeta.
  rewrite (update_line_data_ext s1 (set_scene _ s1)) by reflexivity.
  rewrite (update_line_data_ext s2 (set_scene _ s2)) by reflexivity.
  rewrite (update_line_data_ext s2 s1) by exact Hc.
  apply same_projection_intro; cbn [scene set_scene]; try assumption.
  - cbn. rewrite H2. reflexivity.
  - cbn. rewrite H5. reflexivity.
Qed.

Lemma update_model_same_projection (s1 s2 : UIState) (model : ModelDataV2) :
  same_projection s1 s2 ->
  same_projection (update_model s1 model) (update_model s2 model).
Proof.
  intros H. unfold update_model. cbv zeta.
  pose proof (same_projection_inv _ _ H) as (_ & _ & _ & _ & H4 & _).
  rewrite H4.
  match goal with
  | |- context [fold_left ?f ?l s1] =>
      assert (HR1 : same_projection (fold_left f l s1) (fold_left f l s2));
      [|revert HR1; generalize (fold_left f l s1), (fold_left f l s2)]
  end.
  { apply (fold_left_rel same_projection); [exact H|].
    intros a1 a2 i Ha.
    apply (lane_step_same_projection (getLaneLines model)
             (getLaneLineProbs model) _ a1 a2 i Ha). }
  clear s1 s2 H H4. intros s1 s2 H.
  pose proof (same_projection_inv _ _ H) as (_ & _ & _ & _ & _ & H5 & _).
  rewrite H5.
  match goal with
  | |- context [fold_left ?f ?l s1] =>
      assert (HR1 : same_projection (fold_left f l s1) (fold_left f l s2));
      [|revert HR1; generalize (fold_left f l s1), (fold_left f l s2)]
  end.
  { apply (fold_left_rel same_projection); [exact H|].
    intros a1 a2 i Ha.
    apply (edge_step_same_projection (getRoadEdges model)
             (getRoadEdgeStds model) _ a1 a2 i Ha). }
  clear s1 s2 H H5. intros a b HR. apply same_projection_inv in HR.
  destruct HR as (Hc & H1 & H2 & H3 & H4' & H5' & H6).
  rewrite (update_line_data_ext b a) by exact Hc.
  apply same_projection_intro; cbn [scene set_scene]; try assumption.
  cbn. rewrite H3. reflexivity.
Qed.


(** The loops over the lane lines and the road edges leave the camera and
    the path buffer alone. *)
Lemma update_model_track_vertices (s : UIState) (model : ModelDataV2) :
  exists max_distance : fl,
    track_vertices (scene (update_model s model))
    = update_line_data s (getPosition model) (Fin 0.5) (Fin 1.22)
        (track_vertices (scene s))
        (get_path_length_idx (getPosition model) max_distance) /\
    max_distance
    = (let max_distance :=
         clamp (at_ (TRAJECTORY_SIZE - 1) (getX (getPosition model)))
               MIN_DRAW_DISTANCE MAX_DRAW_DISTANCE in
       let lead_one := nth 0 (getLeadsV3 model) default_lead in
       if (getProb lead_one >? Fin 0.5)%fl then
         let lead_d := (at_ 0 (leadX lead_one) * Fin 2)%fl in
         clamp (lead_d - fmin (lead_d * Fin 0.35) (Fin 10))%fl (Fin 0)
               max_distance
       else max_distance).
Proof.
  eexists. split; [|reflexivity].
  unfold update_model. cbv zeta. cbn [scene set_scene track_vertices
                                      set_track_vertices].
  match goal with
  | |- update_line_data ?a _ _ _ (track_vertices (scene ?a)) _ = _ =>
      assert (HP : camera_view a = camera_view s /\
                   track_vertices (scene a) = track_vertices (scene s));
      [|revert HP; generalize a]
  end.
  { apply (fold_left_preserves
             (fun a => camera_view a = camera_view s /\
                       track_vertices (scene a) = track_vertices (scene s))).
    - apply (fold_left_preserves
               (fun a => camera_view a = camera_view s /\
                         track_vertices (scene a) = track_vertices (scene s)));
        [split; reflexivity|].
      intros a i (Hc & Ht). split; [rewrite <- Hc|rewrite <- Ht]; reflexivity.
    - intros a i (Hc & Ht). split; [rewrite <- Hc|rewrite <- Ht]; reflexivity. }
  intros a (Hc & Ht).
  rewrite (update_line_data_ext s a) by exact Hc.
  rewrite Ht. reflexivity.
Qed.

End ModelFrames.

(** *** What the percent-grade estimator leaves alone *)

Lemma only_grade_refl (sc : UIScene) : only_grade sc sc.
Proof.
  exists (percentGradeCurDist sc), (percentGradeLastTime sc), (percentGrade sc),
         (percentGradeAltitudes sc), (percentGradePositions sc),
         (percentGrades sc), (percentGradeRollingIter sc),
         (percentGradeIterRolled sc).
  destruct sc. reflexivity.
Qed.

Lemma only_grade_trans (sc1 sc2 sc3 : UIScene) :
  only_grade sc1 sc2 -> only_grade sc2 sc3 -> only_grade sc1 sc3.
Proof.
  intros (cd & lt & pg & al & po & gr & it & ro & ->)
         (cd' & lt' & pg' & al' & po' & gr' & it' & ro' & ->).
  exists cd', lt', pg', al', po', gr', it', ro'. reflexivity.
Qed.

Lemma only_grade_CurDist (x : fl) (sc : UIScene) :
  only_grade sc (set_percentGradeCurDist x sc).
Proof.
  exists x, (percentGradeLastTime sc), (percentGrade sc),
         (percentGradeAltitudes sc), (percentGradePositions sc),
         (percentGrades sc), (percentGradeRollingIter sc),
         (percentGradeIterRolled sc).
  destruct sc. reflexivity.
Qed.

Lemma only_grade_LastTime (x : fl) (sc : UIScene) :
  only_grade sc (set_percentGradeLastTime x sc).
Proof.
  exists (percentGradeCurDist sc), x, (percentGrade sc),
         (percentGradeAltitudes sc), (percentGradePositions sc),
         (percentGrades sc), (percentGradeRollingIter sc),
         (percentGradeIterRolled sc).
  destruct sc. reflexivity.
Qed.

Lemma only_grade_percentGrade (x : fl) (sc : UIScene) :
  only_grade sc (set_percentGrade x sc).
Proof.
  exists (percentGradeCurDist sc), (percentGradeLastTime sc), x,
         (percentGradeAltitudes sc), (percentGradePositions sc),
         (percentGrades sc), (percentGradeRollingIter sc),
         (percentGradeIterRolled sc).
  destruct sc. reflexivity.
Qed.

Lemma only_grade_Altitudes (x : list fl) (sc : UIScene) :
  only_grade sc (set_percentGradeAltitudes x sc).
Proof.
  exists (percentGradeCurDist sc), (percentGradeLastTime sc), (percentGrade sc),
         x, (percentGradePositions sc),
         (percentGrades sc), (percentGradeRollingIter sc),
         (percentGradeIterRolled sc).
  destruct sc. reflexivity.
Qed.

Lemma only_grade_Positions (x : list fl) (sc : UIScene) :
  only_grade sc (set_percentGradePositions x sc).
Proof.
  exists (percentGradeCurDist sc), (percentGradeLastTime sc), (percentGrade sc),
         (percentGradeAltitudes sc), x,
         (percentGrades sc), (percentGradeRollingIter sc),
         (percentGradeIterRolled sc).
  destruct sc. reflexivity.
Qed.

Lemma only_grade_Grades (x : list fl) (sc : UIScene) :
  only_grade sc (set_percentGrades x sc).
Proof.
  exists (percentGradeCurDist sc), (percentGradeLastTime sc), (percentGrade sc),
         (percentGradeAltitudes sc), (percentGradePositions sc),
         x, (percentGradeRollingIter sc),
         (percentGradeIterRolled sc).
  destruct sc. reflexivity.
Qed.

Lemma only_grade_RollingIter (x : nat) (sc : UIScene) :
  only_grade sc (set_percentGradeRollingIter x sc).
Proof.
  exists (percentGradeCurDist sc), (percentGradeLastTime sc), (percentGrade sc),
         (percentGradeAltitudes sc), (percentGradePositions sc),
         (percentGrades sc), x,
         (percentGradeIterRolled sc).
  destruct sc. reflexivity.
Qed.

Lemma only_grade_IterRolled (x : bool) (sc : UIScene) :
  only_grade sc (set_percentGradeIterRolled x sc).
Proof.
  exists (percentGradeCurDist sc), (percentGradeLastTime sc), (percentGrade sc),
         (percentGradeAltitudes sc), (percentGradePositions sc),
         (percentGrades sc), (percentGradeRollingIter sc), x.
  destruct sc. reflexivity.
Qed.

Lemma initial_mean_percent_grade_only_grade (sc : UIScene) :
  only_grade sc (initial_mean_percent_grade sc).
Proof.
  unfold initial_mean_percent_grade.
  match goal with
  | |- context [fold_left ?f ?l ?a] => destruct (fold_left f l a) as [g u]
  end.
  eapply only_grade_trans; [apply only_grade_Grades|].
  apply only_grade_percentGrade.
Qed.

Lemma advance_grade_iter_only_grade (sc : UIScene) :
  only_grade sc (advance_grade_iter sc).
Proof.
  unfold advance_grade_iter. cbv zeta.
  eapply only_grade_trans; [apply only_grade_RollingIter|].
  match goal with |- context [if ?c then _ else _] => destruct c end;
    [|apply only_grade_refl].
  eapply only_grade_trans; [|apply only_grade_RollingIter].
  match goal with |- context [if ?c then _ else _] => destruct c end;
    [|apply only_grade_refl].
  eapply only_grade_trans; [apply only_grade_IterRolled|].
  apply initial_mean_percent_grade_only_grade.
Qed.

Lemma store_grade_sample_only_grade (prevDist : fl) (sc : UIScene) :
  only_grade sc (store_grade_sample prevDist sc).
Proof.
  unfold store_grade_sample. cbv zeta.
  eapply only_grade_trans; [apply only_grade_Altitudes|].
  apply only_grade_Positions.
Qed.

Lemma update_rolling_average_only_grade (sc : UIScene) :
  only_grade sc (update_rolling_average sc).
Proof.
  unfold update_rolling_average. cbv zeta.
  destruct (percentGradeIterRolled sc); [|apply only_grade_refl].
  match goal with |- context [if ?c then _ else _] => destruct c end;
    [|apply only_grade_refl].
  eapply only_grade_trans; [apply only_grade_percentGrade|].
  eapply only_grade_trans; [apply only_grade_percentGrade|].
  apply only_grade_Grades.
Qed.

Lemma record_grade_sample_only_grade (sc : UIScene) :
  only_grade sc (record_grade_sample sc).
Proof.
  unfold record_grade_sample. cbv zeta.
  eapply only_grade_trans; [apply advance_grade_iter_only_grade|].
  eapply only_grade_trans; [apply store_grade_sample_only_grade|].
  eapply only_grade_trans; [apply update_rolling_average_only_grade|].
  apply only_grade_CurDist.
Qed.

Lemma update_percent_grade_only_grade (t : fl) (sc : UIScene) :
  only_grade sc (update_percent_grade t sc).
Proof.
  unfold update_percent_grade. cbv zeta.
  eapply only_grade_trans; [|apply only_grade_LastTime].
  destruct (getVEgo (car_state sc) >? Fin 0)%fl; [|apply only_grade_refl].
  eapply only_grade_trans; [apply only_grade_CurDist|].
  match goal with |- context [if ?c then _ else _] => destruct c end;
    [|apply only_grade_refl].
  apply record_grade_sample_only_grade.
Qed.


(** *** The blocks of [update_state] around the geometry builder *)

Section StateFrames.
Context {K : Constants}.

Lemma same_projection_refl (s : UIState) : same_projection s s.
Proof. split; reflexivity. Qed.

Lemma same_projection_sym (s1 s2 : UIState) :
  same_projection s1 s2 -> same_projection s2 s1.
Proof. intros (H1 & H2). split; symmetry; assumption. Qed.

Lemma same_projection_trans (s1 s2 s3 : UIState) :
  same_projection s1 s2 -> same_projection s2 s3 -> same_projection s1 s3.
Proof. intros (H1 & H2) (H3 & H4). split; congruence. Qed.

Lemma only_grade_same_projection (s : UIState) (sc' : UIScene) :
  only_grade (scene s) sc' ->
  same_projection (set_scene sc' s) s /\ vg (set_scene sc' s) = vg s.
Proof.
  intros (cd & lt & pg & al & po & gr & it & ro & ->).
  split; [split|]; reflexivity.
Qed.

Lemma update_state_params_same_projection
        (params : Params) (t : fl) (s : UIState) :
  same_projection (update_state_params params t s) s /\
  vg (update_state_params params t s) = vg s.
Proof.
  unfold update_state_params. cbv zeta.
  match goal with |- context [if ?c then _ else _] => destruct c end;
    (split; [split|]; reflexivity).
Qed.

Lemma update_state_controlsState_same_projection (sm : SubMaster) (s : UIState) :
  same_projection (update_state_controlsState sm s) s /\
  vg (update_state_controlsState sm s) = vg s.
Proof.
  unfold update_state_controlsState.
  destruct (started (scene s) && updated sm "controlsState");
    (split; [split|]; reflexivity).
Qed.

Lemma update_brake_indicator_projection (t : fl) (sc : UIScene) :
  view_from_calib (update_brake_indicator t sc) = view_from_calib sc /\
  geometry_view (update_brake_indicator t sc) = geometry_view sc.
Proof.
  unfold update_brake_indicator. cbv zeta.
  repeat match goal with
         | |- context [if ?c then _ else _] => destruct c
         end; split; reflexivity.
Qed.

Lemma update_one_pedal_fade_projection (s : UIState) (t : fl) (sc : UIScene) :
  view_from_calib (update_one_pedal_fade s t sc) = view_from_calib sc /\
  geometry_view (update_one_pedal_fade s t sc) = geometry_view sc.
Proof.
  unfold update_one_pedal_fade. cbv zeta.
  repeat match goal with
         | |- context [if ?c then _ else _] => destruct c
         end; split; reflexivity.
Qed.

Lemma only_grade_projection (sc sc' : UIScene) :
  only_grade sc sc' ->
  view_from_calib sc' = view_from_calib sc /\
  geometry_view sc' = geometry_view sc.
Proof.
  intros (cd & lt & pg & al & po & gr & it & ro & ->). split; reflexivity.
Qed.

Lemma update_state_carState_same_projection
        (sm : SubMaster) (t : fl) (s : UIState) :
  same_projection (update_state_carState sm t s) s /\
  vg (update_state_carState sm t s) = vg s.
Proof.
  unfold update_state_carState.
  destruct (updated sm "carState");
    [|split; [apply same_projection_refl|reflexivity]].
  cbv zeta.
  destruct (only_grade_projection _ _
              (update_percent_grade_only_grade t
                 (update_one_pedal_fade s t
                    (update_brake_indicator t
                       (set_car_state (getCarState sm) (scene s))))))
    as (Hv0 & Hg0).
  destruct (update_one_pedal_fade_projection s t
              (update_brake_indicator t (set_car_state (getCarState sm) (scene s))))
    as (Hv1 & Hg1).
  destruct (update_brake_indicator_projection t
              (set_car_state (getCarState sm) (scene s))) as (Hv2 & Hg2).
  split; [split|]; try reflexivity.
  - unfold camera_view. cbn [scene set_scene wide_camera car_space_transform
                             fb_w fb_h].
    rewrite Hv0, Hv1, Hv2. reflexivity.
  - cbn [scene set_scene]. rewrite Hg0, Hg1, Hg2. reflexivity.
Qed.

(** The geometry builder cannot tell two such states apart. *)
Lemma update_state_modelV2_same_projection (sm : SubMaster) (s1 s2 : UIState) :
  same_projection s1 s2 -> vg s1 = vg s2 ->
  same_projection (update_state_modelV2 sm s1) (update_state_modelV2 sm s2).
Proof.
  intros H Hvg. unfold update_state_modelV2. rewrite Hvg.
  destruct (updated sm "modelV2" && vg s2); [|exact H].
  cbv zeta.
  apply update_leads_same_projection, update_model_same_projection, H.
Qed.

Lemma update_state_liveCalibration_geometry_view (sm : SubMaster) (s : UIState) :
  geometry_view (scene (update_state_liveCalibration sm s))
  = geometry_view (scene s).
Proof.
  unfold update_state_liveCalibration.
  destruct (updated sm "liveCalibration"); reflexivity.
Qed.

Lemma update_state_pandaState_geometry_view (sm : SubMaster) (s : UIState) :
  geometry_view (scene (update_state_pandaState sm s)) = geometry_view (scene s).
Proof.
  unfold update_state_pandaState.
  destruct (updated sm "pandaState"); reflexivity.
Qed.

Lemma update_state_sensorEvents_geometry_view (sm : SubMaster) (s : UIState) :
  geometry_view (scene (update_state_sensorEvents sm s))
  = geometry_view (scene s).
Proof.
  unfold update_state_sensorEvents.
  destruct (updated sm "sensorEvents"); [|reflexivity].
  cbn [scene set_scene].
  apply (fold_left_preserves
           (fun sc => geometry_view sc = geometry_view (scene s)));
    [reflexivity|].
  intros sc [accel|gyro|] H; [| |exact H].
  - destruct (negb (started sc)); [|exact H]. destruct accel; exact H.
  - destruct (negb (started sc)); [|exact H]. destruct gyro; exact H.
Qed.

Lemma update_state_roadCameraState_geometry_view (sm : SubMaster) (s : UIState) :
  geometry_view (scene (update_state_roadCameraState sm s))
  = geometry_view (scene s).
Proof.
  unfold update_state_roadCameraState.
  destruct (updated sm "roadCameraState"); reflexivity.
Qed.

Lemma update_state_ubloxGnss_geometry_view (sm : SubMaster) (s : UIState) :
  geometry_view (scene (update_state_ubloxGnss sm s)) = geometry_view (scene s).
Proof.
  unfold update_state_ubloxGnss.
  destruct (updated sm "ubloxGnss"); reflexivity.
Qed.

(** The vertex buffers after [update_state] are those that its model block
    computes from the state at the start of the tick. *)
Lemma update_state_geometry_view (s1 s2 : UIState) (sm : SubMaster)
                                 (params : Params) (t : fl) :
  same_projection s1 s2 -> vg s1 = vg s2 ->
  geometry_view (scene (update_state s1 sm params t))
  = geometry_view (scene (update_state_modelV2 sm s2)).
Proof.
  intros H Hvg. unfold update_state. cbv zeta.
  change (geometry_view (scene (set_scene (set_lastTime t ?x) ?y)))
    with (geometry_view x).
  rewrite update_state_ubloxGnss_geometry_view.
  change (geometry_view (scene (update_state_started sm ?x)))
    with (geometry_view (scene x)).
  rewrite update_state_roadCameraState_geometry_view.
  rewrite update_state_sensorEvents_geometry_view.
  rewrite update_state_pandaState_geometry_view.
  rewrite update_state_liveCalibration_geometry_view.
  apply update_state_modelV2_same_projection.
  - destruct (update_state_params_same_projection params t s1) as (H1 & _).
    destruct (update_state_controlsState_same_projection sm
                (update_state_params params t s1)) as (H2 & _).
    destruct (update_state_carState_same_projection sm t
                (update_state_controlsState sm
                   (update_state_params params t s1))) as (H3 & _).
    eapply same_projection_trans; [exact H3|].
    eapply same_projection_trans; [exact H2|].
    eapply same_projection_trans; [exact H1|exact H].
  - destruct (update_state_params_same_projection params t s1) as (_ & H1).
    destruct (update_state_controlsState_same_projection sm
                (update_state_params params t s1)) as (_ & H2).
    destruct (update_state_carState_same_projection sm t
                (update_state_controlsState sm
                   (update_state_params params t s1))) as (_ & H3).
    congruence.
Qed.

End StateFrames.

(** ** The onroad/offroad transition *)



Section Status.
Context {K : Constants}.




End Status.

(** ** Device: brightness and wakefulness *)

Lemma truncQ_monotone (a b : Q) : a <= b -> (truncQ a <= truncQ b)%Z.
Proof.
  intros Hab. unfold truncQ.
  destruct (Qle_bool 0 a) eqn:Ea, (Qle_bool 0 b) eqn:Eb.
  - apply Qfloor_resp_le, Hab.
  - apply Qle_bool_iff in Ea. apply Qle_bool_false in Eb. lra.
  - apply Qle_bool_false in Ea. apply Qle_bool_iff in Eb.
    apply Z.le_trans with (Qceiling 0).
    + apply Qceiling_resp_le. lra.
    + change (Qceiling 0) with (Qfloor 0). apply Qfloor_resp_le. exact Eb.
  - apply Qceiling_resp_le, Hab.
Qed.

Lemma truncQ_inject_Z (z : Z) : truncQ (inject_Z z) = z.
Proof.
  unfold truncQ. destruct (Qle_bool 0 (inject_Z z));
    [apply Qfloor_Z|apply Qceiling_Z].
Qed.

Lemma truncQ_eq (a b : Q) : a == b -> truncQ a = truncQ b.
Proof.
  intros H. apply Z.le_antisymm; apply truncQ_monotone; rewrite H;
    apply Qle_refl.
Qed.

Lemma cube_monotone (a b : Q) : 0 <= a -> a <= b -> a * a * a <= b * b * b.
Proof.
  intros Ha Hab.
  assert (a * a <= b * b) by nra. assert (0 <= a * a) by nra. nra.
Qed.

Lemma updateBrightness_eq (d : Device) (s : UIState) :
  updateBrightness d s
  = (let filter := FirstOrderFilter_update (brightness_filter d)
                     (brightness_target s) in
     let brightness := if negb (awake d) then 0%Z else to_int (x_ filter) in
     (mkDevice (awake d) (awake_timeout d) (accel_prev d) (gyro_prev d)
               (accel_samples d) filter brightness,
      if negb (Z.eqb brightness (last_brightness d))
      then [set_brightness brightness] else [])).
Proof. reflexivity. Qed.

(** Onroad, the target is a number between 10 and 100 that does not
    decrease with the ambient light. *)
Lemma brightness_target_onroad (s : UIState) (l : Q) :
  started (scene s) = true -> light_sensor (scene s) = Fin l ->
  exists b, brightness_target s = Fin b /\ 10 <= b <= 100 /\
            b == (if Qle_bool (100 * l) 8 then 10
                  else let c := (100 * l + 16) / 116 in
                       if Qlt_bool (100 * (c * c * c)) 10 then 10
                       else if Qlt_bool 100 (100 * (c * c * c)) then 100
                       else 100 * (c * c * c)).
Proof.
  intros Hs Hl. unfold brightness_target. rewrite Hs, Hl.
  cbn [negb Fl.mul Fl.le].
  destruct (Qle_bool (100 * l) 8) eqn:E.
  - exists 10. apply Qle_bool_iff in E.
    cbn [Fl.div]. replace (Qeq_bool 903.3 0) with false by reflexivity.
    unfold clamp. cbn [Fl.mul Fl.lt].
    assert (H : Qlt_bool (100 * (100 * l / 903.3)) 10 = true).
    { apply Qlt_bool_iff.
      setoid_replace (100 * (100 * l / 903.3)) with ((100 * l) * (1000 # 9033))
        by (field; discriminate).
      lra. }
    rewrite H. split; [reflexivity|]. split; [lra|reflexivity].
  - apply Qle_bool_false in E.
    cbn [Fl.add Fl.div]. replace (Qeq_bool 116 0) with false by reflexivity.
    unfold cube, clamp. cbn [Fl.mul Fl.lt].
    set (c := (100 * l + 16) / 116).
    destruct (Qlt_bool (100 * (c * c * c)) 10) eqn:E1.
    + exists 10. split; [reflexivity|]. split; [lra|reflexivity].
    + destruct (Qlt_bool 100 (100 * (c * c * c))) eqn:E2.
      * exists 100. split; [reflexivity|]. split; [lra|reflexivity].
      * exists (100 * (c * c * c)).
        apply Qlt_bool_false in E1, E2.
        split; [reflexivity|]. split; [lra|reflexivity].
Qed.

Lemma brightness_target_monotone (s1 s2 : UIState) (l1 l2 : Q) :
  started (scene s1) = true -> started (scene s2) = true ->
  light_sensor (scene s1) = Fin l1 -> light_sensor (scene s2) = Fin l2 ->
  l1 <= l2 ->
  exists b1 b2, brightness_target s1 = Fin b1 /\ brightness_target s2 = Fin b2
                /\ b1 <= b2.
Proof.
  intros Hs1 Hs2 Hl1 Hl2 Hle.
  destruct (brightness_target_onroad s1 l1 Hs1 Hl1) as (b1 & E1 & R1 & V1).
  destruct (brightness_target_onroad s2 l2 Hs2 Hl2) as (b2 & E2 & R2 & V2).
  exists b1, b2. split; [exact E1|]. split; [exact E2|].
  rewrite V1, V2. clear E1 E2 V1 V2.
  destruct (Qle_bool (100 * l1) 8) eqn:A1.
  - (* the lower value is the floor of the range *)
    destruct (Qle_bool (100 * l2) 8); [lra|].
    cbv zeta.
    repeat match goal with
           | |- context [Qlt_bool ?a ?b] =>
               let E := fresh "E" in
               destruct (Qlt_bool a b) eqn:E;
               [apply Qlt_bool_iff in E | apply Qlt_bool_false in E]
           end; lra.
  - apply Qle_bool_false in A1.
    assert (A2 : Qle_bool (100 * l2) 8 = false)
      by (apply Qle_bool_false; lra).
    rewrite A2. cbv zeta.
    set (c1 := (100 * l1 + 16) / 116). set (c2 := (100 * l2 + 16) / 116).
    assert (Hc : 0 <= c1 /\ c1 <= c2).
    { subst c1 c2. unfold Qdiv. change (/ 116) with (1 # 116). lra. }
    pose proof (cube_monotone c1 c2 (proj1 Hc) (proj2 Hc)) as Hcube.
    repeat match goal with
           | |- context [Qlt_bool ?a ?b] =>
               let E := fresh "E" in
               destruct (Qlt_bool a b) eqn:E;
               [apply Qlt_bool_iff in E | apply Qlt_bool_false in E]
           end; lra.
Qed.

Lemma FirstOrderFilter_update_monotone (f : FirstOrderFilter) (x k b1 b2 : Q) :
  x_ f = Fin x -> k_ f = Fin k -> 0 <= k -> b1 <= b2 ->
  exists y1 y2,
    x_ (FirstOrderFilter_update f (Fin b1)) = Fin y1 /\
    x_ (FirstOrderFilter_update f (Fin b2)) = Fin y2 /\ y1 <= y2.
Proof.
  intros Hx Hk Hk0 Hb. unfold FirstOrderFilter_update. cbn [x_].
  rewrite Hx, Hk. fl_unfold. cbn [Fl.add Fl.mul Fl.opp].
  eexists. eexists. split; [reflexivity|]. split; [reflexivity|]. nra.
Qed.

(** ** More on the path geometry *)

Lemma firstn_upd_ge {A : Type} (k i : nat) (x : A) (l : list A) :
  (k <= i)%nat -> firstn k (upd i x l) = firstn k l.
Proof.
  revert k i. induction l as [|y l IH]; intros k i Hk.
  - destruct k, i; reflexivity.
  - destruct i as [|i].
    + assert (k = 0%nat) by lia. subst k. reflexivity.
    + destruct k as [|k]; [reflexivity|].
      simpl. rewrite IH by lia. reflexivity.
Qed.

Lemma firstn_S_upd {A : Type} (k : nat) (x : A) (l : list A) :
  (k < List.length l)%nat -> firstn (S k) (upd k x l) = firstn k l ++ [x].
Proof.
  revert k. induction l as [|y l IH]; intros k Hk; simpl in Hk; [lia|].
  destruct k as [|k]; [reflexivity|].
  change (y :: firstn (S k) (upd k x l) = y :: (firstn k l ++ [x])).
  rewrite IH by lia. reflexivity.
Qed.

Lemma fold_left_map {A B C : Type} (f : A -> C -> A) (g : B -> C)
                    (l : list B) (a : A) :
  fold_left f (map g l) a = fold_left (fun a b => f a (g b)) l a.
Proof.
  revert a. induction l as [|b l IH]; intros a; simpl; [reflexivity|].
  apply IH.
Qed.

Section MoreGeometry.
Context {K : Constants}.

(** The scan of [get_path_length_idx] from index [i] over [n] points, with
    [max_idx] the index reached before. *)
Lemma path_length_scan_spec (line_x : list fl) (h : fl) (n i m : nat) :
  let r := path_length_scan line_x h n i m in
  (r = m /\ (n = 0%nat \/ (at_ i line_x <? h)%fl = false)) \/
  ((i <= r < i + n)%nat /\
   (forall j, (i <= j <= r)%nat -> (at_ j line_x <? h)%fl = true) /\
   ((S r < i + n)%nat -> (at_ (S r) line_x <? h)%fl = false)).
Proof.
  cbv zeta. revert i m. induction n as [|n IH]; intros i m; simpl.
  - left. auto.
  - destruct (at_ i line_x <? h)%fl eqn:E; [|left; auto].
    right. destruct (IH (S i) i) as [(Hr & Hstop)|(Hr & Hall & Hstop)].
    + rewrite Hr. split; [lia|]. split.
      * intros j Hj. assert (j = i) by lia. subst j. exact E.
      * intros Hlt. destruct Hstop as [->|Hstop]; [lia|exact Hstop].
    + split; [lia|]. split.
      * intros j Hj. destruct (Nat.eq_dec j i) as [->|Hne]; [exact E|].
        apply Hall. lia.
      * intros Hlt. apply Hstop. lia.
Qed.

Lemma fold_push_point (s : UIState) (pts : list (fl * fl * fl))
                      (st : list vertex_data * nat) :
  (snd st + List.length pts <= List.length (fst st))%nat ->
  let st' := fold_left (push_point s) pts st in
  firstn (snd st') (fst st')
  = firstn (snd st) (fst st) ++ visible_projections s pts /\
  snd st' = (snd st + List.length (visible_projections s pts))%nat /\
  List.length (fst st') = List.length (fst st).
Proof.
  cbv zeta. revert st.
  induction pts as [|[[x y] z] pts IH]; intros [buf k] Hcap;
    cbn [fst snd] in *.
  - simpl. rewrite app_nil_r. repeat split. lia.
  - cbn [fold_left List.length] in *.
    unfold visible_projections. cbn [flat_map].
    fold (visible_projections s pts).
    change (push_point s (buf, k) (x, y, z))
      with (push_vertex s x y z (buf, k)).
    unfold push_vertex. cbn [fst snd].
    destruct (calib_frame_to_full_frame s x y z) as [out visible].
    destruct visible.
    + destruct (IH (upd k out buf, S k)) as (H1 & H2 & H3).
      { cbn [fst snd]. rewrite upd_length. lia. }
      cbn [fst snd] in H1, H2, H3.
      rewrite H1, H2, H3, upd_length.
      rewrite firstn_S_upd by lia.
      rewrite <- app_assoc. cbn [app List.length].
      repeat split. lia.
    + destruct (IH (upd k out buf, k)) as (H1 & H2 & H3).
      { cbn [fst snd]. rewrite upd_length. lia. }
      cbn [fst snd] in H1, H2, H3.
      rewrite H1, H2, H3, upd_length.
      rewrite firstn_upd_ge by lia.
      repeat split.
Qed.

Lemma update_line_data_as_fold (s : UIState) (line : XYZTData)
                               (y_off z_off : fl) (pvd : line_vertices_data)
                               (max_idx : nat) :
  update_line_data s line y_off z_off pvd max_idx
  = (let st := fold_left (push_point s)
                 (ribbon_points line y_off z_off max_idx) (v pvd, 0%nat) in
     mklines (fst st) (snd st)).
Proof.
  unfold update_line_data, ribbon_points. cbv zeta.
  rewrite fold_left_app, !fold_left_map. reflexivity.
Qed.

End MoreGeometry.

(** ** More on the blocks of [update_state] *)

Section MoreState.
Context {K : Constants}.

Lemma only_geometry_shell (s s' : UIState) :
  only_geometry s s' ->
  shell_view s' = shell_view s /\
  ignition (scene s') = ignition (scene s) /\
  started (scene s') = started (scene s) /\
  world_objects_visible (scene s') = world_objects_visible (scene s) /\
  view_from_calib (scene s') = view_from_calib (scene s) /\
  light_sensor (scene s') = light_sensor (scene s) /\
  accel_sensor (scene s') = accel_sensor (scene s) /\
  gyro_sensor (scene s') = gyro_sensor (scene s).
Proof. intros (p & e & t & l & r & d & ->). repeat split. Qed.

Lemma only_grade_misc (sc sc' : UIScene) :
  only_grade sc sc' ->
  ignition sc' = ignition sc /\ started sc' = started sc /\
  session_view sc' = session_view sc /\ fade_view sc' = fade_view sc.
Proof.
  intros (cd & lt & pg & al & po & gr & it & ro & ->). repeat split.
Qed.

Lemma update_state_carState_shell (sm : SubMaster) (t : fl) (s : UIState) :
  shell_view (update_state_carState sm t s) = shell_view s /\
  ignition (scene (update_state_carState sm t s)) = ignition (scene s).
Proof.
  unfold update_state_carState.
  destruct (updated sm "carState"); [|split; reflexivity].
  cbv zeta. split; [reflexivity|]. cbn [scene set_scene].
  destruct (only_grade_misc _ _
              (update_percent_grade_only_grade t
                 (update_one_pedal_fade s t
                    (update_brake_indicator t
                       (set_car_state (getCarState sm) (scene s))))))
    as (Hi & _).
  rewrite Hi. unfold update_one_pedal_fade, update_brake_indicator. cbv zeta.
  repeat match goal with
         | |- context [if ?c then _ else _] => destruct c
         end; reflexivity.
Qed.

Lemma update_state_sensorEvents_ignition (sm : SubMaster) (s : UIState) :
  shell_view (update_state_sensorEvents sm s) = shell_view s /\
  ignition (scene (update_state_sensorEvents sm s)) = ignition (scene s).
Proof.
  unfold update_state_sensorEvents.
  destruct (updated sm "sensorEvents"); [|split; reflexivity].
  split; [reflexivity|]. cbn [scene set_scene].
  apply (fold_left_preserves (fun sc => ignition sc = ignition (scene s)));
    [reflexivity|].
  intros sc [accel|gyro|] H; [| |exact H].
  - destruct (negb (started sc)); [|exact H]. destruct accel; exact H.
  - destruct (negb (started sc)); [|exact H]. destruct gyro; exact H.
Qed.

(** The state after the blocks of [update_state] that precede the
    [pandaState] block keeps the shell and the ignition flag. *)
Lemma before_pandaState (s : UIState) (sm : SubMaster) (params : Params)
                        (t : fl) :
  let s4 := update_state_liveCalibration sm
              (update_state_modelV2 sm
                 (update_state_carState sm t
                    (update_state_controlsState sm
                       (update_state_params params t s)))) in
  shell_view s4 = shell_view s /\ ignition (scene s4) = ignition (scene s).
Proof.
  cbv zeta.
  assert (H1 : shell_view (update_state_params params t s) = shell_view s /\
               ignition (scene (update_state_params params t s))
               = ignition (scene s)).
  { unfold update_state_params. cbv zeta.
    match goal with |- context [if ?c then _ else _] => destruct c end;
      split; reflexivity. }
  revert H1. generalize (update_state_params params t s). intros s1 (A1 & B1).
  assert (H2 : shell_view (update_state_controlsState sm s1) = shell_view s1 /\
               ignition (scene (update_state_controlsState sm s1))
               = ignition (scene s1)).
  { unfold update_state_controlsState.
    destruct (started (scene s1) && updated sm "controlsState");
      split; reflexivity. }
  revert H2. generalize (update_state_controlsState sm s1).
  intros s2 (A2 & B2).
  destruct (update_state_carState_shell sm t s2) as (A3 & B3).
  revert A3 B3. generalize (update_state_carState sm t s2). intros s3 A3 B3.
  destruct (only_geometry_shell _ _ (update_state_modelV2_only_geometry sm s3))
    as (A4 & B4 & _).
  revert A4 B4. generalize (update_state_modelV2 sm s3). intros s4 A4 B4.
  assert (H5 : shell_view (update_state_liveCalibration sm s4) = shell_view s4 /\
               ignition (scene (update_state_liveCalibration sm s4))
               = ignition (scene s4)).
  { unfold update_state_liveCalibration.
    destruct (updated sm "liveCalibration"); split; reflexivity. }
  destruct H5 as (A5 & B5). split; congruence.
Qed.

Lemma after_pandaState (s : UIState) (sm : SubMaster) (t : fl) :
  let s' := set_scene
              (set_lastTime t
                 (scene (update_state_ubloxGnss sm
                           (update_state_started sm
                              (update_state_roadCameraState sm
                                 (update_state_sensorEvents sm s))))))
              (update_state_ubloxGnss sm
                 (update_state_started sm
                    (update_state_roadCameraState sm
                       (update_state_sensorEvents sm s)))) in
  shell_view s' = shell_view s /\
  ignition (scene s') = ignition (scene s) /\
  started (scene s') = getDeviceStarted sm && ignition (scene s).
Proof.
  cbv zeta.
  destruct (update_state_sensorEvents_ignition sm s) as (A1 & B1).
  revert A1 B1. generalize (update_state_sensorEvents sm s). intros s1 A1 B1.
  unfold update_state_ubloxGnss, update_state_started,
    update_state_roadCameraState.
  destruct (updated sm "roadCameraState"), (updated sm "ubloxGnss");
    cbn [scene set_scene]; rewrite <- A1, <- B1; repeat split.
Qed.

End MoreState.

(** *** Warm-up of the percent grade *)

Lemma initial_mean_percent_grade_rolled (sc : UIScene) :
  percentGradeIterRolled (initial_mean_percent_grade sc)
  = percentGradeIterRolled sc.
Proof.
  unfold initial_mean_percent_grade.
  match goal with
  | |- context [fold_left ?f ?l ?a] => destruct (fold_left f l a) as [g u]
  end.
  reflexivity.
Qed.

Lemma advance_grade_iter_warming (sc : UIScene) :
  grade_warming sc -> grade_warming (advance_grade_iter sc).
Proof.
  unfold grade_warming, advance_grade_iter. cbv zeta. intros H.
  cbn [percentGradeNumSamples percentGradeRollingIter percentGradeIterRolled
       set_percentGradeRollingIter].
  destruct (percentGradeNumSamples sc <=? S (percentGradeRollingIter sc))%nat;
    [|exact H].
  destruct (percentGradeIterRolled sc) eqn:Er; cbn [negb].
  - cbn [percentGradeIterRolled set_percentGradeRollingIter].
    rewrite Er. intros; discriminate.
  - cbn [percentGradeIterRolled set_percentGradeRollingIter].
    rewrite initial_mean_percent_grade_rolled.
    cbn [percentGradeIterRolled set_percentGradeIterRolled].
    intros; discriminate.
Qed.

Lemma update_rolling_average_warming (sc : UIScene) :
  grade_warming sc -> grade_warming (update_rolling_average sc).
Proof.
  unfold grade_warming, update_rolling_average. cbv zeta. intros H.
  destruct (percentGradeIterRolled sc) eqn:Er; [|rewrite Er; exact H].
  match goal with |- context [if ?c then _ else _] => destruct c end.
  - cbn [percentGradeIterRolled set_percentGrades set_percentGrade].
    rewrite Er. intros; discriminate.
  - rewrite Er. intros; discriminate.
Qed.

Lemma record_grade_sample_warming (sc : UIScene) :
  grade_warming sc -> grade_warming (record_grade_sample sc).
Proof.
  intros H. unfold record_grade_sample. cbv zeta.
  apply advance_grade_iter_warming in H.
  revert H. generalize (advance_grade_iter sc). intros sc1 H.
  assert (H2 : grade_warming
                 (store_grade_sample
                    (at_ (percentGradeRollingIter sc) (percentGradePositions sc))
                    sc1)) by exact H.
  apply update_rolling_average_warming in H2.
  exact H2.
Qed.

Lemma update_percent_grade_warming (t : fl) (sc : UIScene) :
  grade_warming sc -> grade_warming (update_percent_grade t sc).
Proof.
  intros H. unfold update_percent_grade. cbv zeta.
  assert (HL : forall x sc, grade_warming sc ->
                            grade_warming (set_percentGradeLastTime x sc))
    by (intros x sc0 H0; exact H0).
  assert (HC : forall x sc, grade_warming sc ->
                            grade_warming (set_percentGradeCurDist x sc))
    by (intros x sc0 H0; exact H0).
  apply HL.
  destruct (getVEgo (car_state sc) >? Fin 0)%fl; [|exact H].
  match goal with |- grade_warming (if ?c then _ else _) => destruct c end.
  - apply record_grade_sample_warming, HC, H.
  - apply HC, H.
Qed.

Lemma grade_warming_view (sc sc' : UIScene) :
  grade_view sc' = grade_view sc -> grade_warming sc -> grade_warming sc'.
Proof.
  unfold grade_view, grade_warming. intros E H.
  destruct sc, sc'. cbn in *.
  injection E as -> -> -> -> -> -> -> -> -> -> ->. exact H.
Qed.

Section WarmRuns.
Context {K : Constants}.

Lemma update_state_carState_warming (sm : SubMaster) (t : fl) (s : UIState) :
  grade_warming (scene s) ->
  grade_warming (scene (update_state_carState sm t s)).
Proof.
  intros H. unfold update_state_carState.
  destruct (updated sm "carState"); [|exact H].
  cbv zeta. cbn [scene set_scene].
  apply update_percent_grade_warming.
  refine (grade_warming_view _ _ _ H).
  unfold update_one_pedal_fade, update_brake_indicator.
  repeat match goal with
         | |- context [if ?c then _ else _] => destruct c
         end; reflexivity.
Qed.

Lemma update_state_warming (s : UIState) (sm : SubMaster) (params : Params)
                           (t : fl) :
  grade_warming (scene s) ->
  grade_warming (scene (update_state s sm params t)).
Proof.
  intros H. unfold update_state. cbv zeta.
  assert (Hu : forall s0, grade_warming (scene s0) ->
                          grade_warming (scene (update_state_ubloxGnss sm s0))).
  { intros s0 H0. unfold update_state_ubloxGnss.
    destruct (updated sm "ubloxGnss"); exact H0. }
  refine (grade_warming_view _ (scene (update_state_ubloxGnss _ _)) eq_refl _).
  apply Hu.
  refine (grade_warming_view _ (scene (update_state_roadCameraState _ _))
            eq_refl _).
  refine (grade_warming_view _ _ (update_state_roadCameraState_grade_view _ _) _).
  refine (grade_warming_view _ _ (update_state_sensorEvents_grade_view _ _) _).
  refine (grade_warming_view _ _ (update_state_pandaState_grade_view _ _) _).
  refine (grade_warming_view _ _ (update_state_liveCalibration_grade_view _ _) _).
  refine (grade_warming_view _ _
            (only_geometry_grade_view _ _
               (update_state_modelV2_only_geometry _ _)) _).
  apply update_state_carState_warming.
  refine (grade_warming_view _ _ (update_state_controlsState_grade_view _ _) _).
  refine (grade_warming_view _ _ (update_state_params_grade_view _ _ _) _).
  exact H.
Qed.

End WarmRuns.

(** ** More on the device *)

Section MoreDevice.
Context {K : Constants}.

Lemma updateWakefulness_eq (d : Device) (s : UIState) :
  let d' := fst (updateWakefulness d s) in
  awake_timeout d'
  = (if should_wake d s then (30 * UI_FREQ)%Z
     else Z.max (awake_timeout d - 1) 0) /\
  awake d' = negb (Z.max (awake_timeout d - 1) 0 =? 0)%Z /\
  accel_samples d' = accel_samples d.
Proof.
  cbv zeta. unfold updateWakefulness, should_wake, tap_detected, setAwake.
  cbv zeta.
  destruct (started (scene s) || ignition (scene s)); cbn [negb orb].
  - cbn [awake awake_timeout accel_prev gyro_prev accel_samples].
    destruct (Bool.eqb (negb (Z.max (awake_timeout d - 1) 0 =? 0)%Z) (awake d))
      eqn:Ee; cbn [negb fst awake awake_timeout accel_samples].
    + apply eqb_prop in Ee. repeat split. symmetry. exact Ee.
    + repeat split.
  - cbn [awake awake_timeout accel_prev gyro_prev accel_samples].
    destruct (Bool.eqb (negb (Z.max (awake_timeout d - 1) 0 =? 0)%Z) (awake d))
      eqn:Ee; cbn [negb fst awake awake_timeout accel_samples];
      destruct ((abs (accel_sensor (scene s) - accel_prev d) >? Fin 0.2)%fl
                && (abs (gyro_sensor (scene s) - gyro_prev d) >? Fin 0.15)%fl);
      cbn [fst awake awake_timeout accel_samples];
      try apply eqb_prop in Ee; repeat split;
      try (symmetry; exact Ee).
Qed.

End MoreDevice.

Lemma truncQ_range (y : Q) (lo hi : Z) :
  inject_Z lo <= y -> y <= inject_Z hi -> (lo <= truncQ y <= hi)%Z.
Proof.
  intros H1 H2. split.
  - rewrite <- (truncQ_inject_Z lo). apply truncQ_monotone, H1.
  - rewrite <- (truncQ_inject_Z hi). apply truncQ_monotone, H2.
Qed.

Lemma brightness_target_range (s : UIState) :
  (started (scene s) = true -> is_finite (light_sensor (scene s)) = true) ->
  within 10 100 (brightness_target s).
Proof.
  intros H. destruct (started (scene s)) eqn:Es.
  - destruct (is_finite_Fin _ (H eq_refl)) as [l Hl].
    destruct (brightness_target_onroad s l Es Hl) as (b & Eb & Hr & _).
    rewrite Eb. exact Hr.
  - unfold brightness_target. rewrite Es. cbn. lra.
Qed.

(** ** More on the scene *)

Lemma finite9 (l : list fl) :
  List.length l = 9%nat -> all_finite l ->
  exists a b c d e f g h i : Q,
    l = [Fin a; Fin b; Fin c; Fin d; Fin e; Fin f; Fin g; Fin h; Fin i].
Proof.
  unfold all_finite.
  destruct l as [|[a| |] [|[b| |] [|[c| |] [|[d| |] [|[e| |] [|[f| |]
                [|[g| |] [|[h| |] [|[i| |] [|]]]]]]]]]];
    simpl; try discriminate.
  intros _ _. eauto 10.
Qed.

Lemma fade_view_one_pedal (sc' sc : UIScene) :
  fade_view sc' = fade_view sc -> one_pedal_fade sc' = one_pedal_fade sc.
Proof. unfold fade_view. intros H. injection H as _ _ H _. exact H. Qed.

Lemma session_view_init (sc' sc : UIScene) :
  session_view sc' = session_view sc ->
  sessionInitTime sc' = sessionInitTime sc.
Proof. unfold session_view. intros H. injection H as H _ _. exact H. Qed.

Lemma session_view_one_pedal (sc' sc : UIScene) :
  session_view sc' = session_view sc ->
  one_pedal_fade sc' = one_pedal_fade sc.
Proof. unfold session_view. intros H. injection H as _ H _. exact H. Qed.

Lemma update_brake_indicator_session (t : fl) (sc : UIScene) :
  session_view (update_brake_indicator t sc) = session_view sc.
Proof.
  unfold update_brake_indicator. cbv zeta.
  repeat match goal with
         | |- context [if ?c then _ else _] => destruct c
         end; reflexivity.
Qed.

Section MoreScene.
Context {K : Constants}.

Lemma update_state_carState_held (sm : SubMaster) (t : fl) (s : UIState) :
  (t - sessionInitTime (scene s) >? Fin 10)%fl = false ->
  one_pedal_fade (scene (update_state_carState sm t s))
  = one_pedal_fade (scene s).
Proof.
  intros Hc. unfold update_state_carState.
  destruct (updated sm "carState"); [|reflexivity].
  cbv zeta. cbn [scene set_scene].
  destruct (only_grade_misc _ _
              (update_percent_grade_only_grade t
                 (update_one_pedal_fade s t
                    (update_brake_indicator t
                       (set_car_state (getCarState sm) (scene s))))))
    as (_ & _ & _ & Hf).
  rewrite (fade_view_one_pedal _ _ Hf).
  pose proof (update_brake_indicator_session t
                (set_car_state (getCarState sm) (scene s))) as Hs.
  pose proof (session_view_init _ _ Hs) as Hs1.
  pose proof (session_view_one_pedal _ _ Hs) as Hs2.
  change (sessionInitTime (set_car_state (getCarState sm) (scene s)))
    with (sessionInitTime (scene s)) in Hs1.
  change (one_pedal_fade (set_car_state (getCarState sm) (scene s)))
    with (one_pedal_fade (scene s)) in Hs2.
  unfold update_one_pedal_fade. cbv zeta.
  rewrite Hs1, Hc.
  cbn [one_pedal_fade set_one_pedal_fade_last_t]. exact Hs2.
Qed.

Lemma update_state_one_pedal_fade (s : UIState) (sm : SubMaster)
                                  (params : Params) (t : fl) :
  one_pedal_fade (scene (update_state s sm params t))
  = one_pedal_fade
      (scene (update_state_carState sm t
                (update_state_controlsState sm
                   (update_state_params params t s)))).
Proof.
  assert (H : fade_view (scene (update_state s sm params t))
              = fade_view
                  (scene (update_state_carState sm t
                            (update_state_controlsState sm
                               (update_state_params params t s))))).
  { unfold update_state. cbv zeta.
    change (fade_view (scene (set_scene (set_lastTime t ?x) ?y)))
      with (fade_view x).
    rewrite update_state_ubloxGnss_fade_view.
    change (fade_view (scene (update_state_started sm ?x)))
      with (fade_view (scene x)).
    rewrite update_state_roadCameraState_fade_view.
    rewrite update_state_sensorEvents_fade_view.
    rewrite update_state_pandaState_fade_view.
    rewrite update_state_liveCalibration_fade_view.
    rewrite (only_geometry_fade_view _ _
               (update_state_modelV2_only_geometry _ _)).
    reflexivity. }
  exact (fade_view_one_pedal _ _ H).
Qed.

Lemma before_carState_session (sm : SubMaster) (params : Params) (t : fl)
                              (s : UIState) :
  session_view (scene (update_state_controlsState sm
                         (update_state_params params t s)))
  = session_view (scene s).
Proof.
  assert (H1 : session_view (scene (update_state_params params t s))
               = session_view (scene s)).
  { unfold update_state_params. cbv zeta.
    match goal with |- context [if ?c then _ else _] => destruct c end;
      reflexivity. }
  rewrite <- H1. generalize (update_state_params params t s). intros s1.
  unfold update_state_controlsState.
  destruct (started (scene s1) && updated sm "controlsState"); reflexivity.
Qed.

End MoreScene.

(** ** The parameter check *)

Lemma params_view_gate (sc' sc : UIScene) :
  params_view sc' = params_view sc ->
  paramsCheckLast sc' = paramsCheckLast sc /\
  paramsCheckFreq sc' = paramsCheckFreq sc.
Proof.
  unfold params_view. intros H. injection H as H1 H2 _ _. split; assumption.
Qed.

Lemma params_view_flags (sc' sc : UIScene) :
  params_view sc' = params_view sc ->
  onePedalModeActive sc' = onePedalModeActive sc /\
  disableDisengageOnGasEnabled sc' = disableDisengageOnGasEnabled sc.
Proof.
  unfold params_view. intros H. injection H as _ _ H1 H2. split; assumption.
Qed.

Lemma only_grade_params_view (sc sc' : UIScene) :
  only_grade sc sc' -> params_view sc' = params_view sc.
Proof.
  intros (cd & lt & pg & al & po & gr & it & ro & ->). reflexivity.
Qed.

Lemma update_brake_indicator_params_view (t : fl) (sc : UIScene) :
  params_view (update_brake_indicator t sc) = params_view sc.
Proof.
  unfold update_brake_indicator. cbv zeta.
  repeat match goal with
         | |- context [if ?c then _ else _] => destruct c
         end; reflexivity.
Qed.

Lemma update_one_pedal_fade_params_view (s : UIState) (t : fl) (sc : UIScene) :
  params_view (update_one_pedal_fade s t sc) = params_view sc.
Proof.
  unfold update_one_pedal_fade. cbv zeta.
  destruct (t - sessionInitTime sc >? Fin 10)%fl; [|reflexivity].
  match goal with
  | |- context [if ?c then _ else _] => destruct c
  end;
    repeat match goal with
           | |- context [if ?c then _ else _] => destruct c
           end; reflexivity.
Qed.

Section ParamsFrames.
Context {K : Constants}.

Lemma only_geometry_params_view (s s' : UIState) :
  only_geometry s s' -> params_view (scene s') = params_view (scene s).
Proof. intros (p & e & t & l & r & d & ->). reflexivity. Qed.

Lemma update_state_controlsState_params_view (sm : SubMaster) (s : UIState) :
  params_view (scene (update_state_controlsState sm s)) = params_view (scene s).
Proof.
  unfold update_state_controlsState.
  destruct (started (scene s) && updated sm "controlsState"); reflexivity.
Qed.

Lemma update_state_carState_params_view (sm : SubMaster) (t : fl)
                                        (s : UIState) :
  params_view (scene (update_state_carState sm t s)) = params_view (scene s).
Proof.
  unfold update_state_carState.
  destruct (updated sm "carState"); [|reflexivity].
  cbv zeta. cbn [scene set_scene].
  rewrite (only_grade_params_view _ _ (update_percent_grade_only_grade _ _)).
  rewrite update_one_pedal_fade_params_view.
  rewrite update_brake_indicator_params_view.
  reflexivity.
Qed.

Lemma update_state_liveCalibration_params_view (sm : SubMaster) (s : UIState) :
  params_view (scene (update_state_liveCalibration sm s))
  = params_view (scene s).
Proof.
  unfold update_state_liveCalibration.
  destruct (updated sm "liveCalibration"); reflexivity.
Qed.

Lemma update_state_pandaState_params_view (sm : SubMaster) (s : UIState) :
  params_view (scene (update_state_pandaState sm s)) = params_view (scene s).
Proof.
  unfold update_state_pandaState.
  destruct (updated sm "pandaState"); reflexivity.
Qed.

Lemma update_state_sensorEvents_params_view (sm : SubMaster) (s : UIState) :
  params_view (scene (update_state_sensorEvents sm s)) = params_view (scene s).
Proof.
  unfold update_state_sensorEvents.
  destruct (updated sm "sensorEvents"); [|reflexivity].
  cbn [scene set_scene].
  apply (fold_left_preserves (fun sc => params_view sc = params_view (scene s)));
    [reflexivity|].
  intros sc [accel|gyro|] H; [| |exact H].
  - destruct (negb (started sc)); [|exact H]. destruct accel; exact H.
  - destruct (negb (started sc)); [|exact H]. destruct gyro; exact H.
Qed.

Lemma update_state_roadCameraState_params_view (sm : SubMaster) (s : UIState) :
  params_view (scene (update_state_roadCameraState sm s))
  = params_view (scene s).
Proof.
  unfold update_state_roadCameraState.
  destruct (updated sm "roadCameraState"); reflexivity.
Qed.

Lemma update_state_ubloxGnss_params_view (sm : SubMaster) (s : UIState) :
  params_view (scene (update_state_ubloxGnss sm s)) = params_view (scene s).
Proof.
  unfold update_state_ubloxGnss.
  destruct (updated sm "ubloxGnss"); reflexivity.
Qed.

Lemma update_state_params_view (s : UIState) (sm : SubMaster)
                               (params : Params) (t : fl) :
  params_view (scene (update_state s sm params t))
  = params_view (scene (update_state_params params t s)).
Proof.
  unfold update_state. cbv zeta.
  change (params_view (scene (set_scene (set_lastTime t ?x) ?y)))
    with (params_view x).
  rewrite update_state_ubloxGnss_params_view.
  change (params_view (scene (update_state_started sm ?x)))
    with (params_view (scene x)).
  rewrite update_state_roadCameraState_params_view.
  rewrite update_state_sensorEvents_params_view.
  rewrite update_state_pandaState_params_view.
  rewrite update_state_liveCalibration_params_view.
  rewrite (only_geometry_params_view _ _
             (update_state_modelV2_only_geometry _ _)).
  rewrite update_state_carState_params_view.
  rewrite update_state_controlsState_params_view.
  reflexivity.
Qed.

Lemma update_state_keeps_gate (s : UIState) (sm : SubMaster)
                              (params : Params) (t : fl) :
  paramsCheckLast (scene (update_state s sm params t))
  = paramsCheckLast (scene s) /\
  paramsCheckFreq (scene (update_state s sm params t))
  = paramsCheckFreq (scene s).
Proof.
  destruct (params_view_gate _ _ (update_state_params_view s sm params t))
    as (H1 & H2).
  rewrite H1, H2. unfold update_state_params. cbv zeta.
  match goal with |- context [if ?c then _ else _] => destruct c end;
    split; reflexivity.
Qed.

Lemma update_state_reads_params (s : UIState) (sm : SubMaster)
                                (params : Params) (t : fl) :
  let gate := (t - paramsCheckLast (scene s) >? paramsCheckFreq (scene s))%fl in
  onePedalModeActive (scene (update_state s sm params t))
  = (if gate then OnePedalMode params else onePedalModeActive (scene s)) /\
  disableDisengageOnGasEnabled (scene (update_state s sm params t))
  = (if gate then DisableDisengageOnGas params
     else disableDisengageOnGasEnabled (scene s)).
Proof.
  cbv zeta.
  destruct (params_view_flags _ _ (update_state_params_view s sm params t))
    as (H1 & H2).
  rewrite H1, H2. unfold update_state_params. cbv zeta.
  match goal with |- context [if ?c then _ else _] => destruct c end;
    split; reflexivity.
Qed.

Lemma run_update_state_keeps_gate (ticks : list Tick) (s : UIState) :
  paramsCheckLast (scene (run_update_state s ticks))
  = paramsCheckLast (scene s) /\
  paramsCheckFreq (scene (run_update_state s ticks))
  = paramsCheckFreq (scene s).
Proof.
  unfold run_update_state.
  apply (fold_left_preserves
           (fun s' => paramsCheckLast (scene s') = paramsCheckLast (scene s) /\
                      paramsCheckFreq (scene s') = paramsCheckFreq (scene s)));
    [split; reflexivity|].
  intros s' k (H1 & H2).
  destruct (update_state_keeps_gate s' (tick_sm k) (tick_params k) (tick_t k))
    as (G1 & G2).
  rewrite G1, G2. split; assumption.
Qed.

End ParamsFrames.

(** ** The device and the hardware *)

Section DeviceCalls.
Context {K : Constants}.


End DeviceCalls.

(** * The claims *)


(** C4 (as stated, refuted): the rebuild does not depend on the calibration.
    In a state that never received a calibration message
    ([world_objects_visible] is false) but has a drawing context, a model
    update rebuilds the buffers: the path buffer changes.  In a calibrated
    state without a drawing context the rebuild is skipped: the buffers stay
    as they are, although [update_model] would change them. *)
Lemma model_rebuild_ignores_calibration :
  (world_objects_visible (scene example_state) = false /\
   vg example_state = true /\
   updated model_sm "modelV2" = true /\
   track_vertices
     (scene (@update_state example_constants example_state model_sm
               example_params (Fin 1)))
   <> track_vertices (scene example_state)) /\
  (world_objects_visible (scene calibrated_state_no_vg) = true /\
   vg calibrated_state_no_vg = false /\
   geometry_view
     (scene (@update_state example_constants calibrated_state_no_vg model_sm
               example_params (Fin 1)))
   = geometry_view (scene calibrated_state_no_vg) /\
   geometry_view
     (scene (@update_model example_constants calibrated_state_no_vg lead_model))
   <> geometry_view (scene calibrated_state_no_vg)).
Proof.
  split; [|split; [|split; [|split]]]; try reflexivity.
  - repeat split; try reflexivity. vm_compute. discriminate.
  - vm_compute. discriminate.
Qed.


(** C7 (as stated, refuted): offroad with the device awake, the brightness
    written is the output of the filter, not the offroad value: with the
    filter at 100 it is 99, not 75. *)
Lemma brightness_offroad_not_pinned :
  started (scene example_state) = false /\
  awake bright_device = true /\
  brightness_target example_state = BACKLIGHT_OFFROAD /\
  brightness_of bright_device example_state = 99%Z /\
  to_int BACKLIGHT_OFFROAD = 75%Z.
Proof.
  vm_compute. repeat split; reflexivity.
Qed.


Section Claims.
Context {K : Constants}.



(** C3: for every sequence of ticks (whatever the car state and the other
    messages are) whose clock readings never decrease, so that every
    elapsed-time delta is non-negative and otherwise arbitrary, the brake
    indicator fade stays within [0, 1] and the one-pedal fade within
    [-1, 1], given that they start within these bounds. *)
Theorem fades_stay_within_bounds (st : UIState * bool) (ticks : list Tick)
                                 (t0 : Q) :
  fade_ok t0 (scene (fst st)) ->
  nondecreasing_from t0 ticks ->
  let sc := scene (fst (run_ui_update st ticks)) in
  within 0 1 (brake_indicator_alpha sc) /\ within (-1) 1 (one_pedal_fade sc).
Proof.
  intros H Hk.
  destruct (run_ui_update_fade st ticks t0 Hk H) as (t & Ha & Hf & _).
  split; assumption.
Qed.

(** C5: for every curve and every truncation index, the buffer that
    [update_line_data] produces has at most 2 * max_idx + 2 vertices, so that
    the assertion [cnt <= size(v)] holds whenever the buffer has room for
    2 * max_idx + 2 vertices. *)
Theorem update_line_data_cnt_bound
          (s : UIState) (line : XYZTData) (y_off z_off : fl)
          (pvd : line_vertices_data) (max_idx : nat) :
  let pvd' := update_line_data s line y_off z_off pvd max_idx in
  (cnt pvd' <= 2 * max_idx + 2)%nat /\
  ((2 * max_idx + 2 <= List.length (v pvd))%nat ->
   update_line_data_assert pvd' = true).
Proof.
  cbv zeta.
  destruct (update_line_data_bound s line y_off z_off pvd max_idx) as (Hl & Hc).
  split; [exact Hc|].
  intros Hcap. unfold update_line_data_assert.
  apply Nat.leb_le. rewrite Hl. lia.
Qed.



(** C4 (amended): on a model update the vertex buffers and lead markers are
    rebuilt exactly when the drawing context exists ([s->vg] is not null),
    whether or not a calibration message was ever received; in every tick in
    which the rebuild is skipped (no model update, or no drawing context) the
    buffers are left unchanged. *)
Theorem model_rebuild_gate (s : UIState) (sm : SubMaster) (params : Params)
                           (t : fl) :
  let s' := update_state s sm params t in
  (updated sm "modelV2" && vg s = false ->
   geometry_view (scene s') = geometry_view (scene s)) /\
  (updated sm "modelV2" && vg s = true ->
   geometry_view (scene s')
   = geometry_view (scene (update_leads (update_model s (getModelV2 sm))
                                        (getModelV2 sm)))) /\
  (forall b : bool,
     geometry_view
       (scene (update_state
                 (set_scene (set_world_objects_visible b (scene s)) s)
                 sm params t))
     = geometry_view (scene s')).
Proof.
  cbv zeta.
  pose proof (update_state_geometry_view s s sm params t
                (same_projection_refl s) eq_refl) as H.
  split; [|split].
  - intros Hc. rewrite H. unfold update_state_modelV2. rewrite Hc. reflexivity.
  - intros Hc. rewrite H. unfold update_state_modelV2. rewrite Hc. reflexivity.
  - intros b. rewrite H.
    apply update_state_geometry_view; [|reflexivity].
    split; reflexivity.
Qed.


(** C7 (amended): with the filter state a finite number and a non-negative
    gain, the brightness of the tick is a non-decreasing function of the
    ambient-light estimate while onroad; it is 0 whenever the device is not
    awake; and while the scene is not started the value fed to the filter is
    pinned to [BACKLIGHT_OFFROAD] whatever the ambient light is, so that the
    brightness written is the filter output moving toward 75 (and is 75 once
    the filter has settled there), not 75 itself. *)
Theorem brightness_response (d : Device) (x k : Q) :
  x_ (brightness_filter d) = Fin x ->
  k_ (brightness_filter d) = Fin k ->
  0 <= k ->
  (forall (s1 s2 : UIState) (l1 l2 : Q),
      started (scene s1) = true -> started (scene s2) = true ->
      light_sensor (scene s1) = Fin l1 -> light_sensor (scene s2) = Fin l2 ->
      l1 <= l2 ->
      (brightness_of d s1 <= brightness_of d s2)%Z) /\
  (forall s : UIState, awake d = false -> brightness_of d s = 0%Z) /\
  (forall s : UIState,
      started (scene s) = false ->
      brightness_target s = BACKLIGHT_OFFROAD /\
      brightness_filter (fst (updateBrightness d s))
      = FirstOrderFilter_update (brightness_filter d) BACKLIGHT_OFFROAD) /\
  (forall s : UIState,
      started (scene s) = false -> awake d = true -> x == 75 ->
      brightness_of d s = 75%Z).
Proof.
  intros Hx Hk Hk0. split; [|split; [|split]].
  - intros s1 s2 l1 l2 Hs1 Hs2 Hl1 Hl2 Hle.
    unfold brightness_of. rewrite !updateBrightness_eq. cbv zeta.
    cbn [fst last_brightness].
    destruct (awake d); cbn [negb]; [|apply Z.le_refl].
    destruct (brightness_target_monotone s1 s2 l1 l2 Hs1 Hs2 Hl1 Hl2 Hle)
      as (b1 & b2 & E1 & E2 & Hb).
    rewrite E1, E2.
    destruct (FirstOrderFilter_update_monotone (brightness_filter d) x k b1 b2
                Hx Hk Hk0 Hb) as (y1 & y2 & F1 & F2 & Hy).
    rewrite F1, F2. cbn [to_int]. apply truncQ_monotone, Hy.
  - intros s Ha. unfold brightness_of. rewrite updateBrightness_eq.
    cbv zeta. cbn [fst last_brightness]. rewrite Ha. reflexivity.
  - intros s Hs.
    assert (Ht : brightness_target s = BACKLIGHT_OFFROAD).
    { unfold brightness_target. rewrite Hs. reflexivity. }
    split; [exact Ht|].
    rewrite updateBrightness_eq. cbv zeta. cbn [fst brightness_filter].
    rewrite Ht. reflexivity.
  - intros s Hs Ha Hx75.
    unfold brightness_of. rewrite updateBrightness_eq. cbv zeta.
    cbn [fst last_brightness]. rewrite Ha. cbn [negb].
    unfold brightness_target. rewrite Hs. cbn [negb].
    unfold FirstOrderFilter_update, BACKLIGHT_OFFROAD. cbn [x_].
    rewrite Hx, Hk. fl_unfold. cbn [Fl.add Fl.mul Fl.opp to_int].
    rewrite (truncQ_eq _ (inject_Z 75)).
    + apply truncQ_inject_Z.
    + rewrite Hx75. change (inject_Z 75) with 75. ring.
Qed.


End Claims.



Lemma fades_stay_within_bounds_witness :
  fade_ok 0 (scene example_state) /\
  nondecreasing_from 0 brake_ticks /\
  let sc := scene (fst (@run_ui_update example_constants (example_state, false)
                                       brake_ticks)) in
  within 0 1 (brake_indicator_alpha sc) /\ within (-1) 1 (one_pedal_fade sc).
Proof.
  assert (H0 : fade_ok 0 (scene example_state)).
  { unfold fade_ok, within; simpl.
    repeat split; try lra; eexists; (split; [reflexivity|lra]). }
  assert (Hk : nondecreasing_from 0 brake_ticks).
  { simpl. repeat (eexists; split; [reflexivity|]; split; [lra|]). exact I. }
  split; [exact H0|]. split; [exact Hk|].
  exact (@fades_stay_within_bounds example_constants (example_state, false)
           brake_ticks 0 H0 Hk).
Defined.

Lemma update_line_data_cnt_bound_witness :
  let pvd' := @update_line_data example_constants calibrated_state straight_line
                (Fin 0.5) (Fin 1.22) (example_lines 66) 4 in
  (2 * 4 + 2 <= List.length (v (example_lines 66)))%nat /\
  (cnt pvd' <= 2 * 4 + 2)%nat /\
  update_line_data_assert pvd' = true.
Proof.
  assert (Hcap : (2 * 4 + 2 <= List.length (v (example_lines 66)))%nat)
    by (simpl; lia).
  split; [exact Hcap|].
  pose proof (@update_line_data_cnt_bound example_constants calibrated_state
                straight_line (Fin 0.5) (Fin 1.22) (example_lines 66) 4) as H.
  cbv zeta in H. destruct H as (Hc & Ha).
  split; [exact Hc|exact (Ha Hcap)].
Defined.



Lemma model_rebuild_gate_witness :
  updated model_sm "modelV2" && vg calibrated_state_no_vg = false /\
  geometry_view
    (scene (@update_state example_constants calibrated_state_no_vg model_sm
              example_params (Fin 1)))
  = geometry_view (scene calibrated_state_no_vg).
Proof.
  split; [reflexivity|].
  exact (proj1 (@model_rebuild_gate example_constants calibrated_state_no_vg
                  model_sm example_params (Fin 1)) eq_refl).
Defined.


Lemma brightness_response_witness :
  x_ (brightness_filter bright_device) = Fin 100 /\
  k_ (brightness_filter bright_device) = Fin (1 # 201) /\
  0 <= 1 # 201 /\
  0.2 <= 0.9 /\
  (brightness_of bright_device (lit_state 0.2)
   <= brightness_of bright_device (lit_state 0.9))%Z.
Proof.
  assert (Hk : 0 <= 1 # 201) by (vm_compute; discriminate).
  assert (Hl : 0.2 <= 0.9) by (vm_compute; discriminate).
  split; [reflexivity|]. split; [reflexivity|]. split; [exact Hk|].
  split; [exact Hl|].
  exact (proj1 (brightness_response bright_device 100 (1 # 201)
                  eq_refl eq_refl Hk)
           (lit_state 0.2) (lit_state 0.9) 0.2 0.9
           eq_refl eq_refl eq_refl eq_refl Hl).
Defined.

(** * Further properties of the code *)

Section Extras.
Context {K : Constants}.

(** X1: [get_path_length_idx] returns an index of the trajectory: at most
    TRAJECTORY_SIZE - 1, whatever the curve and the height are. *)
Theorem get_path_length_idx_in_range (line : XYZTData) (path_height : fl) :
  (get_path_length_idx line path_height <= TRAJECTORY_SIZE - 1)%nat.
Proof.
  unfold get_path_length_idx.
  destruct (path_length_scan_spec (getX line) path_height TRAJECTORY_SIZE 0 0)
    as [(Hr & _)|(Hr & _)]; cbv zeta in *; lia.
Qed.

(** X2: [get_path_length_idx] is a prefix scan.  When the first point is
    below the height, every point up to the returned index is below it and
    the next point of the trajectory, if there is one, is not; when the
    first point is not below the height (or is NaN), the result is 0, the
    same index as when only the first point is below. *)
Theorem get_path_length_idx_prefix (line : XYZTData) (path_height : fl) :
  let r := get_path_length_idx line path_height in
  ((at_ 0 (getX line) <? path_height)%fl = false -> r = 0%nat) /\
  ((at_ 0 (getX line) <? path_height)%fl = true ->
   (1 <= TRAJECTORY_SIZE)%nat ->
   (forall j, (j <= r)%nat -> (at_ j (getX line) <? path_height)%fl = true) /\
   ((S r < TRAJECTORY_SIZE)%nat ->
    (at_ (S r) (getX line) <? path_height)%fl = false)).
Proof.
  cbv zeta. unfold get_path_length_idx.
  destruct (path_length_scan_spec (getX line) path_height TRAJECTORY_SIZE 0 0)
    as [(Hr & Hstop)|(Hr & Hall & Hstop)]; cbv zeta in *.
  - split; [intros _; exact Hr|].
    intros H0 HT. destruct Hstop as [Hn|Hf]; [lia|congruence].
  - split.
    + intros H0. rewrite (Hall 0%nat) in H0 by lia. discriminate.
    + intros _ _. split.
      * intros j Hj. apply Hall. lia.
      * intros Hlt. apply Hstop. lia.
Qed.

(** X3: when the vertex buffer has room for 2 * max_idx + 2 vertices, the
    first [cnt] vertices that [update_line_data] leaves in it are exactly
    the projections of the points that pass the margin test, in the order
    of the two loops (out along the curve offset by - y_off, back offset by
    + y_off); points outside the margin leave no vertex. *)
Theorem update_line_data_visible_ribbon
          (s : UIState) (line : XYZTData) (y_off z_off : fl)
          (pvd : line_vertices_data) (max_idx : nat) :
  (2 * max_idx + 2 <= List.length (v pvd))%nat ->
  let pvd' := update_line_data s line y_off z_off pvd max_idx in
  firstn (cnt pvd') (v pvd')
  = visible_projections s (ribbon_points line y_off z_off max_idx) /\
  cnt pvd'
  = List.length (visible_projections s (ribbon_points line y_off z_off max_idx)).
Proof.
  intros Hcap. cbv zeta. rewrite update_line_data_as_fold. cbv zeta.
  cbn [v cnt].
  destruct (fold_push_point s (ribbon_points line y_off z_off max_idx)
              (v pvd, 0%nat)) as (H1 & H2 & _).
  { cbn [fst snd]. unfold ribbon_points.
    rewrite length_app, !length_map, length_rev, length_seq. lia. }
  cbv zeta in H1, H2. cbn [fst snd firstn app Nat.add] in H1, H2.
  split; assumption.
Qed.


(** X5: after [update_state] the scene is started exactly when the device
    reports that it is started and the ignition is on, where the ignition is
    the one of a panda message of this tick (line or CAN) and otherwise the
    one kept from before; in particular a started scene has the ignition on. *)
Theorem update_state_started_flag (s : UIState) (sm : SubMaster)
                                  (params : Params) (t : fl) :
  let s' := update_state s sm params t in
  ignition (scene s')
  = (if updated sm "pandaState"
     then getIgnitionLine (getPandaState sm) || getIgnitionCan (getPandaState sm)
     else ignition (scene s)) /\
  started (scene s') = getDeviceStarted sm && ignition (scene s') /\
  (started (scene s') = true -> ignition (scene s') = true).
Proof.
  cbv zeta. unfold update_state. cbv zeta.
  destruct (before_pandaState s sm params t) as (_ & Hb). cbv zeta in Hb.
  match goal with
  | |- context [update_state_pandaState sm ?x] =>
      destruct (after_pandaState (update_state_pandaState sm x) sm t)
        as (_ & Hi & Hs);
      cbv zeta in Hi, Hs; rewrite Hi, Hs; clear Hi Hs;
      assert (Hp : ignition (scene (update_state_pandaState sm x))
                   = (if updated sm "pandaState"
                      then getIgnitionLine (getPandaState sm)
                           || getIgnitionCan (getPandaState sm)
                      else ignition (scene s)))
  end.
  { unfold update_state_pandaState.
    destruct (updated sm "pandaState"); [reflexivity|exact Hb]. }
  rewrite Hp. split; [reflexivity|]. split; [reflexivity|].
  intros H. apply andb_true_iff in H. tauto.
Qed.

(** X6: [update_state] writes only into the scene: the status, the drawing
    context, the camera selection, the frame size and the display transform
    are left as they are. *)
Theorem update_state_keeps_shell (s : UIState) (sm : SubMaster)
                                 (params : Params) (t : fl) :
  shell_view (update_state s sm params t) = shell_view s.
Proof.
  unfold update_state. cbv zeta.
  destruct (before_pandaState s sm params t) as (Hb & _). cbv zeta in Hb.
  match goal with
  | |- context [update_state_pandaState sm ?x] =>
      destruct (after_pandaState (update_state_pandaState sm x) sm t)
        as (Ha & _);
      cbv zeta in Ha; rewrite Ha; clear Ha;
      assert (Hp : shell_view (update_state_pandaState sm x) = shell_view x)
  end.
  { unfold update_state_pandaState.
    destruct (updated sm "pandaState"); reflexivity. }
  rewrite Hp. exact Hb.
Qed.

(** X7: a camera message with a finite gain leaves an ambient-light estimate
    within [0, 1]. *)
Theorem light_sensor_in_unit_interval (sm : SubMaster) (s : UIState) :
  updated sm "roadCameraState" = true ->
  is_finite (getGain (getRoadCameraState sm)) = true ->
  within 0 1 (light_sensor (scene (update_state_roadCameraState sm s))).
Proof.
  intros Hu Hg. unfold update_state_roadCameraState. rewrite Hu. cbv zeta.
  cbn [scene set_scene light_sensor set_light_sensor].
  apply is_finite_Fin in Hg. destruct Hg as [g ->].
  unfold clamp, of_Z.
  destruct Hardware_EON; fl_unfold; cbn [Fl.add Fl.mul Fl.opp Fl.div Fl.lt].
  - replace (Qeq_bool 6 0) with false by reflexivity.
    cbn [Fl.add Fl.mul Fl.opp Fl.div Fl.lt].
    replace (Qeq_bool (5408 * 1 / 6) 0) with false by reflexivity.
    cbn [Fl.add Fl.mul Fl.opp Fl.div Fl.lt].
    repeat case_Qlt; cbn [within]; lra.
  - replace (Qeq_bool 6 0) with false by reflexivity.
    cbn [Fl.add Fl.mul Fl.opp Fl.div Fl.lt].
    replace (Qeq_bool (1904 * 10 / 6) 0) with false by reflexivity.
    cbn [Fl.add Fl.mul Fl.opp Fl.div Fl.lt].
    repeat case_Qlt; cbn [within]; lra.
Qed.

(** X8: the brake indicator completes its fade within the fade duration:
    with the fade within [0, 1] and at least 0.3 s since the last car state,
    it is 1 after a car state with the friction brakes applied and 0 after
    one with the brakes released. *)
Theorem brake_indicator_completes (t b : Q) (sc : UIScene) :
  within 0 1 (brake_indicator_alpha sc) ->
  brake_indicator_last_t sc = Fin b ->
  b + 0.3 <= t ->
  let alpha' := brake_indicator_alpha (update_brake_indicator (Fin t) sc) in
  ((0 <? getFrictionBrakePercent (car_state sc))%Z = true ->
   (alpha' == Fin 1)%fl) /\
  ((0 <? getFrictionBrakePercent (car_state sc))%Z = false ->
   (alpha' == Fin 0)%fl).
Proof.
  intros Ha Eb Ht. cbv zeta.
  apply within_Fin in Ha. destruct Ha as (a & Ea & Ha0 & Ha1).
  destruct fade_time_step_pos as (k & Ek & Hk).
  assert (Hk1 : 1 <= k * (t + - b)).
  { assert (Ek' : k == 10 # 3).
    { unfold fade_time_step, fade_duration in Ek. cbn in Ek.
      injection Ek as <-. reflexivity. }
    rewrite Ek'. lra. }
  unfold update_brake_indicator. cbv zeta.
  cbn [brake_percent set_brake_percent brake_indicator_alpha
       set_brake_indicator_alpha brake_indicator_last_t
       set_brake_indicator_last_t].
  rewrite Ek, Ea, Eb. fl_unfold. cbn [Fl.add Fl.mul Fl.opp Fl.lt].
  split; intros Hbr; rewrite Hbr.
  - case_Qlt; cbn [brake_indicator_alpha set_brake_indicator_alpha
                   set_brake_indicator_last_t set_brake_percent eqv].
    + reflexivity.
    + rewrite ?Ea. cbn [eqv]. lra.
  - case_Qlt; cbn [brake_indicator_alpha set_brake_indicator_alpha
                   set_brake_indicator_last_t set_brake_percent Fl.lt].
    + case_Qlt; cbn [brake_indicator_alpha set_brake_indicator_alpha
                     set_brake_indicator_last_t set_brake_percent eqv].
      * reflexivity.
      * lra.
    + rewrite ?Ea. cbn [eqv]. lra.
Qed.

(** X9: from the reset state, whatever the ticks are, no mean is published
    during warm-up: as long as the buffer has not rolled over, the percent
    grade is 0 and the stored ratios are all 0. *)
Theorem no_grade_during_warm_up (s : UIState) (ticks : list Tick) :
  grade_is_reset (scene s) ->
  let sc := scene (run_update_state s ticks) in
  percentGradeIterRolled sc = false ->
  percentGrade sc = Fin 0 /\ percentGrades sc = repeat (Fin 0) 5.
Proof.
  intros (_ & Hp & _ & _ & Hg & _ & _).
  assert (H : grade_warming (scene s)) by (intros _; split; assumption).
  clear Hp Hg. cbv zeta. unfold run_update_state.
  revert s H. induction ticks as [|k ticks IH]; intros s H; simpl.
  - exact H.
  - apply IH, update_state_warming, H.
Qed.

(** X10: while the scene is started, sensor events are ignored: the
    accelerometer and gyroscope values used for tap detection keep the
    values they had. *)
Theorem sensors_frozen_onroad (sm : SubMaster) (s : UIState) :
  started (scene s) = true ->
  update_state_sensorEvents sm s = s.
Proof.
  intros Hs. unfold update_state_sensorEvents.
  destruct (updated sm "sensorEvents"); [|reflexivity].
  assert (H : fold_left
                (fun sc sensor =>
                   match sensor with
                   | ACCELERATION accel =>
                       if negb (started sc) then
                         match accel with
                         | [] => sc
                         | _ => set_accel_sensor (at_ 2 accel) sc
                         end
                       else sc
                   | GYRO_UNCALIBRATED gyro =>
                       if negb (started sc) then
                         match gyro with
                         | [] => sc
                         | _ => set_gyro_sensor (at_ 1 gyro) sc
                         end
                       else sc
                   | OTHER_SENSOR => sc
                   end)
                (getSensorEvents sm) (scene s) = scene s).
  { apply (fold_left_preserves (fun sc => sc = scene s)); [reflexivity|].
    intros sc ev ->. rewrite Hs. destruct ev; reflexivity. }
  rewrite H. destruct s. reflexivity.
Qed.

(** X11: without a wake event the countdown runs out: after n ticks none of
    which wakes the device, the countdown is max(T - n, 0), and (for n > 0)
    the display is awake exactly when n < T: it goes to sleep T ticks after
    the last wake event. *)
Theorem countdown_without_wake (d : Device) (states : list UIState) :
  quiet_ticks d states ->
  (0 <= awake_timeout d)%Z ->
  let n := Z.of_nat (List.length states) in
  let d' := run_updateWakefulness d states in
  awake_timeout d' = Z.max (awake_timeout d - n) 0 /\
  (states <> [] -> awake d' = (0 <? awake_timeout d - n)%Z).
Proof.
  cbv zeta. revert d.
  induction states as [|s states IH]; intros d Hq HT.
  - simpl. split; [lia|congruence].
  - destruct Hq as (Hw & Hq).
    destruct (updateWakefulness_eq d s) as (Ht & Ha & _). cbv zeta in Ht, Ha.
    rewrite Hw in Ht.
    cbn [run_updateWakefulness List.length].
    destruct (IH (fst (updateWakefulness d s)) Hq) as (IH1 & IH2);
      [rewrite Ht; lia|].
    rewrite IH1, Ht. split; [lia|].
    intros _. destruct states as [|s2 states].
    + cbn [run_updateWakefulness List.length]. rewrite Ha.
      destruct (Z.eqb_spec (Z.max (awake_timeout d - 1) 0) 0);
        destruct (Z.ltb_spec 0 (awake_timeout d - Z.of_nat 1));
        try reflexivity; lia.
    + rewrite IH2 by discriminate. rewrite Ht.
      destruct (Z.ltb_spec 0 (Z.max (awake_timeout d - 1) 0
                              - Z.of_nat (List.length (s2 :: states))));
        destruct (Z.ltb_spec 0 (awake_timeout d
                                - Z.of_nat (S (List.length (s2 :: states)))));
        try reflexivity; lia.
Qed.

(** X12: a wake event turns the display on one tick later.  In the tick
    that wakes the device, the display state is still decided by the old
    countdown (an expired countdown leaves it off); with UI_FREQ >= 1 the
    display is on after the following tick, whatever that tick brings. *)
Theorem wake_takes_effect_next_tick (d : Device) (s1 s2 : UIState) :
  (1 <= UI_FREQ)%Z ->
  should_wake d s1 = true ->
  let d1 := fst (updateWakefulness d s1) in
  let d2 := fst (updateWakefulness d1 s2) in
  awake d2 = true /\
  ((awake_timeout d <= 1)%Z -> awake d1 = false).
Proof.
  intros HF Hw. cbv zeta.
  destruct (updateWakefulness_eq d s1) as (Ht1 & Ha1 & _).
  destruct (updateWakefulness_eq (fst (updateWakefulness d s1)) s2)
    as (_ & Ha2 & _).
  cbv zeta in *. rewrite Hw in Ht1. split.
  - rewrite Ha2, Ht1.
    destruct (Z.eqb_spec (Z.max (30 * UI_FREQ - 1) 0) 0); [lia|reflexivity].
  - intros HT. rewrite Ha1.
    destruct (Z.eqb_spec (Z.max (awake_timeout d - 1) 0) 0); [reflexivity|lia].
Qed.

(** X13: the countdown stays within [0, 30 * UI_FREQ]: with a non-negative
    UI_FREQ and a countdown that is at most 30 * UI_FREQ, it is within this
    range after every tick. *)
Theorem countdown_in_range (d : Device) (states : list UIState) :
  (0 <= UI_FREQ)%Z ->
  (awake_timeout d <= 30 * UI_FREQ)%Z ->
  states <> [] ->
  (0 <= awake_timeout (run_updateWakefulness d states) <= 30 * UI_FREQ)%Z.
Proof.
  intros HF. revert d.
  induction states as [|s states IH]; intros d HT Hne; [congruence|].
  cbn [run_updateWakefulness].
  destruct (updateWakefulness_eq d s) as (Ht & _). cbv zeta in Ht.
  assert (H1 : (0 <= awake_timeout (fst (updateWakefulness d s))
                <= 30 * UI_FREQ)%Z).
  { rewrite Ht. destruct (should_wake d s); lia. }
  destruct states as [|s2 states]; [exact H1|].
  apply IH; [lia|discriminate].
Qed.

(** X15: the status after [update_status].  In the tick that enters onroad
    it is DISENGAGED, whatever the alert status of the control state is;
    otherwise, onroad and with a new control state, it is WARNING for a user
    prompt, ALERT for a critical alert, and else ENGAGED or DISENGAGED as
    the controls are enabled or not; in every other tick it is unchanged. *)
Theorem update_status_status (s : UIState) (started_prev : bool)
                             (sm : SubMaster) (params : Params) (now : fl) :
  status (fst (update_status s started_prev sm params now))
  = if started (scene s) && negb started_prev then STATUS_DISENGAGED
    else if started (scene s) && updated sm "controlsState" then
           match getAlertStatus (getControlsState sm) with
           | USER_PROMPT => STATUS_WARNING
           | CRITICAL => STATUS_ALERT
           | NORMAL => if getEnabled (getControlsState sm)
                       then STATUS_ENGAGED else STATUS_DISENGAGED
           end
         else status s.
Proof.
  unfold update_status. cbv zeta. cbn [fst].
  assert (Hs : forall x, started (scene (set_status x s)) = started (scene s))
    by reflexivity.
  destruct (started (scene s)) eqn:Es; cbn [andb].
  - destruct (updated sm "controlsState");
      [destruct (getAlertStatus (getControlsState sm))|];
      rewrite ?Hs, ?Es; destruct started_prev; cbn [Bool.eqb negb];
      try reflexivity;
      match goal with |- context [if ?c then _ else _] => destruct c end;
      reflexivity.
  - rewrite Es. destruct started_prev; reflexivity.
Qed.

(** X16: a calibration message makes the world objects visible and, when
    the rotation that [euler2rot] returns holds nine finite numbers,
    installs that rotation with its rows permuted: rows 1, 2 and 0 of the
    device rotation become rows 0, 1 and 2 of the view rotation. *)
Theorem calibration_permutes_rows (sm : SubMaster) (s : UIState) :
  updated sm "liveCalibration" = true ->
  let R := mat3_v (euler2rot (at_ 0 (getRpyCalib sm)) (at_ 1 (getRpyCalib sm))
                             (at_ 2 (getRpyCalib sm))) in
  List.length R = 9%nat -> all_finite R ->
  let s' := update_state_liveCalibration sm s in
  world_objects_visible (scene s') = true /\
  Forall2 eqv (mat3_v (view_from_calib (scene s')))
          [at_ 3 R; at_ 4 R; at_ 5 R;
           at_ 6 R; at_ 7 R; at_ 8 R;
           at_ 0 R; at_ 1 R; at_ 2 R].
Proof.
  intros Hu. cbv zeta. intros Hl Hf.
  unfold update_state_liveCalibration. rewrite Hu. cbv zeta.
  cbn [scene set_scene world_objects_visible view_from_calib
       set_view_from_calib set_world_objects_visible].
  split; [reflexivity|].
  destruct (finite9 _ Hl Hf) as (a & b & c & d & e & f & g & h & i & ER).
  unfold matmul3, view_from_device. cbn [mat3_v]. rewrite ER.
  fl_unfold. cbn [nth Nat.add Nat.mul Fl.add Fl.mul].
  repeat constructor; cbn [eqv]; ring.
Qed.

(** X17: the engine speed shown is the measured one rounded to the nearest
    hundred: for a speed r from 0 to 2147483597 it is a multiple of 100
    within the range of a 32-bit [int] that differs from r by at most 50
    (r - 50 < shown <= r + 50). *)
Theorem engineRPM_rounds_to_hundreds (r : Q) :
  0 <= r -> r <= 2147483597 ->
  exists z : Z,
    engineRPM_of (Fin r) = (z * 100)%Z /\
    (0 <= z * 100 <= 2147483647)%Z /\
    r - 50 < inject_Z (z * 100) /\ inject_Z (z * 100) <= r + 50.
Proof.
  intros Hr Hm. unfold engineRPM_of.
  cbn [Fl.div]. replace (Qeq_bool 100 0) with false by reflexivity.
  cbn [Fl.add to_int]. unfold truncQ.
  assert (Hx : Qle_bool 0 (r / 100 + 0.5) = true).
  { apply Qle_bool_iff. unfold Qdiv. change (/ 100) with (1 # 100). lra. }
  rewrite Hx.
  exists (Qfloor (r / 100 + 0.5)). split; [reflexivity|].
  pose proof (Qfloor_le (r / 100 + 0.5)) as H1.
  pose proof (Qlt_floor (r / 100 + 0.5)) as H2.
  rewrite inject_Z_plus in H2.
  change (inject_Z 1) with 1 in H2.
  unfold Qdiv in *. change (/ 100) with (1 # 100) in *.
  assert (Hb : r - 50 < inject_Z (Qfloor (r * (1 # 100) + 0.5) * 100) /\
               inject_Z (Qfloor (r * (1 # 100) + 0.5) * 100) <= r + 50).
  { rewrite inject_Z_mult. change (inject_Z 100) with 100. split; lra. }
  split; [|exact Hb].
  destruct Hb as (Hb1 & Hb2). split.
  - apply Z.mul_nonneg_nonneg; [|lia].
    change 0%Z with (Qfloor 0). apply Qfloor_resp_le.
    apply Qle_bool_iff. exact Hx.
  - rewrite Zle_Qle. change (inject_Z 2147483647) with 2147483647. lra.
Qed.


(** X19: the path is never drawn beyond MAX_DRAW_DISTANCE, nor beyond twice
    the distance of a followed lead: with 0 <= MIN_DRAW_DISTANCE <=
    MAX_DRAW_DISTANCE and finite far point and lead position, the path
    buffer is built up to the truncation index of a horizon d that lies
    within [0, MAX_DRAW_DISTANCE] and, behind a lead at a non-negative
    forward position x, is at most 2 * x. *)
Theorem path_horizon_bounded (s : UIState) (model : ModelDataV2)
                             (lo hi far x : Q) :
  MIN_DRAW_DISTANCE = Fin lo -> MAX_DRAW_DISTANCE = Fin hi ->
  0 <= lo -> lo <= hi ->
  at_ (TRAJECTORY_SIZE - 1) (getX (getPosition model)) = Fin far ->
  at_ 0 (leadX (nth 0 (getLeadsV3 model) default_lead)) = Fin x ->
  exists d : Q,
    track_vertices (scene (update_model s model))
    = update_line_data s (getPosition model) (Fin 0.5) (Fin 1.22)
        (track_vertices (scene s))
        (get_path_length_idx (getPosition model) (Fin d)) /\
    0 <= d /\ d <= hi /\
    ((getProb (nth 0 (getLeadsV3 model) default_lead) >? Fin 0.5)%fl = true ->
     0 <= x -> d <= 2 * x).
Proof.
  intros Elo Ehi Hlo Hhi Efar Ex.
  destruct (update_model_track_vertices s model) as (d & Ht & Hd).
  cbv zeta in Hd. rewrite Elo, Ehi, Efar, Ex in Hd.
  set (followed := (getProb (nth 0 (getLeadsV3 model) default_lead)
                    >? Fin 0.5)%fl) in *.
  clearbody followed.
  unfold clamp, fmin in Hd. fl_unfold.
  cbn [Fl.lt Fl.mul Fl.add Fl.opp] in Hd.
  rewrite Ht, Hd. clear Ht Hd d.
  destruct followed;
    repeat match goal with
           | |- context [Qlt_bool ?a ?b] =>
               let E := fresh "E" in
               destruct (Qlt_bool a b) eqn:E;
               [apply Qlt_bool_iff in E | apply Qlt_bool_false in E];
               cbn [Fl.lt Fl.mul Fl.add Fl.opp]
           end;
    eexists; (split; [reflexivity|]);
    (split; [|split]); try lra; try (intros; lra); try discriminate.
Qed.

(** X20: the one-pedal indicator does not move during the first 10 s of a
    session: in a tick whose clock reading is not more than 10 s past the
    session start, [update_state] leaves the one-pedal fade as it is. *)
Theorem one_pedal_fade_held_at_session_start
          (s : UIState) (sm : SubMaster) (params : Params) (t : fl) :
  (t - sessionInitTime (scene s) >? Fin 10)%fl = false ->
  one_pedal_fade (scene (update_state s sm params t))
  = one_pedal_fade (scene s).
Proof.
  intros Hc. rewrite update_state_one_pedal_fade.
  pose proof (before_carState_session sm params t s) as Hs.
  rewrite update_state_carState_held
    by (rewrite (session_view_init _ _ Hs); exact Hc).
  exact (session_view_one_pedal _ _ Hs).
Qed.



(** X23: [update_state] never advances the time of the last parameter
    check.  After any run of ticks [paramsCheckLast] and [paramsCheckFreq]
    are what they were before it, so that a later tick reads the parameters
    exactly when its clock is more than the initial [paramsCheckFreq] past
    the initial [paramsCheckLast], and then the scene holds the flags read
    in that tick. *)
Theorem params_check_time_never_advances
          (s : UIState) (ticks : list Tick) (sm : SubMaster)
          (params : Params) (t : fl) :
  let s1 := run_update_state s ticks in
  let s2 := update_state s1 sm params t in
  let gate := (t - paramsCheckLast (scene s) >? paramsCheckFreq (scene s))%fl in
  paramsCheckLast (scene s2) = paramsCheckLast (scene s) /\
  paramsCheckFreq (scene s2) = paramsCheckFreq (scene s) /\
  onePedalModeActive (scene s2)
  = (if gate then OnePedalMode params else onePedalModeActive (scene s1)) /\
  disableDisengageOnGasEnabled (scene s2)
  = (if gate then DisableDisengageOnGas params
     else disableDisengageOnGasEnabled (scene s1)).
Proof.
  cbv zeta.
  destruct (run_update_state_keeps_gate ticks s) as (H1 & H2).
  destruct (update_state_keeps_gate (run_update_state s ticks) sm params t)
    as (G1 & G2).
  destruct (update_state_reads_params (run_update_state s ticks) sm params t)
    as (R1 & R2).
  cbv zeta in R1, R2. rewrite H1, H2 in R1, R2.
  rewrite G1, G2, H1, H2. repeat split; assumption.
Qed.

End Extras.

(** X14: the brightness stays in range: with the filter value within
    [0, 100], its gain within [0, 1] and, onroad, a finite ambient-light
    estimate, the filter value is within [0, 100] again after
    [updateBrightness] and the brightness of the tick is within 0..100. *)
Theorem brightness_in_range (d : Device) (s : UIState) :
  filter_ok (brightness_filter d) ->
  (started (scene s) = true -> is_finite (light_sensor (scene s)) = true) ->
  filter_ok (brightness_filter (fst (updateBrightness d s))) /\
  (0 <= brightness_of d s <= 100)%Z.
Proof.
  intros (Hx & Hk) Hl.
  apply within_Fin in Hx, Hk.
  destruct Hx as (x & Ex & Hx0 & Hx1), Hk as (k & Ek & Hk0 & Hk1).
  pose proof (brightness_target_range s Hl) as Hb.
  apply within_Fin in Hb. destruct Hb as (b & Eb & Hb0 & Hb1).
  unfold brightness_of. rewrite updateBrightness_eq. cbv zeta.
  cbn [fst brightness_filter last_brightness].
  unfold FirstOrderFilter_update, filter_ok. cbn [x_ k_].
  rewrite Eb, Ex, Ek. fl_unfold. cbn [Fl.add Fl.mul Fl.opp within to_int].
  assert (Hy : 0 <= x + (b + - x) * k /\ x + (b + - x) * k <= 100) by nra.
  split; [split; [exact Hy|split; assumption]|].
  destruct (awake d); cbn [negb]; [|lia].
  apply truncQ_range; [change (inject_Z 0) with 0|change (inject_Z 100) with 100];
    tauto.
Qed.

Lemma update_line_data_visible_ribbon_witness :
  (2 * 4 + 2 <= List.length (v (example_lines 66)))%nat /\
  let pvd' := @update_line_data example_constants calibrated_state straight_line
                (Fin 0.5) (Fin 1.22) (example_lines 66) 4 in
  firstn (cnt pvd') (v pvd')
  = @visible_projections example_constants calibrated_state
      (ribbon_points straight_line (Fin 0.5) (Fin 1.22) 4).
Proof.
  assert (Hcap : (2 * 4 + 2 <= List.length (v (example_lines 66)))%nat)
    by (simpl; lia).
  split; [exact Hcap|].
  exact (proj1 (@update_line_data_visible_ribbon example_constants
                  calibrated_state straight_line (Fin 0.5) (Fin 1.22)
                  (example_lines 66) 4 Hcap)).
Defined.


Lemma light_sensor_in_unit_interval_witness :
  updated sensor_sm "roadCameraState" = true /\
  is_finite (getGain (getRoadCameraState sensor_sm)) = true /\
  within 0 1
    (light_sensor
       (scene (@update_state_roadCameraState example_constants sensor_sm
                 example_state))).
Proof.
  split; [reflexivity|]. split; [reflexivity|].
  exact (@light_sensor_in_unit_interval example_constants sensor_sm
           example_state eq_refl eq_refl).
Defined.

Lemma brake_indicator_completes_witness :
  within 0 1 (brake_indicator_alpha braking_scene) /\
  0 + 0.3 <= 1 /\
  (brake_indicator_alpha (update_brake_indicator (Fin 1) braking_scene)
   == Fin 1)%fl.
Proof.
  assert (Ha : within 0 1 (brake_indicator_alpha braking_scene))
    by (simpl; split; lra).
  assert (Ht : 0 + 0.3 <= 1) by lra.
  split; [exact Ha|]. split; [exact Ht|].
  exact (proj1 (brake_indicator_completes 1 0 braking_scene Ha eq_refl Ht)
           eq_refl).
Defined.

Lemma no_grade_during_warm_up_witness :
  grade_is_reset (scene example_state) /\
  let sc := scene (@run_update_state example_constants example_state
                     [grade_tick 1 2; grade_tick 2 3]) in
  percentGradeIterRolled sc = false /\
  percentGrade sc = Fin 0 /\ percentGrades sc = repeat (Fin 0) 5.
Proof.
  assert (Hr : grade_is_reset (scene example_state))
    by (repeat split; reflexivity).
  assert (Hw : percentGradeIterRolled
                 (scene (@run_update_state example_constants example_state
                           [grade_tick 1 2; grade_tick 2 3])) = false)
    by (vm_compute; reflexivity).
  split; [exact Hr|]. cbv zeta. split; [exact Hw|].
  exact (@no_grade_during_warm_up example_constants example_state
           [grade_tick 1 2; grade_tick 2 3] Hr Hw).
Defined.

Lemma sensors_frozen_onroad_witness :
  started (scene (lit_state 0.5)) = true /\
  update_state_sensorEvents sensor_sm (lit_state 0.5)
  = lit_state 0.5.
Proof.
  split; [reflexivity|].
  exact (sensors_frozen_onroad sensor_sm (lit_state 0.5) eq_refl).
Defined.

Lemma countdown_without_wake_witness :
  @quiet_ticks example_constants resting_device
     [example_state; example_state; example_state; example_state] /\
  (0 <= awake_timeout resting_device)%Z /\
  let d' := @run_updateWakefulness example_constants resting_device
              [example_state; example_state; example_state; example_state] in
  awake_timeout d' = Z.max (3 - 4) 0 /\ awake d' = (0 <? 3 - 4)%Z.
Proof.
  assert (Hq : @quiet_ticks example_constants resting_device
                 [example_state; example_state; example_state; example_state])
    by (vm_compute; repeat split; reflexivity).
  assert (Ht : (0 <= awake_timeout resting_device)%Z) by (simpl; lia).
  split; [exact Hq|]. split; [exact Ht|].
  pose proof (@countdown_without_wake example_constants resting_device
                [example_state; example_state; example_state; example_state]
                Hq Ht) as H.
  cbv zeta in H. destruct H as (H1 & H2).
  split; [exact H1|]. apply H2. discriminate.
Defined.

Lemma wake_takes_effect_next_tick_witness :
  (1 <= @UI_FREQ example_constants)%Z /\
  should_wake expiring_device tapped_state = true /\
  let d1 := fst (@updateWakefulness example_constants expiring_device
                   tapped_state) in
  let d2 := fst (@updateWakefulness example_constants d1 example_state) in
  awake d2 = true /\ awake d1 = false.
Proof.
  assert (Hf : (1 <= @UI_FREQ example_constants)%Z) by (simpl; lia).
  assert (Hl : (awake_timeout expiring_device <= 1)%Z) by (simpl; lia).
  split; [exact Hf|]. split; [reflexivity|].
  pose proof (@wake_takes_effect_next_tick example_constants expiring_device
                tapped_state example_state Hf eq_refl) as H.
  cbv zeta in H. destruct H as (H1 & H2).
  split; [exact H1|exact (H2 Hl)].
Defined.

Lemma countdown_in_range_witness :
  (0 <= @UI_FREQ example_constants)%Z /\
  (awake_timeout resting_device <= 30 * @UI_FREQ example_constants)%Z /\
  (0 <= awake_timeout (@run_updateWakefulness example_constants resting_device
                         [tapped_state; example_state])
   <= 30 * @UI_FREQ example_constants)%Z.
Proof.
  assert (Hf : (0 <= @UI_FREQ example_constants)%Z) by (simpl; lia).
  assert (Ht : (awake_timeout resting_device
                <= 30 * @UI_FREQ example_constants)%Z) by (simpl; lia).
  split; [exact Hf|]. split; [exact Ht|].
  apply (@countdown_in_range example_constants resting_device
           [tapped_state; example_state] Hf Ht).
  discriminate.
Defined.

Lemma calibration_permutes_rows_witness :
  updated sensor_sm "liveCalibration" = true /\
  world_objects_visible
    (scene (@update_state_liveCalibration example_constants sensor_sm
              example_state)) = true /\
  Forall2 eqv
    (mat3_v (view_from_calib
               (scene (@update_state_liveCalibration example_constants
                         sensor_sm example_state))))
    [Fin 0; Fin 1; Fin 0;
     Fin 0; Fin 0; Fin 1;
     Fin 1; Fin 0; Fin 0].
Proof.
  split; [reflexivity|].
  exact (@calibration_permutes_rows example_constants sensor_sm example_state
           eq_refl eq_refl eq_refl).
Defined.

Lemma engineRPM_rounds_to_hundreds_witness :
  0 <= 1234 /\ 1234 <= 2147483597 /\
  exists z : Z,
    engineRPM_of (Fin 1234) = (z * 100)%Z /\
    (0 <= z * 100 <= 2147483647)%Z /\
    1234 - 50 < inject_Z (z * 100) /\ inject_Z (z * 100) <= 1234 + 50.
Proof.
  assert (Hr : 0 <= 1234) by lra.
  assert (Hm : 1234 <= 2147483597) by lra.
  split; [exact Hr|]. split; [exact Hm|].
  exact (engineRPM_rounds_to_hundreds 1234 Hr Hm).
Defined.

Lemma path_horizon_bounded_witness :
  0 <= 10 /\ 10 <= 100 /\
  exists d : Q,
    track_vertices (scene (@update_model example_constants calibrated_state
                             lead_model))
    = @update_line_data example_constants calibrated_state straight_path
        (Fin 0.5) (Fin 1.22) (track_vertices (scene calibrated_state))
        (@get_path_length_idx example_constants straight_path (Fin d)) /\
    0 <= d /\ d <= 100 /\ d <= 2 * 20.
Proof.
  assert (Hlo : 0 <= 10) by lra.
  assert (Hhi : 10 <= 100) by lra.
  assert (Hx : 0 <= 20) by lra.
  split; [exact Hlo|]. split; [exact Hhi|].
  destruct (@path_horizon_bounded example_constants calibrated_state lead_model
              10 100 96 20 eq_refl eq_refl Hlo Hhi eq_refl eq_refl)
    as (d & H1 & H2 & H3 & H4).
  exists d. split; [exact H1|]. split; [exact H2|]. split; [exact H3|].
  exact (H4 eq_refl Hx).
Defined.

Lemma one_pedal_fade_held_at_session_start_witness :
  (Fin 6 - sessionInitTime (scene example_state) >? Fin 10)%fl = false /\
  one_pedal_fade
    (scene (@update_state example_constants example_state
              (example_sm ["carState"]%string (example_car_state 10 0) 0)
              example_params (Fin 6)))
  = one_pedal_fade (scene example_state).
Proof.
  split; [reflexivity|].
  exact (@one_pedal_fade_held_at_session_start example_constants example_state
           (example_sm ["carState"]%string (example_car_state 10 0) 0)
           example_params (Fin 6) eq_refl).
Defined.

Lemma brightness_in_range_witness :
  filter_ok (brightness_filter bright_device) /\
  is_finite (light_sensor (scene (lit_state 0.5))) = true /\
  filter_ok (brightness_filter (fst (updateBrightness bright_device
                                       (lit_state 0.5)))) /\
  (0 <= brightness_of bright_device (lit_state 0.5) <= 100)%Z.
Proof.
  assert (Hf : filter_ok (brightness_filter bright_device)).
  { unfold filter_ok; simpl. repeat split; try lra; vm_compute; discriminate. }
  split; [exact Hf|]. split; [reflexivity|].
  exact (brightness_in_range bright_device (lit_state 0.5) Hf
           (fun _ => eq_refl)).
Defined.

Lemma get_path_length_idx_prefix_witness :
  let r := @get_path_length_idx example_constants straight_path (Fin 30) in
  (at_ 0 (getX straight_path) <? Fin 30)%fl = true /\
  (1 <= @TRAJECTORY_SIZE example_constants)%nat /\
  (forall j, (j <= r)%nat -> (at_ j (getX straight_path) <? Fin 30)%fl = true) /\
  (at_ (S r) (getX straight_path) <? Fin 30)%fl = false.
Proof.
  cbv zeta.
  assert (H0 : (at_ 0 (getX straight_path) <? Fin 30)%fl = true)
    by (vm_compute; reflexivity).
  assert (H1 : (1 <= @TRAJECTORY_SIZE example_constants)%nat) by (simpl; lia).
  assert (H2 : (S (@get_path_length_idx example_constants straight_path
                     (Fin 30))
                < @TRAJECTORY_SIZE example_constants)%nat)
    by (vm_compute; lia).
  pose proof (@get_path_length_idx_prefix example_constants straight_path
                (Fin 30)) as H.
  cbv zeta in H. destruct H as (_ & H). destruct (H H0 H1) as (Ha & Hb).
  split; [exact H0|]. split; [exact H1|]. split; [exact Ha|exact (Hb H2)].
Defined.

Lemma update_state_started_flag_witness :
  let s' := @update_state example_constants example_state sensor_sm
              example_params (Fin 1) in
  started (scene s') = true /\ ignition (scene s') = true.
Proof.
  cbv zeta.
  assert (Hs : started (scene (@update_state example_constants example_state
                                 sensor_sm example_params (Fin 1))) = true)
    by (vm_compute; reflexivity).
  pose proof (@update_state_started_flag example_constants example_state
                sensor_sm example_params (Fin 1)) as H.
  cbv zeta in H. destruct H as (_ & _ & H).
  split; [exact Hs|exact (H Hs)].
Defined.


